(** * mini-interview-platform-backend: a model of [server.js]

    The server is one Express application over three Mongoose collections
    (users, candidates, interviews).  Every route handler is embedded as a
    function from the request and the current collections to a response and
    the collections afterwards.  What the handlers call from outside the
    repository is either given a small executable model (JavaScript numbers,
    the validator.js predicates used by the routes, Mongoose schema casting
    and validation, cursor sorting and paging) or taken as a variable of the
    section (e-mail syntax, the regular-expression engine, bcrypt, JSON web
    tokens, date parsing, and what a cursor does with a skip or a limit that
    is not a whole number).

    Scope of the model.
    - Strings are sequences of one-byte characters.
    - A finite JavaScript number is kept as an exact rational: rounding to
      binary64 and overflow to Infinity are not modelled, and -0 is 0.
    - The text fields of a JSON body and the query parameters are strings or
      absent; the numeric fields of a body and the two fields of a feedback
      body are JSON scalars.  Arrays and nested objects in a request are
      outside the model.
    - Letter case is folded for the letters A to Z only.
    - A sort leaves documents with equal keys in collection order; the
      store promises no order among them.
    - An identifier is well formed when it is twenty-four hexadecimal
      digits; a [0x] prefix, which some versions of validator.js let
      through [isMongoId], is not modelled. *)

From Stdlib Require Import List Bool Arith ZArith QArith Qabs Lia.
From Stdlib Require Import Ascii String Permutation Sorted.
From Stdlib Require Qcanon DecimalString DecimalNat.
Import ListNotations.

Open Scope string_scope.
Open Scope Z_scope.

(* ------------------------------------------------------------------ *)
(** ** JavaScript numbers *)

Module JsNum.

Inductive jsnum : Type :=
| NaN
| PInf
| NInf
| Fin (q : Q).

Definition of_Z (z : Z) : jsnum := Fin (inject_Z z).

(** [!!n]: NaN and zero are the falsy numbers. *)
Definition truthy (n : jsnum) : bool :=
  match n with
  | NaN => false
  | Fin q => negb (Qeq_bool q 0)
  | _ => true
  end.

(** [a || b] on a number [a]. *)
Definition or_else (a b : jsnum) : jsnum := if truthy a then a else b.

(** [a <= b]; every comparison with NaN is false. *)
Definition leb (a b : jsnum) : bool :=
  match a, b with
  | NaN, _ | _, NaN => false
  | NInf, _ => true
  | _, PInf => true
  | PInf, _ => false
  | _, NInf => false
  | Fin x, Fin y => Qle_bool x y
  end.

Definition geb (a b : jsnum) : bool := leb b a.

(** [a < b]. *)
Definition ltb (a b : jsnum) : bool :=
  match a, b with
  | NaN, _ | _, NaN => false
  | _, _ => negb (leb b a)
  end.

(** [a === b] on numbers. *)
Definition eqb (a b : jsnum) : bool :=
  match a, b with
  | PInf, PInf | NInf, NInf => true
  | Fin x, Fin y => Qeq_bool x y
  | _, _ => false
  end.

(** [Math.min(a, b)]. *)
Definition min (a b : jsnum) : jsnum :=
  match a, b with
  | NaN, _ | _, NaN => NaN
  | _, _ => if leb a b then a else b
  end.

(** [a - b]. *)
Definition sub (a b : jsnum) : jsnum :=
  match a, b with
  | NaN, _ | _, NaN => NaN
  | PInf, PInf | NInf, NInf => NaN
  | PInf, _ | _, NInf => PInf
  | NInf, _ | _, PInf => NInf
  | Fin x, Fin y => Fin (Qred (x - y))
  end.

Definition sign (a : jsnum) : Z :=
  match a with
  | NaN => 0
  | PInf => 1
  | NInf => -1
  | Fin q => Z.sgn (Qnum q)
  end.

(** [a * b]. *)
Definition mul (a b : jsnum) : jsnum :=
  match a, b with
  | NaN, _ | _, NaN => NaN
  | Fin x, Fin y => Fin (Qred (x * y))
  | _, _ =>
      match (sign a * sign b)%Z with
      | Z0 => NaN
      | Zpos _ => PInf
      | Zneg _ => NInf
      end
  end.

(** The number as an integer, when it is one. *)
Definition as_int (a : jsnum) : option Z :=
  match a with
  | Fin q =>
      let r := Qred q in
      if (Zpos (Qden r) =? 1)%Z then Some (Qnum r) else None
  | _ => None
  end.

End JsNum.

Import JsNum.

(* ------------------------------------------------------------------ *)
(** ** Strings *)

Module Str.

Definition chars (s : string) : list ascii := list_ascii_of_string s.

Definition code (c : ascii) : N := N_of_ascii c.

Definition is_digit (c : ascii) : bool :=
  ((48 <=? code c) && (code c <=? 57))%N.

Definition is_upper (c : ascii) : bool :=
  ((65 <=? code c) && (code c <=? 90))%N.

Definition is_hex (c : ascii) : bool :=
  is_digit c
  || ((65 <=? code c) && (code c <=? 70))%N
  || ((97 <=? code c) && (code c <=? 102))%N.

(** White space and line terminators that [String.prototype.trim] and the
    numeric-string grammar skip. *)
Definition is_space (c : ascii) : bool :=
  ((code c =? 9) || (code c =? 10) || (code c =? 11) || (code c =? 12)
   || (code c =? 13) || (code c =? 32) || (code c =? 160))%N.

Definition lower_char (c : ascii) : ascii :=
  if is_upper c then ascii_of_N (code c + 32) else c.

(** [String.prototype.toLowerCase]. *)
Fixpoint toLowerCase (s : string) : string :=
  match s with
  | EmptyString => EmptyString
  | String c r => String (lower_char c) (toLowerCase r)
  end.

Fixpoint drop_space (l : list ascii) : list ascii :=
  match l with
  | c :: r => if is_space c then drop_space r else l
  | [] => []
  end.

Definition trim (l : list ascii) : list ascii :=
  rev (drop_space (rev (drop_space l))).

(** [s.replace(pat, rep)] with a string pattern: the first occurrence only. *)
Fixpoint replace_first (pat rep s : string) : string :=
  if prefix pat s then rep ++ substring (length pat) (length s - length pat) s
  else match s with
       | EmptyString => EmptyString
       | String c r => String c (replace_first pat rep r)
       end.

(** A string is truthy when it is not empty. *)
Definition truthy (s : string) : bool :=
  match s with EmptyString => false | _ => true end.

(** Truthiness of a value that is a string or [undefined]. *)
Definition truthy_opt (o : option string) : bool :=
  match o with Some s => truthy s | None => false end.

End Str.

(* ------------------------------------------------------------------ *)
(** ** [Number(s)] on a string *)

Module NumberParse.

Import Str.

Definition digit_val (c : ascii) : option Z :=
  if is_digit c then Some (Z.of_N (code c) - 48) else None.

Definition hex_val (c : ascii) : option Z :=
  if is_digit c then Some (Z.of_N (code c) - 48)
  else if ((65 <=? code c) && (code c <=? 70))%N then Some (Z.of_N (code c) - 55)
  else if ((97 <=? code c) && (code c <=? 102))%N then Some (Z.of_N (code c) - 87)
  else None.

Definition oct_val (c : ascii) : option Z :=
  if ((48 <=? code c) && (code c <=? 55))%N then Some (Z.of_N (code c) - 48) else None.

Definition bin_val (c : ascii) : option Z :=
  if ((48 <=? code c) && (code c <=? 49))%N then Some (Z.of_N (code c) - 48) else None.

(** Value of a possibly empty run of digits in the given base. *)
Fixpoint digits (base : Z) (dv : ascii -> option Z) (acc : Z) (l : list ascii)
  : option Z :=
  match l with
  | [] => Some acc
  | c :: r =>
      match dv c with
      | Some d => digits base dv (acc * base + d) r
      | None => None
      end
  end.

(** Value of a non-empty run of digits. *)
Definition digits1 (base : Z) (dv : ascii -> option Z) (l : list ascii)
  : option Z :=
  match l with
  | [] => None
  | _ => digits base dv 0 l
  end.

(** Split at the first character satisfying [p]. *)
Fixpoint split_at (p : ascii -> bool) (l : list ascii)
  : list ascii * option (list ascii) :=
  match l with
  | [] => ([], None)
  | c :: r =>
      if p c then ([], Some r)
      else let '(a, b) := split_at p r in (c :: a, b)
  end.

Definition is_dot (c : ascii) : bool := (code c =? 46)%N.
Definition is_e (c : ascii) : bool := ((code c =? 101) || (code c =? 69))%N.
Definition is_plus (c : ascii) : bool := (code c =? 43)%N.
Definition is_minus (c : ascii) : bool := (code c =? 45)%N.

(** An optional sign: the sign as 1 or -1, and the rest. *)
Definition take_sign (l : list ascii) : Z * list ascii :=
  match l with
  | c :: r => if is_plus c then (1, r) else if is_minus c then (-1, r) else (1, l)
  | [] => (1, [])
  end.

(** [m * 10^e] as a reduced fraction. *)
Definition scale10 (m e : Z) : Q :=
  if (0 <=? e)%Z then inject_Z (m * 10 ^ e)
  else Qred (Qmake m (Z.to_pos (10 ^ (- e)))).

(** Mantissa [ddd], [ddd.], [ddd.ddd] or [.ddd]: its digits read as one
    integer, and the number of digits after the point. *)
Definition mantissa (l : list ascii) : option (Z * Z) :=
  match split_at is_dot l with
  | (ip, None) =>
      match digits1 10 digit_val ip with
      | Some m => Some (m, 0)
      | None => None
      end
  | (ip, Some fp) =>
      match ip, fp with
      | [], [] => None
      | _, _ =>
          match digits 10 digit_val 0 (ip ++ fp) with
          | Some m => Some (m, Z.of_nat (List.length fp))
          | None => None
          end
      end
  end.

Definition exponent (o : option (list ascii)) : option Z :=
  match o with
  | None => Some 0
  | Some l =>
      let '(sg, r) := take_sign l in
      match digits1 10 digit_val r with
      | Some e => Some (sg * e)
      | None => None
      end
  end.

(** StrUnsignedDecimalLiteral without [Infinity]. *)
Definition unsigned_decimal (l : list ascii) : option Q :=
  let '(mp, ep) := split_at is_e l in
  match mantissa mp, exponent ep with
  | Some (m, k), Some e => Some (scale10 m (e - k))
  | _, _ => None
  end.

Definition infinity_chars : list ascii := chars "Infinity".

Definition chars_eqb (a b : list ascii) : bool :=
  String.eqb (string_of_list_ascii a) (string_of_list_ascii b).

(** StrDecimalLiteral: an optional sign, then [Infinity] or a decimal. *)
Definition signed_decimal (l : list ascii) : jsnum :=
  let '(sg, r) := take_sign l in
  if chars_eqb r infinity_chars then (if (sg =? 1)%Z then PInf else NInf)
  else match unsigned_decimal r with
       | Some q => Fin (Qred (inject_Z sg * q))
       | None => NaN
       end.

(** NonDecimalIntegerLiteral: [0x], [0o], [0b] and their digits, unsigned. *)
Definition non_decimal (l : list ascii) : option Z :=
  match l with
  | z :: p :: r =>
      if (code z =? 48)%N then
        if ((code p =? 120) || (code p =? 88))%N then digits1 16 hex_val r
        else if ((code p =? 111) || (code p =? 79))%N then digits1 8 oct_val r
        else if ((code p =? 98) || (code p =? 66))%N then digits1 2 bin_val r
        else None
      else None
  | _ => None
  end.

(** [Number(s)] for a string [s] (the StringToNumber conversion). *)
Definition Number_of_string (s : string) : jsnum :=
  match trim (chars s) with
  | [] => Fin 0
  | t =>
      match non_decimal t with
      | Some z => Fin (inject_Z z)
      | None => signed_decimal t
      end
  end.

End NumberParse.

Import NumberParse.

(* ------------------------------------------------------------------ *)
(** ** JSON scalars and the conversions applied to them *)

Inductive jsval : Type :=
| JNull
| JBool (b : bool)
| JNum (n : jsnum)
| JStr (s : string).

(** [Number(v)]; an absent field is [undefined]. *)
Definition Number (o : option jsval) : jsnum :=
  match o with
  | None => NaN
  | Some JNull => Fin 0
  | Some (JBool b) => if b then Fin 1 else Fin 0
  | Some (JNum n) => n
  | Some (JStr s) => Number_of_string s
  end.

(** [Number(s)] for a query parameter. *)
Definition Number_of_param (o : option string) : jsnum :=
  match o with
  | None => NaN
  | Some s => Number_of_string s
  end.

(* ------------------------------------------------------------------ *)
(** ** The validators of express-validator used by the routes

    A standard validator is applied to the field turned into a string
    ([undefined], [null] and NaN become the empty string). *)

Module Validator.

Import Str.

(** validator.js [isNumeric]: [^[+-]?([0-9]*[.])?[0-9]+$]. *)
Definition isNumeric_chars (l : list ascii) : bool :=
  let body :=
    match l with
    | c :: r => if is_plus c || is_minus c then r else l
    | [] => []
    end in
  match split_at is_dot body with
  | (ip, None) => negb (Nat.eqb (List.length ip) 0) && forallb is_digit ip
  | (ip, Some fp) =>
      forallb is_digit ip
      && negb (Nat.eqb (List.length fp) 0) && forallb is_digit fp
  end.

Definition isNumeric_string (s : string) : bool := isNumeric_chars (chars s).

(** [String(n)] is written without an exponent exactly when [n] is zero or
    [1e-6 <= |n| < 1e21]; only then can it match the pattern above. *)
Definition plain_decimal (n : jsnum) : bool :=
  match n with
  | Fin q =>
      Qeq_bool q 0
      || (Qle_bool (1 # 1000000) (Qabs q)
          && negb (Qle_bool (inject_Z (10 ^ 21)) (Qabs q)))
  | _ => false
  end.

(** [.isNumeric()] on a body field. *)
Definition isNumeric (o : option jsval) : bool :=
  match o with
  | Some (JNum n) => plain_decimal n
  | Some (JStr s) => isNumeric_string s
  | _ => false
  end.

(** [.notEmpty()] on a text field. *)
Definition notEmpty (o : option string) : bool := truthy_opt o.

(** [.isLength({ min })] on a text field. *)
Definition isLength_min (min : nat) (o : option string) : bool :=
  match o with
  | Some s => Nat.leb min (String.length s)
  | None => Nat.leb min 0
  end.

(** [.isIn(values)]. *)
Definition isIn (values : list string) (o : option string) : bool :=
  match o with
  | Some s => existsb (String.eqb s) values
  | None => existsb (String.eqb "") values
  end.

(** [.isMongoId()]: twenty-four hexadecimal digits. *)
Definition isMongoId_string (s : string) : bool :=
  Nat.eqb (String.length s) 24 && forallb is_hex (chars s).

Definition isMongoId (o : option string) : bool :=
  match o with
  | Some s => isMongoId_string s
  | None => false
  end.

(** [.isString()]: the field itself is a string. *)
Definition isString (o : option jsval) : bool :=
  match o with
  | Some (JStr _) => true
  | _ => false
  end.

(** [.optional()]: the rest of the chain is skipped for an absent field. *)
Definition optional {A} (check : option A -> bool) (o : option A) : bool :=
  match o with
  | None => true
  | Some _ => check o
  end.

(** One entry of [validationResult(req).array()]. *)
Record verror := { param : string; msg : string }.

Definition check (ok : bool) (field message : string) : list verror :=
  if ok then [] else [{| param := field; msg := message |}].

End Validator.

(* ------------------------------------------------------------------ *)
(** ** Documents *)

(** An ObjectId, written as its twenty-four lower-case hexadecimal digits. *)
Definition ObjectId := string.

(** Casting a string to an ObjectId. *)
Definition castObjectId (s : string) : option ObjectId :=
  if Validator.isMongoId_string s then Some (Str.toLowerCase s) else None.

Module User.
Record t := {
  _id : ObjectId;
  name : string;
  email : string;
  passwordHash : string;
  role : string;
  createdAt : Z;
  updatedAt : Z
}.
End User.

Module Candidate.
Record t := {
  _id : ObjectId;
  name : string;
  role : string;
  experience : jsnum;
  rating : jsnum;
  notes : string;
  createdBy : ObjectId;
  createdAt : Z;
  updatedAt : Z
}.
End Candidate.

Module Interview.
(** The nested [feedback] path; a field never set is absent. *)
Record feedback_t := {
  fb_rating : option jsnum;
  fb_notes : option string
}.

Record t := {
  _id : ObjectId;
  candidate : ObjectId;
  date : Z;
  interviewer : string;
  mode : string;
  feedback : feedback_t;
  createdBy : ObjectId;
  createdAt : Z;
  updatedAt : Z
}.

(** An interview after [populate('candidate')]. *)
Record populated := {
  doc : t;
  candidate_doc : option Candidate.t
}.
End Interview.

(** The three collections, each in insertion order. *)
Record store := {
  users : list User.t;
  candidates : list Candidate.t;
  interviews : list Interview.t
}.

(* ------------------------------------------------------------------ *)
(** ** Errors and responses *)

(** The properties of a thrown error that the server reads. *)
Record error := {
  err_name : string;
  err_code : option Z;
  err_status : option Z;
  err_message : string;
  err_keyValue : option (string * string)
}.

(** A Mongoose document validation failure (failed casts included). *)
Definition ValidationError (message : string) : error :=
  {| err_name := "ValidationError"; err_code := None; err_status := None;
     err_message := message; err_keyValue := None |}.

(** A failed cast of a query filter. *)
Definition CastError (message : string) : error :=
  {| err_name := "CastError"; err_code := None; err_status := None;
     err_message := message; err_keyValue := None |}.

(** A unique index refused an insert. *)
Definition DuplicateKey (key value : string) : error :=
  {| err_name := "MongoServerError"; err_code := Some 11000; err_status := None;
     err_message := "E11000 duplicate key error"; err_keyValue := Some (key, value) |}.

(** The server refused a command. *)
Definition ServerError (code : Z) (message : string) : error :=
  {| err_name := "MongoServerError"; err_code := Some code; err_status := None;
     err_message := message; err_keyValue := None |}.

(** Result of a store operation that may throw. *)
Inductive result (A : Type) : Type :=
| Ok (a : A)
| Throw (e : error).
Arguments Ok {A} a.
Arguments Throw {A} e.

Definition token := string.

(** The payload of a token. *)
Record claims := {
  userId : ObjectId;
  role : option string
}.

Inductive body : Type :=
| JsonError (message : string)                        (* { error } *)
| JsonErrors (errors : list Validator.verror)         (* { errors } *)
| JsonDuplicate (details : option (string * string))  (* { error, details } *)
| JsonToken (t : token)                               (* { token } *)
| JsonHealth (now : Z)                                (* { ok, now } *)
| JsonCandidate (c : Candidate.t)
| JsonInterview (iv : Interview.t)
| JsonCandidates (data : list Candidate.t) (total : nat)
| JsonInterviews (data : list Interview.populated) (total : nat)
| DefaultErrorPage (e : error).                       (* Express's own page *)

Record response := {
  status : Z;
  content : body
}.

Definition json (st : Z) (b : body) : response := {| status := st; content := b |}.

(* ------------------------------------------------------------------ *)
(** ** The application stack and where a thrown error goes *)

Inductive route : Type :=
| Health | Signup | Login
| CreateCandidate | ListCandidates | CandidateDetails
| ScheduleInterview | ListInterviews | Feedback.

Inductive layer : Type :=
| Cors
| JsonParser
| ErrorLayer          (* the four-argument middleware of lines 54-60 *)
| Route (r : route)
| Fallback404.

Scheme Equality for route.
Scheme Equality for layer.

(** The layers in the order [server.js] registers them. *)
Definition app : list layer :=
  [ Cors; JsonParser; ErrorLayer;
    Route Health; Route Signup; Route Login;
    Route CreateCandidate; Route ListCandidates; Route CandidateDetails;
    Route ScheduleInterview; Route ListInterviews; Route Feedback;
    Fallback404 ].

(** Lines 54-60. *)
Definition errorHandler (err : error) : response :=
  if String.eqb (err_name err) "MongoServerError"
     && match err_code err with Some c => (c =? 11000)%Z | None => false end
  then json 400 (JsonDuplicate (err_keyValue err))
  else json (match err_status err with
             | Some st => if (st =? 0)%Z then 500 else st
             | None => 500
             end)
            (JsonError (if Str.truthy (err_message err) then err_message err
                        else "Server error")).

(** What Express answers when no error middleware takes the error. *)
Definition finalhandler (err : error) : response :=
  json (match err_status err with
        | Some st => if ((400 <=? st) && (st <? 600))%Z then st else 500
        | None => 500
        end)
       (DefaultErrorPage err).

Fixpoint layers_after (x : layer) (stack : list layer) : list layer :=
  match stack with
  | [] => []
  | l :: rest => if layer_beq l x then rest else layers_after x rest
  end.

Definition is_error_layer (l : layer) : bool := layer_beq l ErrorLayer.

(** [next(err)] from a route: Express hands the error to the first error
    middleware registered after that route, and to its own final handler
    when there is none. *)
Definition next_err (from : route) (err : error) : response :=
  if existsb is_error_layer (layers_after (Route from) app)
  then errorHandler err
  else finalhandler err.

(* ------------------------------------------------------------------ *)
(** ** Requests *)

Module SignupReq.
Record t := { name : option string; email : option string; password : option string }.
End SignupReq.

Module LoginReq.
Record t := { email : option string; password : option string }.
End LoginReq.

Module CandidateReq.
Record t := {
  name : option string;
  role : option string;
  experience : option jsval;
  rating : option jsval;
  notes : option string
}.
End CandidateReq.

Module CandidateQuery.
Record t := {
  q : option string;
  role : option string;
  minExp : option string;
  page : option string;
  limit : option string
}.
End CandidateQuery.

Module InterviewReq.
Record t := {
  candidate : option string;
  date : option string;
  interviewer : option string;
  mode : option string
}.
End InterviewReq.

Module InterviewQuery.
Record t := {
  candidateId : option string;
  page : option string;
  limit : option string
}.
End InterviewQuery.

Module FeedbackReq.
Record t := { rating : option jsval; notes : option jsval }.
End FeedbackReq.

(** What a handler takes from its surroundings while serving one request:
    the clock, the ObjectId the driver generates for a new document, and the
    salt bcrypt draws. *)
Record env := {
  now : Z;
  new_id : ObjectId;
  salt : string
}.

(** A text field after destructuring; an absent one is [undefined], which
    the schemas treat like the empty string. *)
Definition text (o : option string) : string :=
  match o with Some s => s | None => "" end.

(* ------------------------------------------------------------------ *)
(** ** Cursors: sorting and paging *)

Section Cursor.

Context {A : Type}.
Variable key : A -> Z.

(** Insert [x] in front of the first element whose key is not greater. *)
Fixpoint insert_desc (x : A) (l : list A) : list A :=
  match l with
  | [] => [x]
  | y :: r => if (key y <=? key x)%Z then x :: l else y :: insert_desc x r
  end.

(** The order of a descending sort: the greater key comes first. *)
Definition later_first (a b : A) : Prop := (key b <= key a)%Z.

(** [.sort({ key: -1 })]: descending, documents with equal keys left in
    collection order. *)
Definition sort_desc (l : list A) : list A := fold_right insert_desc [] l.

End Cursor.

(** Lines 144 and 194: [page = 1] by default, then [Number(page) || 1]. *)
Definition effective_page (page : option string) : jsnum :=
  or_else (match page with
           | None => Fin 1
           | Some p => Number_of_string p
           end) (Fin 1).

(** Lines 153 and 203: [Math.min(Number(limit) || 10, 100)]. *)
Definition effective_limit (limit : option string) : jsnum :=
  JsNum.min (or_else (Number_of_param limit) (Fin 10)) (Fin 100).

(** Lines 154 and 204: [(page - 1) * limit]. *)
Definition skip_of (page limit : jsnum) : jsnum :=
  mul (sub page (Fin 1)) limit.

(** Lines 148 and 198: [limit === 'all']. *)
Definition is_all (limit : option string) : bool :=
  match limit with
  | Some s => String.eqb s "all"
  | None => false
  end.

(* ------------------------------------------------------------------ *)
(** ** The server *)

Section Server.

Set Default Proof Using "Type".

(** validator.js [isEmail]. *)
Variable isEmail : string -> bool.
(** The store's [$regex] with option [i]: the matcher of a pattern, or
    nothing when the pattern is not a regular expression. *)
Variable regex_i : string -> option (string -> bool).
(** Whether Mongoose applies the setters of a path ([lowercase] here) to the
    value of that path in a query filter. *)
Variable query_setters : bool.
(** [bcrypt.hash(data, rounds)] with the salt it draws, and [bcrypt.compare]. *)
Variable bcrypt_hash : string -> Z -> string -> string.
Variable bcrypt_compare : string -> string -> bool.
(** [jwt.sign(payload, secret, { expiresIn })] at a time, and [jwt.verify]
    at a time: the payload, or nothing when it throws. *)
Variable jwt_sign : claims -> string -> string -> Z -> token.
Variable jwt_verify : token -> string -> Z -> option claims.
(** [new Date(s)]: the time value, or nothing for an invalid date. *)
Variable Date_parse : string -> option Z.
(** [process.env.JWT_SECRET]. *)
Variable JWT_SECRET : string.
(** What a cursor answers when [skip] or [limit] is not a whole number
    (a fraction, an infinity); nothing in the source tells. *)
Variable cursor_other : forall A : Type, jsnum -> jsnum -> list A -> result (list A).

Import Validator.

(** *** Cursors *)

(** [.skip(skip).limit(limit)] with whole numbers: a negative skip is
    refused by the store; a limit of zero is no limit, and a negative limit
    asks for that many documents. *)
Definition cursor_page {A : Type} (skip limit : jsnum) (l : list A)
  : result (list A) :=
  match as_int skip, as_int limit with
  | Some k, Some n =>
      if (k <? 0)%Z then Throw (ServerError 2 "skip must be non-negative")
      else
        let rest := skipn (Z.to_nat k) l in
        Ok (if (n =? 0)%Z then rest else firstn (Z.abs_nat n) rest)
  | _, _ => cursor_other A skip limit l
  end.

(** *** Auth middleware (lines 63-77) *)

Inductive auth_outcome : Type :=
| Denied (r : response)
| Next (user : claims).     (* [req.user = payload; next()] *)

Definition role_is (payload : claims) (r : string) : bool :=
  match role payload with
  | Some x => String.eqb x r
  | None => false
  end.

Definition auth (requiredRole : string) (e : env) (header : option string)
  : auth_outcome :=
  if negb (Str.truthy_opt header)
  then Denied (json 401 (JsonError "No token provided"))
  else
    let token := Str.replace_first "Bearer " "" (text header) in
    match jwt_verify token JWT_SECRET (now e) with
    | Some payload =>
        if Str.truthy requiredRole && negb (role_is payload requiredRole)
        then Denied (json 403 (JsonError "Forbidden"))
        else Next payload
    | None => Denied (json 401 (JsonError "Invalid token"))
    end.

(** *** GET /api/health (line 91) and the fallback (line 231) *)

Definition health (e : env) : response := json 200 (JsonHealth (now e)).

Definition notFound : response := json 404 (JsonError "Not found").

(** *** Users *)

(** [User.findOne({ email })]. *)
Definition User_findOne (email : string) (us : list User.t) : option User.t :=
  let wanted := if query_setters then Str.toLowerCase email else email in
  find (fun u => String.eqb (User.email u) wanted) us.

(** [new User({ name, email, passwordHash })]: the [lowercase] setter and the
    default role. *)
Definition new_User (e : env) (name email passwordHash : string) : User.t :=
  {| User._id := new_id e;
     User.name := name;
     User.email := Str.toLowerCase email;
     User.passwordHash := passwordHash;
     User.role := "hr";
     User.createdAt := now e;
     User.updatedAt := now e |}.

Definition User_validate (u : User.t) : option error :=
  if negb (Str.truthy (User.name u)) then Some (ValidationError "name required")
  else if negb (Str.truthy (User.email u)) then Some (ValidationError "email required")
  else if negb (Str.truthy (User.passwordHash u))
       then Some (ValidationError "passwordHash required")
  else if negb (String.eqb (User.role u) "hr") then Some (ValidationError "role enum")
  else None.

(** [user.save()] for a new user: validation, then the insert, which the
    unique indexes on [_id] and [email] may refuse. *)
Definition User_save (u : User.t) (s : store) : result store :=
  match User_validate u with
  | Some err => Throw err
  | None =>
      if existsb (fun x => String.eqb (User._id x) (User._id u)) (users s)
      then Throw (DuplicateKey "_id" (User._id u))
      else if existsb (fun x => String.eqb (User.email x) (User.email u)) (users s)
      then Throw (DuplicateKey "email" (User.email u))
      else Ok {| users := users s ++ [u];
                 candidates := candidates s;
                 interviews := interviews s |}
  end.

Definition issue_token (e : env) (u : User.t) : token :=
  jwt_sign {| userId := User._id u; role := Some (User.role u) |}
           JWT_SECRET "8h" (now e).

(** *** POST /api/auth/signup (lines 94-107) *)

Definition signup_validation (b : SignupReq.t) : list verror :=
  check (notEmpty (SignupReq.name b)) "name" "Name required"
  ++ check (isEmail (text (SignupReq.email b))) "email" "Valid email required"
  ++ check (isLength_min 6 (SignupReq.password b)) "password" "Password min 6 chars".

Definition signup (e : env) (b : SignupReq.t) (s : store) : response * store :=
  match signup_validation b with
  | err :: errs => (json 400 (JsonErrors (err :: errs)), s)
  | [] =>
      let name := text (SignupReq.name b) in
      let email := text (SignupReq.email b) in
      let password := text (SignupReq.password b) in
      match User_findOne email (users s) with
      | Some _ => (json 400 (JsonError "Email already registered"), s)
      | None =>
          let passwordHash := bcrypt_hash password 10 (salt e) in
          let user := new_User e name email passwordHash in
          match User_save user s with
          | Throw err => (next_err Signup err, s)
          | Ok s' => (json 200 (JsonToken (issue_token e user)), s')
          end
      end
  end.

(** *** POST /api/auth/login (lines 110-121) *)

Definition login_validation (b : LoginReq.t) : list verror :=
  check (isEmail (text (LoginReq.email b))) "email" "Invalid value"
  ++ check (notEmpty (LoginReq.password b)) "password" "Invalid value".

Definition login (e : env) (b : LoginReq.t) (s : store) : response :=
  match login_validation b with
  | err :: errs => json 400 (JsonErrors (err :: errs))
  | [] =>
      let email := text (LoginReq.email b) in
      let password := text (LoginReq.password b) in
      match User_findOne email (users s) with
      | None => json 401 (JsonError "Invalid credentials")
      | Some user =>
          if negb (bcrypt_compare password (User.passwordHash user))
          then json 401 (JsonError "Invalid credentials")
          else json 200 (JsonToken (issue_token e user))
      end
  end.

(** *** Candidates *)

(** [new Candidate({ ... })]. *)
Definition new_Candidate (e : env) (name role : string) (experience rating : jsnum)
  (notes : string) (createdBy : ObjectId) : Candidate.t :=
  {| Candidate._id := new_id e;
     Candidate.name := name;
     Candidate.role := role;
     Candidate.experience := experience;
     Candidate.rating := rating;
     Candidate.notes := notes;
     Candidate.createdBy := createdBy;
     Candidate.createdAt := now e;
     Candidate.updatedAt := now e |}.

(** Whether a number casts to the schema type [Number]: NaN does not. *)
Definition casts_to_Number (n : jsnum) : bool :=
  match n with NaN => false | _ => true end.

(** Validation against [candidateSchema] (lines 33-40). *)
Definition Candidate_validate (c : Candidate.t) : option error :=
  if negb (Str.truthy (Candidate.name c)) then Some (ValidationError "name required")
  else if negb (Str.truthy (Candidate.role c)) then Some (ValidationError "role required")
  else if negb (casts_to_Number (Candidate.experience c))
       then Some (ValidationError "experience: cast to Number failed")
  else if negb (geb (Candidate.experience c) (Fin 0))
       then Some (ValidationError "experience is less than minimum allowed value (0)")
  else if negb (casts_to_Number (Candidate.rating c))
       then Some (ValidationError "rating: cast to Number failed")
  else None.

(** [candidate.save()] for a new candidate. *)
Definition Candidate_save (c : Candidate.t) (s : store) : result store :=
  match Candidate_validate c with
  | Some err => Throw err
  | None =>
      if existsb (fun x => String.eqb (Candidate._id x) (Candidate._id c)) (candidates s)
      then Throw (DuplicateKey "_id" (Candidate._id c))
      else Ok {| users := users s;
                 candidates := candidates s ++ [c];
                 interviews := interviews s |}
  end.

(** [Candidate.findById(id)]. *)
Definition Candidate_findById (id : string) (cs : list Candidate.t)
  : result (option Candidate.t) :=
  match castObjectId id with
  | None => Throw (CastError "Cast to ObjectId failed for path _id")
  | Some oid => Ok (find (fun c => String.eqb (Candidate._id c) oid) cs)
  end.

(** *** POST /api/candidates (lines 124-134) *)

(** The default of the destructuring [rating = 0]. *)
Definition rating_or_default (b : CandidateReq.t) : option jsval :=
  match CandidateReq.rating b with
  | None => Some (JNum (Fin 0))
  | Some r => Some r
  end.

Definition candidate_validation (b : CandidateReq.t) : list verror :=
  check (notEmpty (CandidateReq.name b)) "name" "Invalid value"
  ++ check (notEmpty (CandidateReq.role b)) "role" "Invalid value"
  ++ check (isNumeric (CandidateReq.experience b)) "experience" "Invalid value".

Definition createCandidate (e : env) (header : option string)
  (b : CandidateReq.t) (s : store) : response * store :=
  match auth "hr" e header with
  | Denied r => (r, s)
  | Next user =>
      match candidate_validation b with
      | err :: errs => (json 400 (JsonErrors (err :: errs)), s)
      | [] =>
          let name := text (CandidateReq.name b) in
          let role := text (CandidateReq.role b) in
          let experience := CandidateReq.experience b in
          let rating := rating_or_default b in
          let notes := text (CandidateReq.notes b) in
          let candidate :=
            new_Candidate e name role (Number experience) (Number rating) notes
                          (userId user) in
          match Candidate_save candidate s with
          | Throw err => (next_err CreateCandidate err, s)
          | Ok s' => (json 201 (JsonCandidate candidate), s')
          end
      end
  end.

(** *** GET /api/candidates (lines 137-162) *)

(** The [filter] object: a key is present when the handler set it. *)
Record candidate_filter := {
  f_name : option string;         (* { $regex: q, $options: 'i' } *)
  f_role : option string;
  f_experience : option jsnum     (* { $gte: n } *)
}.

(** Lines 139-142. *)
Definition build_candidate_filter (q : CandidateQuery.t) : candidate_filter :=
  {| f_name := if Str.truthy_opt (CandidateQuery.q q) then CandidateQuery.q q else None;
     f_role := if Str.truthy_opt (CandidateQuery.role q)
               then CandidateQuery.role q else None;
     f_experience := if Str.truthy_opt (CandidateQuery.minExp q)
                     then Some (Number_of_param (CandidateQuery.minExp q))
                     else None |}.

(** The filter as a test on documents, after casting; a bound that does not
    cast to a number and a pattern the store rejects make the query throw. *)
Definition cast_candidate_filter (f : candidate_filter)
  : result (Candidate.t -> bool) :=
  match f_experience f with
  | Some NaN => Throw (CastError "Cast to Number failed for path experience")
  | _ =>
      match f_name f with
      | Some pat =>
          match regex_i pat with
          | None => Throw (ServerError 51091 "Regular expression is invalid")
          | Some matches =>
              Ok (fun c =>
                    matches (Candidate.name c)
                    && match f_role f with
                       | Some r => String.eqb (Candidate.role c) r
                       | None => true
                       end
                    && match f_experience f with
                       | Some n => geb (Candidate.experience c) n
                       | None => true
                       end)
          end
      | None =>
          Ok (fun c =>
                match f_role f with
                | Some r => String.eqb (Candidate.role c) r
                | None => true
                end
                && match f_experience f with
                   | Some n => geb (Candidate.experience c) n
                   | None => true
                   end)
      end
  end.

(** [Candidate.find(filter).sort({ createdAt: -1 })]. *)
Definition Candidate_find_sorted (f : candidate_filter) (cs : list Candidate.t)
  : result (list Candidate.t) :=
  match cast_candidate_filter f with
  | Throw err => Throw err
  | Ok matches => Ok (sort_desc Candidate.createdAt (filter matches cs))
  end.

(** [Candidate.countDocuments(filter)]. *)
Definition Candidate_countDocuments (f : candidate_filter) (cs : list Candidate.t)
  : result nat :=
  match cast_candidate_filter f with
  | Throw err => Throw err
  | Ok matches => Ok (List.length (filter matches cs))
  end.

Definition listCandidates (e : env) (header : option string)
  (q : CandidateQuery.t) (s : store) : response :=
  match auth "hr" e header with
  | Denied r => r
  | Next _ =>
      let filter := build_candidate_filter q in
      let page := effective_page (CandidateQuery.page q) in
      let candidatesQuery := Candidate_find_sorted filter (candidates s) in
      if is_all (CandidateQuery.limit q) then
        match candidatesQuery with
        | Throw err => next_err ListCandidates err
        | Ok data => json 200 (JsonCandidates data (List.length data))
        end
      else
        let limit := effective_limit (CandidateQuery.limit q) in
        let skip := skip_of page limit in
        match candidatesQuery with
        | Throw err => next_err ListCandidates err
        | Ok found =>
            match cursor_page skip limit found,
                  Candidate_countDocuments filter (candidates s) with
            | Throw err, _ => next_err ListCandidates err
            | _, Throw err => next_err ListCandidates err
            | Ok data, Ok total => json 200 (JsonCandidates data total)
            end
        end
  end.

(** *** GET /api/candidates/:id (lines 165-172) *)

Definition candidateDetails (e : env) (header : option string) (id : string)
  (s : store) : response :=
  match auth "hr" e header with
  | Denied r => r
  | Next _ =>
      match check (isMongoId (Some id)) "id" "Invalid value" with
      | err :: errs => json 400 (JsonErrors (err :: errs))
      | [] =>
          match Candidate_findById id (candidates s) with
          | Throw err => next_err CandidateDetails err
          | Ok None => json 404 (JsonError "Candidate not found")
          | Ok (Some candidate) => json 200 (JsonCandidate candidate)
          end
      end
  end.

(** *** Interviews *)

Definition empty_feedback : Interview.feedback_t :=
  {| Interview.fb_rating := None; Interview.fb_notes := None |}.

(** Validation against [interviewSchema] (lines 43-50) of the fields handed
    to [new Interview({ ... })]; the result is the document. *)
Definition new_Interview (e : env) (candidate : string) (date : option Z)
  (interviewer mode : string) (createdBy : ObjectId) : result Interview.t :=
  match castObjectId candidate with
  | None => Throw (ValidationError "candidate: cast to ObjectId failed")
  | Some cand =>
      match date with
      | None => Throw (ValidationError "date: cast to date failed")
      | Some d =>
          if negb (Str.truthy interviewer)
          then Throw (ValidationError "interviewer required")
          else if negb (String.eqb mode "onsite" || String.eqb mode "remote")
          then Throw (ValidationError "mode enum")
          else Ok {| Interview._id := new_id e;
                     Interview.candidate := cand;
                     Interview.date := d;
                     Interview.interviewer := interviewer;
                     Interview.mode := mode;
                     Interview.feedback := empty_feedback;
                     Interview.createdBy := createdBy;
                     Interview.createdAt := now e;
                     Interview.updatedAt := now e |}
      end
  end.

(** [iv.save()] for a new interview. *)
Definition Interview_insert (iv : Interview.t) (s : store) : result store :=
  if existsb (fun x => String.eqb (Interview._id x) (Interview._id iv)) (interviews s)
  then Throw (DuplicateKey "_id" (Interview._id iv))
  else Ok {| users := users s;
             candidates := candidates s;
             interviews := interviews s ++ [iv] |}.

(** [Interview.findById(id)]. *)
Definition Interview_findById (id : string) (ivs : list Interview.t)
  : result (option Interview.t) :=
  match castObjectId id with
  | None => Throw (CastError "Cast to ObjectId failed for path _id")
  | Some oid => Ok (find (fun iv => String.eqb (Interview._id iv) oid) ivs)
  end.

(** *** POST /api/interviews (lines 175-187) *)

Definition interview_validation (b : InterviewReq.t) : list verror :=
  check (isMongoId (InterviewReq.candidate b)) "candidate" "Invalid value"
  ++ check (notEmpty (InterviewReq.date b)) "date" "Invalid value"
  ++ check (notEmpty (InterviewReq.interviewer b)) "interviewer" "Invalid value"
  ++ check (optional (isIn ["onsite"; "remote"]) (InterviewReq.mode b))
           "mode" "Invalid value".

Definition scheduleInterview (e : env) (header : option string)
  (b : InterviewReq.t) (s : store) : response * store :=
  match auth "hr" e header with
  | Denied r => (r, s)
  | Next user =>
      match interview_validation b with
      | err :: errs => (json 400 (JsonErrors (err :: errs)), s)
      | [] =>
          let candidate := text (InterviewReq.candidate b) in
          let date := text (InterviewReq.date b) in
          let interviewer := text (InterviewReq.interviewer b) in
          let mode := match InterviewReq.mode b with
                      | None => "remote"
                      | Some m => m
                      end in
          match Candidate_findById candidate (candidates s) with
          | Throw err => (next_err ScheduleInterview err, s)
          | Ok None => (json 404 (JsonError "Candidate not found"), s)
          | Ok (Some _) =>
              match new_Interview e candidate (Date_parse date) interviewer mode
                                  (userId user) with
              | Throw err => (next_err ScheduleInterview err, s)
              | Ok iv =>
                  match Interview_insert iv s with
                  | Throw err => (next_err ScheduleInterview err, s)
                  | Ok s' => (json 201 (JsonInterview iv), s')
                  end
              end
          end
      end
  end.

(** *** GET /api/interviews (lines 190-212) *)

(** The [filter] object of the interview list: at most the [candidate] key. *)
Definition build_interview_filter (q : InterviewQuery.t) : option string :=
  if Str.truthy_opt (InterviewQuery.candidateId q)
  then InterviewQuery.candidateId q else None.

Definition cast_interview_filter (f : option string)
  : result (Interview.t -> bool) :=
  match f with
  | None => Ok (fun _ => true)
  | Some id =>
      match castObjectId id with
      | None => Throw (CastError "Cast to ObjectId failed for path candidate")
      | Some oid => Ok (fun iv => String.eqb (Interview.candidate iv) oid)
      end
  end.

(** [populate('candidate')] on one interview. *)
Definition populate (cs : list Candidate.t) (iv : Interview.t) : Interview.populated :=
  {| Interview.doc := iv;
     Interview.candidate_doc :=
       find (fun c => String.eqb (Candidate._id c) (Interview.candidate iv)) cs |}.

(** [Interview.find(filter).populate('candidate').sort({ date: -1 })]. *)
Definition Interview_find_sorted (f : option string) (s : store)
  : result (list Interview.populated) :=
  match cast_interview_filter f with
  | Throw err => Throw err
  | Ok matches =>
      Ok (map (populate (candidates s))
              (sort_desc Interview.date (filter matches (interviews s))))
  end.

(** [Interview.countDocuments(filter)]. *)
Definition Interview_countDocuments (f : option string) (s : store) : result nat :=
  match cast_interview_filter f with
  | Throw err => Throw err
  | Ok matches => Ok (List.length (filter matches (interviews s)))
  end.

Definition listInterviews (e : env) (header : option string)
  (q : InterviewQuery.t) (s : store) : response :=
  match auth "hr" e header with
  | Denied r => r
  | Next _ =>
      let filter := build_interview_filter q in
      let page := effective_page (InterviewQuery.page q) in
      let interviewsQuery := Interview_find_sorted filter s in
      if is_all (InterviewQuery.limit q) then
        match interviewsQuery with
        | Throw err => next_err ListInterviews err
        | Ok data => json 200 (JsonInterviews data (List.length data))
        end
      else
        let limit := effective_limit (InterviewQuery.limit q) in
        let skip := skip_of page limit in
        match interviewsQuery with
        | Throw err => next_err ListInterviews err
        | Ok found =>
            match cursor_page skip limit found, Interview_countDocuments filter s with
            | Throw err, _ => next_err ListInterviews err
            | _, Throw err => next_err ListInterviews err
            | Ok data, Ok total => json 200 (JsonInterviews data total)
            end
        end
  end.

(** *** POST /api/interviews/:id/feedback (lines 215-228) *)

Definition feedback_validation (id : string) (b : FeedbackReq.t) : list verror :=
  check (isMongoId (Some id)) "id" "Invalid value"
  ++ check (optional isNumeric (FeedbackReq.rating b)) "rating" "Invalid value"
  ++ check (optional isString (FeedbackReq.notes b)) "notes" "Invalid value".

(** Lines 223-225: a fresh object, then the fields the body supplies (past
    [.isString()], notes that are supplied are a string). *)
Definition feedback_of (b : FeedbackReq.t) : Interview.feedback_t :=
  let feedback := empty_feedback in
  let feedback :=
    match FeedbackReq.rating b with
    | Some _ => {| Interview.fb_rating := Some (Number (FeedbackReq.rating b));
                   Interview.fb_notes := Interview.fb_notes feedback |}
    | None => feedback
    end in
  match FeedbackReq.notes b with
  | Some (JStr s) => {| Interview.fb_rating := Interview.fb_rating feedback;
                        Interview.fb_notes := Some s |}
  | _ => feedback
  end.

(** A feedback with no field. *)
Definition is_empty_feedback (fb : Interview.feedback_t) : bool :=
  match Interview.fb_rating fb, Interview.fb_notes fb with
  | None, None => true
  | _, _ => false
  end.

(** The document after lines 223-226.  The schema has [timestamps]: [save]
    stamps [updatedAt] when the document was modified.  Assigning [{}] over
    a feedback that has no field, and then setting no field, modifies
    nothing: the document is the stored one and keeps its [updatedAt].
    Assigning [{}] over a feedback that has a field, or setting a field,
    modifies the document. *)
Definition set_feedback (e : env) (fb : Interview.feedback_t) (iv : Interview.t)
  : Interview.t :=
  {| Interview._id := Interview._id iv;
     Interview.candidate := Interview.candidate iv;
     Interview.date := Interview.date iv;
     Interview.interviewer := Interview.interviewer iv;
     Interview.mode := Interview.mode iv;
     Interview.feedback := fb;
     Interview.createdBy := Interview.createdBy iv;
     Interview.createdAt := Interview.createdAt iv;
     Interview.updatedAt :=
       if is_empty_feedback (Interview.feedback iv) && is_empty_feedback fb
       then Interview.updatedAt iv
       else now e |}.

(** Writing a document over the stored one with its [_id]. *)
Definition write_over (iv : Interview.t) (ivs : list Interview.t)
  : list Interview.t :=
  map (fun x => if String.eqb (Interview._id x) (Interview._id iv) then iv else x)
      ivs.

(** [iv.save()] for a stored interview whose [feedback] was assigned: the
    new rating has to cast to a number, and the stored document with the
    same [_id] is written over. *)
Definition Interview_save (iv : Interview.t) (s : store) : result store :=
  match Interview.fb_rating (Interview.feedback iv) with
  | Some NaN => Throw (ValidationError "feedback.rating: cast to Number failed")
  | _ =>
      Ok {| users := users s;
            candidates := candidates s;
            interviews := write_over iv (interviews s) |}
  end.

Definition setFeedback (e : env) (header : option string) (id : string)
  (b : FeedbackReq.t) (s : store) : response * store :=
  match auth "hr" e header with
  | Denied r => (r, s)
  | Next _ =>
      match feedback_validation id b with
      | err :: errs => (json 400 (JsonErrors (err :: errs)), s)
      | [] =>
          match Interview_findById id (interviews s) with
          | Throw err => (next_err Feedback err, s)
          | Ok None => (json 404 (JsonError "Interview not found"), s)
          | Ok (Some found) =>
              let iv := set_feedback e (feedback_of b) found in
              match Interview_save iv s with
              | Throw err => (next_err Feedback err, s)
              | Ok s' => (json 200 (JsonInterview iv), s')
              end
          end
      end
  end.

(** *** Record updates used to compare requests *)

Definition with_minExp (minExp : option string) (q : CandidateQuery.t)
  : CandidateQuery.t :=
  {| CandidateQuery.q := CandidateQuery.q q;
     CandidateQuery.role := CandidateQuery.role q;
     CandidateQuery.minExp := minExp;
     CandidateQuery.page := CandidateQuery.page q;
     CandidateQuery.limit := CandidateQuery.limit q |}.

(** A response that refuses the request. *)
Definition rejected (r : response) : bool := (400 <=? status r)%Z.

(** *** A small instance of what the section leaves open *)

Definition demo_isEmail (s : string) : bool :=
  existsb (fun c => (Str.code c =? 64)%N) (Str.chars s).

Definition demo_regex_i (pat : string) : option (string -> bool) :=
  Some (fun s => prefix (Str.toLowerCase pat) (Str.toLowerCase s)).

Definition demo_bcrypt_hash (data : string) (rounds : Z) (salt : string) : string :=
  salt ++ "$" ++ data.

Definition demo_bcrypt_compare (data hash : string) : bool :=
  String.eqb (substring (String.length hash - String.length data)
                        (String.length data) hash) data.

Definition demo_user_id : ObjectId := "0123456789abcdef01234567".

Definition demo_jwt_sign (payload : claims) (secret expiresIn : string) (iat : Z)
  : token := "signed:" ++ userId payload.

Definition demo_jwt_verify (t : token) (secret : string) (time : Z) : option claims :=
  if String.eqb t "hr-token"
  then Some {| userId := demo_user_id; role := Some "hr" |}
  else if String.eqb t "guest-token"
  then Some {| userId := demo_user_id; role := Some "guest" |}
  else None.

Definition demo_cursor_other (A : Type) (skip limit : jsnum) (l : list A)
  : result (list A) :=
  Throw (ServerError 2 "skip and limit must be whole numbers").

Definition demo_Date_parse (s : string) : option Z :=
  if Str.truthy s then Some 0%Z else None.

Definition demo_env (n : Z) (id : ObjectId) : env :=
  {| now := n; new_id := id; salt := "salt" |}.

Definition hr_header : option string := Some "Bearer hr-token".

Definition empty_store : store :=
  {| users := []; candidates := []; interviews := [] |}.

(** *** Notions used to state the properties *)

(** A denied request never reaches the handler of a protected route: the
    response is the middleware's and the collections stay as they were. *)
Definition answered_by_auth (e : env) (header : option string) (r : response)
  : Prop :=
  forall s,
    (forall b, createCandidate e header b s = (r, s))
    /\ (forall q, listCandidates e header q s = r)
    /\ (forall id, candidateDetails e header id s = r)
    /\ (forall b, scheduleInterview e header b s = (r, s))
    /\ (forall q, listInterviews e header q s = r)
    /\ (forall id b, setFeedback e header id b s = (r, s)).

(** Every stored experience is at least zero. *)
Definition experience_non_negative (cs : list Candidate.t) : Prop :=
  forall c, In c cs -> geb (Candidate.experience c) (Fin 0) = true.


(** The candidate that a valid body describes. *)
Definition candidate_of (e : env) (user : claims) (b : CandidateReq.t)
  : Candidate.t :=
  new_Candidate e (text (CandidateReq.name b)) (text (CandidateReq.role b))
                (Number (CandidateReq.experience b))
                (Number (rating_or_default b))
                (text (CandidateReq.notes b)) (userId user).

(** *** Documents and requests of the scenarios *)

Definition demo_secret : string := "secret".

Definition id_a : ObjectId := "aaaaaaaaaaaaaaaaaaaaaaaa".
Definition id_b : ObjectId := "bbbbbbbbbbbbbbbbbbbbbbbb".
Definition id_c : ObjectId := "cccccccccccccccccccccccc".
Definition id_d : ObjectId := "dddddddddddddddddddddddd".

Definition hr_claims : claims := {| userId := demo_user_id; role := Some "hr" |}.

Definition demo_candidate (id : ObjectId) (name : string) (experience : jsnum)
  (created : Z) : Candidate.t :=
  {| Candidate._id := id;
     Candidate.name := name;
     Candidate.role := "Eng";
     Candidate.experience := experience;
     Candidate.rating := Fin 0;
     Candidate.notes := "";
     Candidate.createdBy := demo_user_id;
     Candidate.createdAt := created;
     Candidate.updatedAt := created |}.

Definition demo_interview (id candidate : ObjectId) (date : Z) : Interview.t :=
  {| Interview._id := id;
     Interview.candidate := candidate;
     Interview.date := date;
     Interview.interviewer := "Ines";
     Interview.mode := "remote";
     Interview.feedback := empty_feedback;
     Interview.createdBy := demo_user_id;
     Interview.createdAt := date;
     Interview.updatedAt := date |}.

(** Three candidates created at times 1, 2, 3 and three interviews. *)
Definition demo_store : store :=
  {| users := [];
     candidates := [ demo_candidate id_a "Ann" (Fin 1) 1;
                     demo_candidate id_b "Bob" (Fin 3) 2;
                     demo_candidate id_c "Cy" (Fin 5) 3 ];
     interviews := [ demo_interview id_a id_a 10;
                     demo_interview id_b id_b 30;
                     demo_interview id_c id_a 20 ] |}.

(** A collection holding a document written past the schema, with a
    negative experience. *)
Definition legacy_store : store :=
  {| users := [];
     candidates := [ demo_candidate id_a "Ann" (Fin (-1 # 1)) 1;
                     demo_candidate id_b "Bob" (Fin 3) 2 ];
     interviews := [] |}.

Definition bob (experience : jsval) : CandidateReq.t :=
  {| CandidateReq.name := Some "Bob";
     CandidateReq.role := Some "Eng";
     CandidateReq.experience := Some experience;
     CandidateReq.rating := None;
     CandidateReq.notes := None |}.

Definition rating_four : FeedbackReq.t :=
  {| FeedbackReq.rating := Some (JNum (Fin 4)); FeedbackReq.notes := None |}.

Definition notes_ok : FeedbackReq.t :=
  {| FeedbackReq.rating := None; FeedbackReq.notes := Some (JStr "ok") |}.

Definition signup_as (email : string) : SignupReq.t :=
  {| SignupReq.name := Some "A";
     SignupReq.email := Some email;
     SignupReq.password := Some "secret1" |}.

Definition login_as (email password : string) : LoginReq.t :=
  {| LoginReq.email := Some email; LoginReq.password := Some password |}.

Definition interview_for (candidate : string) (date : option string)
  : InterviewReq.t :=
  {| InterviewReq.candidate := Some candidate;
     InterviewReq.date := date;
     InterviewReq.interviewer := Some "Ines";
     InterviewReq.mode := None |}.

Definition candidates_query (minExp page limit : option string)
  : CandidateQuery.t :=
  {| CandidateQuery.q := None;
     CandidateQuery.role := None;
     CandidateQuery.minExp := minExp;
     CandidateQuery.page := page;
     CandidateQuery.limit := limit |}.

Definition interviews_query (page limit : option string) : InterviewQuery.t :=
  {| InterviewQuery.candidateId := None;
     InterviewQuery.page := page;
     InterviewQuery.limit := limit |}.

(** The user collection after "A@X.com" signed up with password "secret1". *)
Definition demo_user : User.t :=
  {| User._id := id_d;
     User.name := "A";
     User.email := "a@x.com";
     User.passwordHash := "salt$secret1";
     User.role := "hr";
     User.createdAt := 7;
     User.updatedAt := 7 |}.

Definition one_user_store : store :=
  {| users := [demo_user]; candidates := []; interviews := [] |}.

(* ------------------------------------------------------------------ *)
(** ** The application as a whole *)

(** A request, by the route that matches it. *)
Inductive request : Type :=
| GetHealth
| PostSignup (b : SignupReq.t)
| PostLogin (b : LoginReq.t)
| PostCandidate (header : option string) (b : CandidateReq.t)
| GetCandidates (header : option string) (q : CandidateQuery.t)
| GetCandidate (header : option string) (id : string)
| PostInterview (header : option string) (b : InterviewReq.t)
| GetInterviews (header : option string) (q : InterviewQuery.t)
| PostFeedback (header : option string) (id : string) (b : FeedbackReq.t)
| Unmatched.

(** Serving one request. *)
Definition handle (e : env) (r : request) (s : store) : response * store :=
  match r with
  | GetHealth => (health e, s)
  | PostSignup b => signup e b s
  | PostLogin b => (login e b s, s)
  | PostCandidate header b => createCandidate e header b s
  | GetCandidates header q => (listCandidates e header q s, s)
  | GetCandidate header id => (candidateDetails e header id s, s)
  | PostInterview header b => scheduleInterview e header b s
  | GetInterviews header q => (listInterviews e header q s, s)
  | PostFeedback header id b => setFeedback e header id b s
  | Unmatched => (notFound, s)
  end.

(** The collections after a sequence of requests, each served with its own
    clock, identifier and salt. *)
Fixpoint run (trace : list (env * request)) (s : store) : store :=
  match trace with
  | [] => s
  | (e, r) :: rest => run rest (snd (handle e r s))
  end.

(** *** What the schemas promise of stored documents *)

Definition lower_case (s : string) : Prop := Str.toLowerCase s = s.

Definition user_ok (u : User.t) : Prop :=
  lower_case (User.email u)
  /\ User.role u = "hr"
  /\ User.name u <> ""
  /\ User.email u <> ""
  /\ User.passwordHash u <> "".

Definition candidate_ok (c : Candidate.t) : Prop :=
  geb (Candidate.experience c) (Fin 0) = true
  /\ Candidate.rating c <> NaN
  /\ Candidate.name c <> ""
  /\ Candidate.role c <> "".

Definition interview_ok (cs : list Candidate.t) (iv : Interview.t) : Prop :=
  (exists c, In c cs /\ Candidate._id c = Interview.candidate iv)
  /\ (Interview.mode iv = "onsite" \/ Interview.mode iv = "remote")
  /\ Interview.interviewer iv <> ""
  /\ Interview.fb_rating (Interview.feedback iv) <> Some NaN.

(** Unique [_id]s in the three collections and unique e-mails. *)
Definition keys_distinct (s : store) : Prop :=
  NoDup (map User._id (users s))
  /\ NoDup (map User.email (users s))
  /\ NoDup (map Candidate._id (candidates s))
  /\ NoDup (map Interview._id (interviews s)).

Definition documents_ok (s : store) : Prop :=
  (forall u, In u (users s) -> user_ok u)
  /\ (forall c, In c (candidates s) -> candidate_ok c)
  /\ (forall iv, In iv (interviews s) -> interview_ok (candidates s) iv).

(** Whether [pat] occurs in [s]. *)
Fixpoint occurs (pat s : string) : bool :=
  prefix pat s
  || match s with
     | EmptyString => false
     | String _ r => occurs pat r
     end.

(** A response that reports a success. *)
Definition succeeded (r : response) : bool :=
  (status r =? 200)%Z || (status r =? 201)%Z.

(** A verifier that reads the tokens of [demo_jwt_sign]. *)
Definition demo_jwt_read (t : token) (secret : string) (time : Z) : option claims :=
  if prefix "signed:" t
  then Some {| userId := substring 7 (String.length t - 7) t; role := Some "hr" |}
  else None.

(** What lines 139-142 ask of a candidate, read off the query: each
    condition applies when its parameter is present and not empty. *)
Definition satisfies (q : CandidateQuery.t) (c : Candidate.t) : Prop :=
  (forall pat, CandidateQuery.q q = Some pat -> pat <> "" ->
               exists matcher, regex_i pat = Some matcher
                               /\ matcher (Candidate.name c) = true)
  /\ (forall r, CandidateQuery.role q = Some r -> r <> "" -> Candidate.role c = r)
  /\ (forall m, CandidateQuery.minExp q = Some m -> m <> "" ->
                geb (Candidate.experience c) (Number_of_string m) = true).

(** A natural number as a query parameter: its decimal digits. *)
Definition decimal (n : nat) : string :=
  DecimalString.NilZero.string_of_uint (Nat.to_uint n).

(** *** A session *)

(** "A@X.com" signs up; Bob is created; an interview with Bob is scheduled
    and rated 4; Bob is created once more under an identifier in use, which
    the store refuses. *)
Definition demo_trace : list (env * request) :=
  [ (demo_env 7 id_d, PostSignup (signup_as "A@X.com"));
    (demo_env 8 id_a, PostCandidate hr_header (bob (JNum (Fin 2))));
    (demo_env 9 id_b,
     PostInterview hr_header (interview_for id_a (Some "2025-01-01")));
    (demo_env 10 id_c, PostFeedback hr_header id_b rating_four);
    (demo_env 11 id_a, PostCandidate hr_header (bob (JNum (Fin 3)))) ].

(** The interview of that session, and the collections it leaves. *)
Definition session_interview : Interview.t :=
  {| Interview._id := id_b;
     Interview.candidate := id_a;
     Interview.date := 0;
     Interview.interviewer := "Ines";
     Interview.mode := "remote";
     Interview.feedback := {| Interview.fb_rating := Some (Fin 4);
                              Interview.fb_notes := None |};
     Interview.createdBy := demo_user_id;
     Interview.createdAt := 9;
     Interview.updatedAt := 10 |}.

Definition session_store : store :=
  {| users := [demo_user];
     candidates := [demo_candidate id_a "Bob" (Fin 2) 8];
     interviews := [session_interview] |}.

(** A feedback body that supplies nothing. *)
Definition no_feedback : FeedbackReq.t :=
  {| FeedbackReq.rating := None; FeedbackReq.notes := None |}.

(* ------------------------------------------------------------------ *)
(** ** Properties *)

(** The two directions of "no validation error" for a chain of checks. *)
Ltac validation_cases :=
  cbn; split; intros;
  repeat match goal with
         | H : _ /\ _ |- _ => destruct H
         end;
  repeat split; congruence.

(** Facts about character classes, by arithmetic on the character code. *)
Ltac char_class :=
  unfold Str.is_digit, Str.is_space, is_dot, is_e, is_plus, is_minus;
  intros c; generalize (Str.code c); intros n;
  repeat match goal with
         | |- context [(?a =? ?b)%N] => destruct (N.eqb_spec a b)
         | |- context [(?a <=? ?b)%N] => destruct (N.leb_spec a b)
         end; cbn; intros; try reflexivity; try discriminate; lia.

(** *** Where errors end up *)

(** The only error middleware is registered before every route, so an error
    passed to [next] by a route reaches Express's final handler. *)
Lemma next_err_finalhandler (r : route) (err : error) :
  next_err r err = finalhandler err.
Proof. destruct r; reflexivity. Qed.

Lemma status_finalhandler_without_status (err : error) :
  err_status err = None -> status (finalhandler err) = 500.
Proof. intros H. unfold finalhandler. rewrite H. reflexivity. Qed.

Lemma status_next_err_ValidationError (r : route) (m : string) :
  status (next_err r (ValidationError m)) = 500.
Proof. rewrite next_err_finalhandler. reflexivity. Qed.

(** The middleware of lines 54-60 would answer a schema validation failure
    with the same status, and would refuse a duplicate key as well. *)
Lemma status_errorHandler_ValidationError (m : string) :
  status (errorHandler (ValidationError m)) = 500.
Proof. reflexivity. Qed.

Lemma status_errorHandler_DuplicateKey (k v : string) :
  status (errorHandler (DuplicateKey k v)) = 400.
Proof. reflexivity. Qed.

Lemma status_next_err_DuplicateKey (r : route) (k v : string) :
  status (next_err r (DuplicateKey k v)) = 500.
Proof. rewrite next_err_finalhandler. reflexivity. Qed.

(** *** Auth middleware *)

Lemma auth_no_header (e : env) :
  auth "hr" e None = Denied (json 401 (JsonError "No token provided")).
Proof. reflexivity. Qed.

Lemma auth_with_header (e : env) (h : string) :
  h <> "" ->
  auth "hr" e (Some h) =
  match jwt_verify (Str.replace_first "Bearer " "" h) JWT_SECRET (now e) with
  | Some payload =>
      if role_is payload "hr" then Next payload
      else Denied (json 403 (JsonError "Forbidden"))
  | None => Denied (json 401 (JsonError "Invalid token"))
  end.
Proof.
  intros Hh. unfold auth. destruct h as [|c h']; [congruence|].
  cbn [Str.truthy_opt Str.truthy negb text].
  destruct (jwt_verify _ _ _) as [payload|]; [|reflexivity].
  cbn [Str.truthy andb]. destruct (role_is payload "hr"); reflexivity.
Qed.

Lemma role_is_hr (payload : claims) :
  role_is payload "hr" = true <-> role payload = Some "hr".
Proof.
  unfold role_is. destruct (role payload) as [x|].
  - rewrite String.eqb_eq. split; congruence.
  - split; discriminate.
Qed.

Lemma denied_answered_by_auth (e : env) (header : option string) (r : response) :
  auth "hr" e header = Denied r -> answered_by_auth e header r.
Proof.
  intros H s.
  unfold createCandidate, listCandidates, candidateDetails, scheduleInterview,
    listInterviews, setFeedback.
  rewrite H. repeat split; reflexivity.
Qed.

Lemma auth_without_token (e : env) (header : option string) :
  header = None \/ header = Some "" ->
  auth "hr" e header = Denied (json 401 (JsonError "No token provided")).
Proof. intros [->| ->]; reflexivity. Qed.

(** C9. On a protected route: without an Authorization header (or with an
    empty one) the answer is 401 "No token provided"; with a token that
    [jwt.verify] refuses (bad signature, expired) it is 401 "Invalid token";
    with a verified token whose role is not "hr" it is 403 "Forbidden"; in
    these three cases the route's handler does not run.  Otherwise the
    middleware calls [next] with the decoded claims as [req.user]. *)
Theorem C9_auth_outcomes (e : env) :
  (forall header,
      header = None \/ header = Some "" ->
      auth "hr" e header = Denied (json 401 (JsonError "No token provided"))
      /\ answered_by_auth e header (json 401 (JsonError "No token provided")))
  /\ (forall h,
        h <> "" ->
        jwt_verify (Str.replace_first "Bearer " "" h) JWT_SECRET (now e) = None ->
        auth "hr" e (Some h) = Denied (json 401 (JsonError "Invalid token"))
        /\ answered_by_auth e (Some h) (json 401 (JsonError "Invalid token")))
  /\ (forall h payload,
        h <> "" ->
        jwt_verify (Str.replace_first "Bearer " "" h) JWT_SECRET (now e)
          = Some payload ->
        role payload <> Some "hr" ->
        auth "hr" e (Some h) = Denied (json 403 (JsonError "Forbidden"))
        /\ answered_by_auth e (Some h) (json 403 (JsonError "Forbidden")))
  /\ (forall h payload,
        h <> "" ->
        jwt_verify (Str.replace_first "Bearer " "" h) JWT_SECRET (now e)
          = Some payload ->
        role payload = Some "hr" ->
        auth "hr" e (Some h) = Next payload).
Proof.
  split; [|split; [|split]].
  - intros header Hh. pose proof (auth_without_token e header Hh) as A.
    split; [exact A|]. apply denied_answered_by_auth, A.
  - intros h Hh Hv.
    assert (A : auth "hr" e (Some h) = Denied (json 401 (JsonError "Invalid token"))).
    { rewrite (auth_with_header e h Hh), Hv. reflexivity. }
    split; [exact A|]. apply denied_answered_by_auth, A.
  - intros h payload Hh Hv Hr.
    assert (A : auth "hr" e (Some h) = Denied (json 403 (JsonError "Forbidden"))).
    { rewrite (auth_with_header e h Hh), Hv.
      destruct (role_is payload "hr") eqn:R; [|reflexivity].
      apply role_is_hr in R. contradiction. }
    split; [exact A|]. apply denied_answered_by_auth, A.
  - intros h payload Hh Hv Hr.
    rewrite (auth_with_header e h Hh), Hv.
    apply role_is_hr in Hr. rewrite Hr. reflexivity.
Qed.

(** *** Login *)

(** C6. A login that passes validation and then fails, either because no
    user has the e-mail or because the password does not match the stored
    hash, is answered 401 with the body [{ error: "Invalid credentials" }]
    in both cases. *)
Theorem C6_login_failures_look_alike (e : env) (b : LoginReq.t) (s : store) :
  login_validation b = [] ->
  (User_findOne (text (LoginReq.email b)) (users s) = None
   \/ exists user,
        User_findOne (text (LoginReq.email b)) (users s) = Some user
        /\ bcrypt_compare (text (LoginReq.password b)) (User.passwordHash user)
           = false) ->
  login e b s = json 401 (JsonError "Invalid credentials").
Proof.
  intros Hv H. unfold login. rewrite Hv.
  destruct H as [H | [user [H Hc]]]; rewrite H; [reflexivity|].
  rewrite Hc. reflexivity.
Qed.

(** *** Scheduling an interview *)

Lemma find_none_of_all_false {A} (f : A -> bool) (l : list A) :
  (forall x, In x l -> f x = false) -> find f l = None.
Proof.
  induction l as [|a l IH]; intros H; [reflexivity|].
  cbn. rewrite (H a (or_introl eq_refl)). apply IH.
  intros x Hx. apply H. right. exact Hx.
Qed.

Lemma check_nil (ok : bool) (field message : string) :
  check ok field message = [] <-> ok = true.
Proof. destruct ok; cbn; split; congruence. Qed.


Lemma interview_validation_nil (b : InterviewReq.t) :
  interview_validation b = [] <->
  isMongoId (InterviewReq.candidate b) = true
  /\ notEmpty (InterviewReq.date b) = true
  /\ notEmpty (InterviewReq.interviewer b) = true
  /\ optional (isIn ["onsite"; "remote"]) (InterviewReq.mode b) = true.
Proof.
  unfold interview_validation.
  destruct (isMongoId _), (notEmpty (InterviewReq.date b)),
    (notEmpty (InterviewReq.interviewer b)), (optional _ _);
    validation_cases.
Qed.


(** *** Creating a candidate *)

Lemma candidate_validation_nil (b : CandidateReq.t) :
  candidate_validation b = [] <->
  notEmpty (CandidateReq.name b) = true
  /\ notEmpty (CandidateReq.role b) = true
  /\ isNumeric (CandidateReq.experience b) = true.
Proof.
  unfold candidate_validation.
  destruct (notEmpty (CandidateReq.name b)), (notEmpty (CandidateReq.role b)),
    (isNumeric _); validation_cases.
Qed.

Lemma notEmpty_text (o : option string) :
  notEmpty o = true -> Str.truthy (text o) = true.
Proof. destruct o; [trivial|discriminate]. Qed.

Lemma createCandidate_valid
  (e : env) (header : option string) (user : claims) (b : CandidateReq.t)
  (s : store) :
  auth "hr" e header = Next user ->
  candidate_validation b = [] ->
  createCandidate e header b s =
  match Candidate_save (candidate_of e user b) s with
  | Throw err => (next_err CreateCandidate err, s)
  | Ok s' => (json 201 (JsonCandidate (candidate_of e user b)), s')
  end.
Proof.
  intros Ha Hv. unfold createCandidate. rewrite Ha, Hv. reflexivity.
Qed.

(** A negative experience is refused by the schema when the document is
    saved, and the refusal surfaces as a 500. *)
Lemma createCandidate_negative_experience
  (e : env) (header : option string) (user : claims) (b : CandidateReq.t)
  (s : store) :
  auth "hr" e header = Next user ->
  candidate_validation b = [] ->
  JsNum.ltb (Number (CandidateReq.experience b)) (Fin 0) = true ->
  status (fst (createCandidate e header b s)) = 500
  /\ snd (createCandidate e header b s) = s.
Proof.
  intros Ha Hv Hneg. rewrite (createCandidate_valid e header user b s Ha Hv).
  apply candidate_validation_nil in Hv. destruct Hv as [Hn [Hr _]].
  unfold Candidate_save, Candidate_validate, candidate_of. cbn.
  rewrite (notEmpty_text _ Hn), (notEmpty_text _ Hr). cbn.
  destruct (Number (CandidateReq.experience b)) as [| | |q] eqn:E;
    cbn in Hneg; try discriminate; cbn.
  - split; reflexivity.
  - unfold geb, leb. destruct (Qle_bool 0 q); [discriminate|].
    cbn. split; reflexivity.
Qed.

(** A non-negative experience is stored. *)
Lemma createCandidate_accepts
  (e : env) (header : option string) (user : claims) (b : CandidateReq.t)
  (s : store) :
  auth "hr" e header = Next user ->
  candidate_validation b = [] ->
  geb (Number (CandidateReq.experience b)) (Fin 0) = true ->
  casts_to_Number (Number (rating_or_default b)) = true ->
  (forall c, In c (candidates s) -> Candidate._id c <> new_id e) ->
  createCandidate e header b s =
  (json 201 (JsonCandidate (candidate_of e user b)),
   {| users := users s;
      candidates := candidates s ++ [candidate_of e user b];
      interviews := interviews s |}).
Proof.
  intros Ha Hv Hge Hrt Hfresh.
  rewrite (createCandidate_valid e header user b s Ha Hv).
  apply candidate_validation_nil in Hv. destruct Hv as [Hn [Hr _]].
  unfold Candidate_save, Candidate_validate.
  assert (Hc : casts_to_Number (Number (CandidateReq.experience b)) = true).
  { destruct (Number (CandidateReq.experience b)); try reflexivity; discriminate. }
  cbn [candidate_of new_Candidate Candidate.name Candidate.role
       Candidate.experience Candidate.rating Candidate._id].
  rewrite (notEmpty_text _ Hn), (notEmpty_text _ Hr), Hc, Hge, Hrt.
  cbn [negb].
  assert (Hx : existsb (fun x => String.eqb (Candidate._id x) (new_id e))
                       (candidates s) = false).
  { destruct (existsb _ _) eqn:X; [|reflexivity].
    apply existsb_exists in X. destruct X as [c [Hin Heq]].
    apply String.eqb_eq in Heq. exfalso. exact (Hfresh c Hin Heq). }
  rewrite Hx. reflexivity.
Qed.

(** C1, as the code has it.  For an authenticated request with non-empty
    name and role, a rating that is absent or a number, and a fresh
    identifier: with [experience] -1 the request is refused with status 500
    (the schema's minimum fails when the document is saved; the route's
    validators let -1 through) and no candidate is persisted; with
    [experience] 0 it is answered 201 and the candidate is appended to the
    collection with experience 0. *)
Theorem C1_experience_minus_one_and_zero
  (e : env) (header : option string) (user : claims) (b : CandidateReq.t)
  (s : store) :
  auth "hr" e header = Next user ->
  notEmpty (CandidateReq.name b) = true ->
  notEmpty (CandidateReq.role b) = true ->
  casts_to_Number (Number (rating_or_default b)) = true ->
  (forall c, In c (candidates s) -> Candidate._id c <> new_id e) ->
  (CandidateReq.experience b = Some (JNum (Fin (-1 # 1))) ->
   status (fst (createCandidate e header b s)) = 500
   /\ snd (createCandidate e header b s) = s)
  /\ (CandidateReq.experience b = Some (JNum (Fin 0)) ->
      exists c,
        createCandidate e header b s
        = (json 201 (JsonCandidate c),
           {| users := users s;
              candidates := candidates s ++ [c];
              interviews := interviews s |})
        /\ Candidate.experience c = Fin 0
        /\ Candidate.name c = text (CandidateReq.name b)
        /\ Candidate.role c = text (CandidateReq.role b)).
Proof.
  intros Ha Hn Hr Hrt Hfresh. split; intros Hx.
  - apply (createCandidate_negative_experience e header user b s Ha).
    + apply candidate_validation_nil. rewrite Hx. auto.
    + rewrite Hx. reflexivity.
  - exists (candidate_of e user b). split.
    + apply createCandidate_accepts; auto.
      * apply candidate_validation_nil. rewrite Hx. auto.
      * rewrite Hx. reflexivity.
    + unfold candidate_of. cbn. rewrite Hx. auto.
Qed.

(** *** The page size *)

Lemma or_else_not_NaN (a : jsnum) (q : Q) : or_else a (Fin q) <> NaN.
Proof.
  unfold or_else. destruct a; cbn; try discriminate.
  destruct (negb _); discriminate.
Qed.

Lemma or_else_falsy (a b : jsnum) : JsNum.truthy a = false -> or_else a b = b.
Proof. intros H. unfold or_else. rewrite H. reflexivity. Qed.

Lemma min_100_upper (a : jsnum) :
  a <> NaN -> JsNum.leb (JsNum.min a (Fin 100)) (Fin 100) = true.
Proof.
  intros Ha. destruct a as [| | |q]; try congruence; cbn; try reflexivity.
  destruct (Qle_bool q 100) eqn:E; cbn; [exact E|reflexivity].
Qed.

Lemma at_least_one_truthy (a : jsnum) :
  geb a (Fin 1) = true -> JsNum.truthy a = true.
Proof.
  destruct a as [| | |q]; cbn; try congruence.
  intros H. apply Qle_bool_iff in H.
  destruct (Qeq_bool q 0) eqn:E; [|reflexivity].
  apply Qeq_bool_iff in E. rewrite E in H.
  exfalso. apply (Qle_not_lt _ _ H). reflexivity.
Qed.

Lemma min_100_lower (a : jsnum) :
  geb a (Fin 1) = true -> geb (JsNum.min a (Fin 100)) (Fin 1) = true.
Proof.
  destruct a as [| | |q]; cbn; try congruence.
  intros H. destruct (Qle_bool q 100); cbn; [exact H|reflexivity].
Qed.

(** C3, as the code has it.  When [limit] is not "all" the page size is
    [Math.min(Number(limit) || 10, 100)]: it never exceeds 100; a missing,
    non-numeric or zero limit gives 10; limit=500 gives 100; and it is at
    least 1 whenever the limit reads as a number that is at least 1; there is
    no lower clamp. *)
Theorem C3_page_size (limit : option string) :
  is_all limit = false ->
  JsNum.leb (effective_limit limit) (Fin 100) = true
  /\ (JsNum.truthy (Number_of_param limit) = false ->
      effective_limit limit = Fin 10)
  /\ (limit = None -> effective_limit limit = Fin 10)
  /\ (Number_of_param limit = NaN -> effective_limit limit = Fin 10)
  /\ (limit = Some "500" -> effective_limit limit = Fin 100)
  /\ (geb (Number_of_param limit) (Fin 1) = true ->
      geb (effective_limit limit) (Fin 1) = true).
Proof.
  intros _. unfold effective_limit. repeat split.
  - apply min_100_upper, or_else_not_NaN.
  - intros H. rewrite (or_else_falsy _ _ H). reflexivity.
  - intros ->. reflexivity.
  - intros H. rewrite H. reflexivity.
  - intros ->. vm_compute. reflexivity.
  - intros H. unfold or_else. rewrite (at_least_one_truthy _ H).
    apply min_100_lower, H.
Qed.

(** *** The experience filter *)

Lemma empty_minExp_filter (q : CandidateQuery.t) :
  build_candidate_filter (with_minExp (Some "") q)
  = build_candidate_filter (with_minExp None q).
Proof. reflexivity. Qed.

Lemma zero_minExp_filter (q : CandidateQuery.t) :
  f_experience (build_candidate_filter (with_minExp (Some "0") q)) = Some (Fin 0).
Proof. reflexivity. Qed.

Lemma zero_minExp_same_matches (q : CandidateQuery.t) (cs : list Candidate.t) :
  experience_non_negative cs ->
  Candidate_find_sorted (build_candidate_filter (with_minExp (Some "0") q)) cs
  = Candidate_find_sorted (build_candidate_filter (with_minExp None q)) cs
  /\ Candidate_countDocuments (build_candidate_filter (with_minExp (Some "0") q)) cs
     = Candidate_countDocuments (build_candidate_filter (with_minExp None q)) cs.
Proof.
  intros Hcs.
  unfold Candidate_find_sorted, Candidate_countDocuments, cast_candidate_filter,
    build_candidate_filter.
  cbn [with_minExp CandidateQuery.q CandidateQuery.role CandidateQuery.minExp
       f_name f_role f_experience Str.truthy_opt Str.truthy Number_of_param].
  change (Number_of_string "0") with (Fin 0).
  set (fn := if Str.truthy_opt (CandidateQuery.q q) then CandidateQuery.q q else None).
  destruct fn as [pat|]; [destruct (regex_i pat) as [m|]|].
  - assert (E : filter
        (fun c => m (Candidate.name c)
           && match (if Str.truthy_opt (CandidateQuery.role q)
                     then CandidateQuery.role q else None) with
              | Some r => String.eqb (Candidate.role c) r
              | None => true
              end
           && geb (Candidate.experience c) (Fin 0)) cs
        = filter
        (fun c => m (Candidate.name c)
           && match (if Str.truthy_opt (CandidateQuery.role q)
                     then CandidateQuery.role q else None) with
              | Some r => String.eqb (Candidate.role c) r
              | None => true
              end
           && true) cs).
    { apply filter_ext_in. intros c Hc. rewrite (Hcs c Hc). reflexivity. }
    rewrite E. split; reflexivity.
  - split; reflexivity.
  - assert (E : filter
        (fun c => match (if Str.truthy_opt (CandidateQuery.role q)
                         then CandidateQuery.role q else None) with
                  | Some r => String.eqb (Candidate.role c) r
                  | None => true
                  end
           && geb (Candidate.experience c) (Fin 0)) cs
        = filter
        (fun c => match (if Str.truthy_opt (CandidateQuery.role q)
                         then CandidateQuery.role q else None) with
                  | Some r => String.eqb (Candidate.role c) r
                  | None => true
                  end
           && true) cs).
    { apply filter_ext_in. intros c Hc. rewrite (Hcs c Hc). reflexivity. }
    rewrite E. split; reflexivity.
Qed.

(** Creating candidates keeps every stored experience non-negative. *)
Lemma createCandidate_experience_non_negative
  (e : env) (header : option string) (b : CandidateReq.t) (s : store) :
  experience_non_negative (candidates s) ->
  experience_non_negative (candidates (snd (createCandidate e header b s))).
Proof.
  intros Hs. unfold createCandidate.
  destruct (auth "hr" e header) as [r|user]; [exact Hs|].
  destruct (candidate_validation b); [|exact Hs].
  unfold Candidate_save.
  destruct (Candidate_validate _) as [err|] eqn:V; [exact Hs|].
  destruct (existsb _ _); [exact Hs|].
  cbn. intros c Hc. apply in_app_or in Hc. destruct Hc as [Hc|[<-|[]]].
  - apply Hs, Hc.
  - unfold Candidate_validate in V. cbn in V.
    repeat match type of V with
           | (if negb ?x then _ else _) = None =>
               destruct x eqn:?; cbn in V; [|discriminate]
           end.
    cbn. assumption.
Qed.

(** C10, as the code has it.  An empty [minExp] builds the same filter as an
    omitted one.  [minExp=0] arrives as the non-empty string "0", which is
    truthy: the filter gets [experience >= 0].  Over a collection in which
    every experience is non-negative, as the schema keeps it, the answer is
    the same as with [minExp] omitted. *)
Theorem C10_minExp_zero_or_empty
  (e : env) (header : option string) (q : CandidateQuery.t) (s : store) :
  experience_non_negative (candidates s) ->
  build_candidate_filter (with_minExp (Some "") q)
  = build_candidate_filter (with_minExp None q)
  /\ listCandidates e header (with_minExp (Some "") q) s
     = listCandidates e header (with_minExp None q) s
  /\ f_experience (build_candidate_filter (with_minExp (Some "0") q))
     = Some (Fin 0)
  /\ listCandidates e header (with_minExp (Some "0") q) s
     = listCandidates e header (with_minExp None q) s.
Proof.
  intros Hs. split; [reflexivity|]. split; [reflexivity|].
  split; [reflexivity|].
  destruct (zero_minExp_same_matches q (candidates s) Hs) as [Hf Hc].
  unfold listCandidates. rewrite Hf, Hc. reflexivity.
Qed.

(** *** Whole numbers among the JavaScript numbers *)

Lemma Qred_inject_Z (z : Z) : Qred (inject_Z z) = inject_Z z.
Proof. apply Qcanon.Qred_identity. cbn. apply Z.gcd_1_r. Qed.

Lemma as_int_Fin (q : Q) (z : Z) : q == inject_Z z -> as_int (Fin q) = Some z.
Proof.
  intros H. unfold as_int.
  rewrite (Qred_complete _ _ H), Qred_inject_Z. reflexivity.
Qed.

Lemma as_int_inv (a : jsnum) (z : Z) :
  as_int a = Some z -> exists q, a = Fin q /\ q == inject_Z z.
Proof.
  destruct a as [| | |q]; try discriminate.
  unfold as_int. remember (Qred q) as r eqn:R.
  destruct (Z.pos (Qden r) =? 1)%Z eqn:E; [|discriminate].
  intros H. injection H as H. subst r. exists q. split; [reflexivity|].
  rewrite <- (Qred_correct q).
  destruct (Qred q) as [n d]. apply Z.eqb_eq in E.
  unfold Qeq. cbn in *. injection E as ->. subst. lia.
Qed.

(** For a whole [page] and a whole [limit], the number of documents to skip
    is the whole number [(page - 1) * limit]. *)
Lemma skip_of_whole (page limit : jsnum) (P N : Z) :
  as_int page = Some P -> as_int limit = Some N ->
  as_int (skip_of page limit) = Some ((P - 1) * N)%Z.
Proof.
  intros Hp Hn.
  apply as_int_inv in Hp. destruct Hp as [p [-> Hp]].
  apply as_int_inv in Hn. destruct Hn as [n [-> Hn]].
  unfold skip_of, sub, mul. apply as_int_Fin.
  rewrite !Qred_correct, Hp, Hn.
  unfold Qminus. rewrite inject_Z_mult.
  replace (P - 1)%Z with (P + - (1))%Z by lia.
  rewrite inject_Z_plus, inject_Z_opp. reflexivity.
Qed.

(** *** Sorting *)

Section SortFacts.

Context {A : Type}.
Variable key : A -> Z.

Lemma insert_desc_perm (x : A) (l : list A) :
  Permutation (insert_desc key x l) (x :: l).
Proof.
  induction l as [|y r IH]; cbn; [reflexivity|].
  destruct (key y <=? key x)%Z; [reflexivity|].
  rewrite IH. apply perm_swap.
Qed.

Lemma sort_desc_perm (l : list A) : Permutation (sort_desc key l) l.
Proof.
  induction l as [|x r IH]; cbn; [reflexivity|].
  rewrite insert_desc_perm. constructor. exact IH.
Qed.

Lemma sort_desc_length (l : list A) :
  List.length (sort_desc key l) = List.length l.
Proof. apply Permutation_length, sort_desc_perm. Qed.

Lemma sort_desc_In (l : list A) (x : A) : In x (sort_desc key l) <-> In x l.
Proof.
  split; apply Permutation_in;
    [apply sort_desc_perm | apply Permutation_sym, sort_desc_perm].
Qed.

Lemma insert_desc_sorted (x : A) (l : list A) :
  Sorted (later_first key) l -> Sorted (later_first key) (insert_desc key x l).
Proof.
  induction 1 as [|y r Hr IH Hy]; cbn.
  - repeat constructor.
  - destruct (key y <=? key x)%Z eqn:E.
    + apply Z.leb_le in E. repeat constructor; assumption.
    + apply Z.leb_gt in E. constructor; [exact IH|].
      destruct r as [|z r']; cbn.
      * constructor. unfold later_first. lia.
      * inversion Hy; subst.
        destruct (key z <=? key x)%Z; constructor;
          unfold later_first in *; lia.
Qed.

Lemma sort_desc_sorted (l : list A) : Sorted (later_first key) (sort_desc key l).
Proof.
  induction l as [|x r IH]; cbn; [constructor|].
  apply insert_desc_sorted, IH.
Qed.

End SortFacts.

(** *** The list routes *)

Lemma cursor_page_whole {A} (skip limit : jsnum) (k n : Z) (l : list A) :
  as_int skip = Some k -> as_int limit = Some n -> (0 <= k)%Z -> (1 <= n)%Z ->
  cursor_page skip limit l = Ok (firstn (Z.to_nat n) (skipn (Z.to_nat k) l)).
Proof.
  intros Hk Hn Hk0 Hpos. unfold cursor_page. rewrite Hk, Hn.
  destruct (k <? 0)%Z eqn:K; [apply Z.ltb_lt in K; lia|].
  destruct (n =? 0)%Z eqn:E; [apply Z.eqb_eq in E; lia|].
  rewrite Zabs2Nat.abs_nat_nonneg by lia. reflexivity.
Qed.

Lemma map_doc_populate (cs : list Candidate.t) (l : list Interview.t) :
  map Interview.doc (map (populate cs) l) = l.
Proof.
  induction l as [|iv r IH]; cbn; [reflexivity|]. rewrite IH. reflexivity.
Qed.

Lemma auth_denied_is_error (e : env) (header : option string) (r : response) :
  auth "hr" e header = Denied r -> exists st m, r = json st (JsonError m).
Proof.
  unfold auth. destruct (negb (Str.truthy_opt header)).
  - intros H. injection H as <-. eauto.
  - destruct (jwt_verify _ _ _) as [payload|].
    + destruct (Str.truthy "hr" && negb (role_is payload "hr")).
      * intros H. injection H as <-. eauto.
      * discriminate.
    + intros H. injection H as <-. eauto.
Qed.

Lemma finalhandler_is_no_listing (err : error) (b : body) :
  (forall e', b <> DefaultErrorPage e') -> finalhandler err <> json 200 b.
Proof.
  intros Hb H. unfold finalhandler, json in H. injection H as _ H.
  exact (Hb err (eq_sym H)).
Qed.

(** What a list of candidates in the answer tells about the request. *)
Lemma listCandidates_listing_inv
  (e : env) (header : option string) (q : CandidateQuery.t) (s : store)
  (data : list Candidate.t) (total : nat) :
  listCandidates e header q s = json 200 (JsonCandidates data total) ->
  exists matches,
    cast_candidate_filter (build_candidate_filter q) = Ok matches
    /\ if is_all (CandidateQuery.limit q)
       then data = sort_desc Candidate.createdAt (filter matches (candidates s))
            /\ total = List.length data
       else cursor_page
              (skip_of (effective_page (CandidateQuery.page q))
                       (effective_limit (CandidateQuery.limit q)))
              (effective_limit (CandidateQuery.limit q))
              (sort_desc Candidate.createdAt (filter matches (candidates s)))
            = Ok data
            /\ total = List.length (filter matches (candidates s)).
Proof.
  unfold listCandidates, Candidate_find_sorted, Candidate_countDocuments.
  destruct (auth "hr" e header) as [r|user] eqn:A.
  - destruct (auth_denied_is_error _ _ _ A) as [st [m ->]]. discriminate.
  - destruct (cast_candidate_filter _) as [matches|err].
    + intros H. exists matches. split; [reflexivity|].
      destruct (is_all _).
      * injection H as <- <-. split; reflexivity.
      * destruct (cursor_page _ _ _) as [d|err].
        -- injection H as <- <-. split; reflexivity.
        -- rewrite next_err_finalhandler in H.
           exfalso. revert H. apply finalhandler_is_no_listing. discriminate.
    + intros H. exfalso.
      assert (N : next_err ListCandidates err = json 200 (JsonCandidates data total)).
      { destruct (is_all _); exact H. }
      rewrite next_err_finalhandler in N. revert N.
      apply finalhandler_is_no_listing. discriminate.
Qed.

(** The same for a list of interviews. *)
Lemma listInterviews_listing_inv
  (e : env) (header : option string) (q : InterviewQuery.t) (s : store)
  (data : list Interview.populated) (total : nat) :
  listInterviews e header q s = json 200 (JsonInterviews data total) ->
  exists matches,
    cast_interview_filter (build_interview_filter q) = Ok matches
    /\ if is_all (InterviewQuery.limit q)
       then data = map (populate (candidates s))
                       (sort_desc Interview.date (filter matches (interviews s)))
            /\ total = List.length data
       else cursor_page
              (skip_of (effective_page (InterviewQuery.page q))
                       (effective_limit (InterviewQuery.limit q)))
              (effective_limit (InterviewQuery.limit q))
              (map (populate (candidates s))
                   (sort_desc Interview.date (filter matches (interviews s))))
            = Ok data
            /\ total = List.length (filter matches (interviews s)).
Proof.
  unfold listInterviews, Interview_find_sorted, Interview_countDocuments.
  destruct (auth "hr" e header) as [r|user] eqn:A.
  - destruct (auth_denied_is_error _ _ _ A) as [st [m ->]]. discriminate.
  - destruct (cast_interview_filter _) as [matches|err].
    + intros H. exists matches. split; [reflexivity|].
      destruct (is_all _).
      * injection H as <- <-. split; reflexivity.
      * destruct (cursor_page _ _ _) as [d|err].
        -- injection H as <- <-. split; reflexivity.
        -- rewrite next_err_finalhandler in H.
           exfalso. revert H. apply finalhandler_is_no_listing. discriminate.
    + intros H. exfalso.
      assert (N : next_err ListInterviews err = json 200 (JsonInterviews data total)).
      { destruct (is_all _); exact H. }
      rewrite next_err_finalhandler in N. revert N.
      apply finalhandler_is_no_listing. discriminate.
Qed.

(** C8. With [limit=all], on the candidate list and on the interview list:
    whenever the answer carries [data] and [total], [data] is all the
    documents matching the filter, sorted and not paged, and [total] is the
    length of [data]; and an authenticated request whose filter the store
    accepts is answered so. *)
Theorem C8_limit_all_returns_everything
  (e : env) (header : option string) (s : store) :
  (forall q,
      is_all (CandidateQuery.limit q) = true ->
      (forall data total,
          listCandidates e header q s = json 200 (JsonCandidates data total) ->
          total = List.length data
          /\ exists matches,
               cast_candidate_filter (build_candidate_filter q) = Ok matches
               /\ Permutation data (filter matches (candidates s))
               /\ (forall c, In c data <-> In c (candidates s) /\ matches c = true))
      /\ (forall user matches,
            auth "hr" e header = Next user ->
            cast_candidate_filter (build_candidate_filter q) = Ok matches ->
            listCandidates e header q s
            = json 200
                (JsonCandidates
                   (sort_desc Candidate.createdAt (filter matches (candidates s)))
                   (List.length
                      (sort_desc Candidate.createdAt
                         (filter matches (candidates s)))))))
  /\ (forall q,
        is_all (InterviewQuery.limit q) = true ->
        (forall data total,
            listInterviews e header q s = json 200 (JsonInterviews data total) ->
            total = List.length data
            /\ exists matches,
                 cast_interview_filter (build_interview_filter q) = Ok matches
                 /\ Permutation (map Interview.doc data)
                                (filter matches (interviews s))
                 /\ (forall iv, In iv (map Interview.doc data)
                                <-> In iv (interviews s) /\ matches iv = true))
        /\ (forall user matches,
              auth "hr" e header = Next user ->
              cast_interview_filter (build_interview_filter q) = Ok matches ->
              listInterviews e header q s
              = json 200
                  (JsonInterviews
                     (map (populate (candidates s))
                        (sort_desc Interview.date (filter matches (interviews s))))
                     (List.length
                        (map (populate (candidates s))
                           (sort_desc Interview.date
                              (filter matches (interviews s)))))))).
Proof.
  split.
  - intros q Hall. split.
    + intros data total H.
      destruct (listCandidates_listing_inv _ _ _ _ _ _ H) as [matches [Hc Hd]].
      rewrite Hall in Hd. destruct Hd as [-> ->]. split; [reflexivity|].
      exists matches. split; [exact Hc|]. split; [apply sort_desc_perm|].
      intros c. rewrite sort_desc_In. apply filter_In.
    + intros user matches Ha Hc.
      unfold listCandidates, Candidate_find_sorted. rewrite Ha, Hall, Hc.
      reflexivity.
  - intros q Hall. split.
    + intros data total H.
      destruct (listInterviews_listing_inv _ _ _ _ _ _ H) as [matches [Hc Hd]].
      rewrite Hall in Hd. destruct Hd as [-> ->]. split; [reflexivity|].
      exists matches. split; [exact Hc|]. rewrite map_doc_populate.
      split; [apply sort_desc_perm|].
      intros iv. rewrite sort_desc_In. apply filter_In.
    + intros user matches Ha Hc.
      unfold listInterviews, Interview_find_sorted. rewrite Ha, Hall, Hc.
      reflexivity.
Qed.

(** C7. With [limit] not "all", on the candidate list and on the interview
    list: [page] is 1 when the query has none; whenever the answer carries
    [data] and [total], [total] is the number of documents matching the
    filter, whatever the page and the page size; and for an authenticated
    request whose filter the store accepts, with whole numbers [P >= 1] and
    [N >= 1] for the page and the page size, [data] is the sorted matching
    documents without the first [(P - 1) * N], cut after [N]. *)
Theorem C7_paged_listing
  (e : env) (header : option string) (s : store) :
  effective_page None = Fin 1
  /\ (forall q,
        is_all (CandidateQuery.limit q) = false ->
        (forall data total,
            listCandidates e header q s = json 200 (JsonCandidates data total) ->
            exists matches,
              cast_candidate_filter (build_candidate_filter q) = Ok matches
              /\ total = List.length (filter matches (candidates s)))
        /\ (forall user matches P N,
              auth "hr" e header = Next user ->
              cast_candidate_filter (build_candidate_filter q) = Ok matches ->
              as_int (effective_page (CandidateQuery.page q)) = Some P ->
              as_int (effective_limit (CandidateQuery.limit q)) = Some N ->
              (1 <= P)%Z -> (1 <= N)%Z ->
              listCandidates e header q s
              = json 200
                  (JsonCandidates
                     (firstn (Z.to_nat N)
                        (skipn (Z.to_nat ((P - 1) * N))
                           (sort_desc Candidate.createdAt
                              (filter matches (candidates s)))))
                     (List.length (filter matches (candidates s))))))
  /\ (forall q,
        is_all (InterviewQuery.limit q) = false ->
        (forall data total,
            listInterviews e header q s = json 200 (JsonInterviews data total) ->
            exists matches,
              cast_interview_filter (build_interview_filter q) = Ok matches
              /\ total = List.length (filter matches (interviews s)))
        /\ (forall user matches P N,
              auth "hr" e header = Next user ->
              cast_interview_filter (build_interview_filter q) = Ok matches ->
              as_int (effective_page (InterviewQuery.page q)) = Some P ->
              as_int (effective_limit (InterviewQuery.limit q)) = Some N ->
              (1 <= P)%Z -> (1 <= N)%Z ->
              listInterviews e header q s
              = json 200
                  (JsonInterviews
                     (firstn (Z.to_nat N)
                        (skipn (Z.to_nat ((P - 1) * N))
                           (map (populate (candidates s))
                              (sort_desc Interview.date
                                 (filter matches (interviews s))))))
                     (List.length (filter matches (interviews s)))))).
Proof.
  split; [reflexivity|]. split.
  - intros q Hall. split.
    + intros data total H.
      destruct (listCandidates_listing_inv _ _ _ _ _ _ H) as [matches [Hc Hd]].
      rewrite Hall in Hd. exists matches. split; [exact Hc|apply Hd].
    + intros user matches P N Ha Hc Hp Hn HP HN.
      unfold listCandidates, Candidate_find_sorted, Candidate_countDocuments.
      rewrite Ha, Hall, Hc.
      rewrite (cursor_page_whole _ _ _ N _ (skip_of_whole _ _ P N Hp Hn) Hn)
        by nia.
      reflexivity.
  - intros q Hall. split.
    + intros data total H.
      destruct (listInterviews_listing_inv _ _ _ _ _ _ H) as [matches [Hc Hd]].
      rewrite Hall in Hd. exists matches. split; [exact Hc|apply Hd].
    + intros user matches P N Ha Hc Hp Hn HP HN.
      unfold listInterviews, Interview_find_sorted, Interview_countDocuments.
      rewrite Ha, Hall, Hc.
      rewrite (cursor_page_whole _ _ _ N _ (skip_of_whole _ _ P N Hp Hn) Hn)
        by nia.
      reflexivity.
Qed.

(** *** Signing up *)

Lemma find_app_last_some {A} (f : A -> bool) (l : list A) (x : A) :
  f x = true -> find f (l ++ [x])%list <> None.
Proof.
  intros Hx. induction l as [|a l IH]; cbn.
  - rewrite Hx. discriminate.
  - destruct (f a); [discriminate|exact IH].
Qed.

Lemma existsb_app_last {A} (f : A -> bool) (l : list A) (x : A) :
  f x = true -> existsb f (l ++ [x])%list = true.
Proof.
  intros Hx. rewrite existsb_app. cbn. rewrite Hx.
  rewrite orb_true_r. reflexivity.
Qed.

Lemma filter_none_of_existsb {A} (f : A -> bool) (l : list A) :
  existsb f l = false -> filter f l = [].
Proof.
  induction l as [|a l IH]; cbn; [reflexivity|].
  destruct (f a); cbn; [discriminate|exact IH].
Qed.

(** What a successful signup did. *)
Lemma signup_success (e : env) (b : SignupReq.t) (s s' : store) (t : token) :
  signup e b s = (json 200 (JsonToken t), s') ->
  existsb (fun x => String.eqb (User.email x)
                      (Str.toLowerCase (text (SignupReq.email b)))) (users s)
  = false
  /\ exists u,
       User.email u = Str.toLowerCase (text (SignupReq.email b))
       /\ users s' = (users s ++ [u])%list.
Proof.
  unfold signup.
  destruct (signup_validation b); [|intros H; inversion H].
  destruct (User_findOne _ _); [intros H; inversion H|].
  unfold User_save.
  destruct (User_validate _); [rewrite next_err_finalhandler; intros H; inversion H|].
  destruct (existsb _ _); [rewrite next_err_finalhandler; intros H; inversion H|].
  cbn [new_User User.email].
  destruct (existsb _ _) eqn:E;
    [rewrite next_err_finalhandler; intros H; inversion H|].
  intros H. inversion H. split; [reflexivity|].
  eexists. split; [|reflexivity]. reflexivity.
Qed.

Lemma finalhandler_rejects (err : error) : rejected (finalhandler err) = true.
Proof.
  unfold rejected, finalhandler. cbn.
  destruct (err_status err) as [st|]; [|reflexivity].
  destruct ((400 <=? st) && (st <? 600))%Z eqn:E; [|reflexivity].
  apply andb_prop in E. apply E.
Qed.

Lemma next_err_rejects (r : route) (err : error) (s : store) :
  rejected (fst (next_err r err, s)) = true /\ snd (next_err r err, s) = s.
Proof. rewrite next_err_finalhandler. split; [apply finalhandler_rejects|reflexivity]. Qed.

(** A signup with an e-mail that is already stored is refused. *)
Lemma signup_taken_email (e : env) (b : SignupReq.t) (s : store) :
  existsb (fun x => String.eqb (User.email x)
                      (Str.toLowerCase (text (SignupReq.email b)))) (users s)
  = true ->
  rejected (fst (signup e b s)) = true /\ snd (signup e b s) = s.
Proof.
  intros Htaken. unfold signup.
  destruct (signup_validation b); [|split; reflexivity].
  destruct (User_findOne _ _); [split; reflexivity|].
  unfold User_save.
  destruct (User_validate _); [apply next_err_rejects|].
  cbn [new_User User.email]. rewrite Htaken. clear Htaken.
  match goal with
  | |- context [existsb ?f ?l] => destruct (existsb f l)
  end; apply next_err_rejects.
Qed.

(** C4. Two signups whose e-mails are equal up to letter case: if the first
    is answered with a token, the second is refused, leaves the collections
    as they are, and the user collection holds exactly one user with the
    lower-cased e-mail. *)
Theorem C4_same_email_second_signup_refused
  (e1 e2 : env) (b1 b2 : SignupReq.t) (s0 s1 : store) (t1 : token) :
  Str.toLowerCase (text (SignupReq.email b1))
  = Str.toLowerCase (text (SignupReq.email b2)) ->
  signup e1 b1 s0 = (json 200 (JsonToken t1), s1) ->
  rejected (fst (signup e2 b2 s1)) = true
  /\ snd (signup e2 b2 s1) = s1
  /\ List.length
       (filter (fun u => String.eqb (User.email u)
                           (Str.toLowerCase (text (SignupReq.email b1))))
               (users (snd (signup e2 b2 s1))))
     = 1%nat.
Proof.
  intros Hsame H1.
  destruct (signup_success e1 b1 s0 s1 t1 H1) as [Hfree [u [Hu Hs1]]].
  assert (Htaken :
    existsb (fun x => String.eqb (User.email x)
                        (Str.toLowerCase (text (SignupReq.email b2)))) (users s1)
    = true).
  { rewrite Hs1. apply existsb_app_last. rewrite Hu, Hsame. apply String.eqb_refl. }
  destruct (signup_taken_email e2 b2 s1 Htaken) as [Hr Hs].
  split; [exact Hr|]. split; [exact Hs|].
  rewrite Hs, Hs1, filter_app, length_app.
  rewrite (filter_none_of_existsb _ _ Hfree). cbn.
  rewrite Hu, String.eqb_refl. reflexivity.
Qed.

(** *** Strings that [isNumeric] accepts read as numbers *)

Lemma digit_not_space : forall c, Str.is_digit c = true -> Str.is_space c = false.
Proof. char_class. Qed.

Lemma digit_not_e : forall c, Str.is_digit c = true -> is_e c = false.
Proof. char_class. Qed.

Lemma dot_not_space : forall c, is_dot c = true -> Str.is_space c = false.
Proof. char_class. Qed.

Lemma dot_not_e : forall c, is_dot c = true -> is_e c = false.
Proof. char_class. Qed.

Lemma plus_not_space : forall c, is_plus c = true -> Str.is_space c = false.
Proof. char_class. Qed.

Lemma minus_not_space : forall c, is_minus c = true -> Str.is_space c = false.
Proof. char_class. Qed.

Lemma split_at_none (p : ascii -> bool) (l : list ascii) :
  (forall c, In c l -> p c = false) -> split_at p l = (l, None).
Proof.
  induction l as [|c r IH]; intros H; cbn; [reflexivity|].
  rewrite (H c (or_introl eq_refl)), IH; [reflexivity|].
  intros x Hx. apply H. right. exact Hx.
Qed.

Lemma split_at_inv (p : ascii -> bool) (l a : list ascii) (o : option (list ascii)) :
  split_at p l = (a, o) ->
  match o with
  | None => l = a
  | Some b => exists c, l = (a ++ c :: b)%list /\ p c = true
  end.
Proof.
  revert a o. induction l as [|c r IH]; intros a o; cbn.
  - intros H. inversion H. reflexivity.
  - destruct (p c) eqn:E.
    + intros H. inversion H. exists c. split; [reflexivity|exact E].
    + destruct (split_at p r) as [a' o'] eqn:S. intros H. inversion H. subst.
      specialize (IH a' o eq_refl). destruct o as [b|].
      * destruct IH as [x [-> Hx]]. exists x. split; [reflexivity|exact Hx].
      * subst. reflexivity.
Qed.

Lemma digits_total (l : list ascii) (acc : Z) :
  forallb Str.is_digit l = true -> exists m, digits 10 digit_val acc l = Some m.
Proof.
  revert acc. induction l as [|c r IH]; intros acc H; cbn.
  - eexists. reflexivity.
  - cbn in H. apply andb_prop in H. destruct H as [Hc Hr].
    unfold digit_val. rewrite Hc. apply IH, Hr.
Qed.

Lemma drop_space_id (l : list ascii) :
  (forall c, In c l -> Str.is_space c = false) -> Str.drop_space l = l.
Proof.
  destruct l as [|c r]; intros H; cbn; [reflexivity|].
  rewrite (H c (or_introl eq_refl)). reflexivity.
Qed.

Lemma trim_id (l : list ascii) :
  (forall c, In c l -> Str.is_space c = false) -> Str.trim l = l.
Proof.
  intros H. unfold Str.trim. rewrite (drop_space_id l H).
  rewrite drop_space_id; [apply rev_involutive|].
  intros c Hc. apply H. apply in_rev. exact Hc.
Qed.

(** The part of a numeric string after its sign. *)
Lemma numeric_body_parses (r : list ascii) :
  match split_at is_dot r with
  | (ip, None) => negb (Nat.eqb (List.length ip) 0) && forallb Str.is_digit ip
  | (ip, Some fp) =>
      forallb Str.is_digit ip
      && negb (Nat.eqb (List.length fp) 0) && forallb Str.is_digit fp
  end = true ->
  (forall c, In c r -> Str.is_space c = false)
  /\ exists q, unsigned_decimal r = Some q.
Proof.
  destruct (split_at is_dot r) as [ip o] eqn:S.
  pose proof (split_at_inv _ _ _ _ S) as I. destruct o as [fp|].
  - destruct I as [d [-> Hd]]. intros H.
    apply andb_prop in H. destruct H as [H Hfp].
    apply andb_prop in H. destruct H as [Hip Hne].
    assert (Hclass : forall c, In c (ip ++ d :: fp)%list ->
                               Str.is_digit c = true \/ is_dot c = true).
    { intros c Hc. apply in_app_or in Hc. destruct Hc as [Hc|[<-|Hc]].
      - left. exact (proj1 (forallb_forall _ _) Hip c Hc).
      - right. exact Hd.
      - left. exact (proj1 (forallb_forall _ _) Hfp c Hc). }
    split.
    + intros c Hc. destruct (Hclass c Hc);
        [apply digit_not_space|apply dot_not_space]; assumption.
    + unfold unsigned_decimal. rewrite split_at_none.
      2:{ intros c Hc. destruct (Hclass c Hc);
            [apply digit_not_e|apply dot_not_e]; assumption. }
      unfold mantissa. rewrite S.
      destruct (digits_total (ip ++ fp) 0) as [m Hm].
      { rewrite forallb_app, Hip, Hfp. reflexivity. }
      rewrite Hm. cbn [exponent].
      destruct ip as [|i ip']; destruct fp as [|f fp'];
        try discriminate; eexists; reflexivity.
  - subst ip. intros H. apply andb_prop in H. destruct H as [Hne Hr].
    split.
    + intros c Hc. apply digit_not_space.
      exact (proj1 (forallb_forall _ _) Hr c Hc).
    + unfold unsigned_decimal. rewrite split_at_none.
      2:{ intros c Hc. apply digit_not_e.
          exact (proj1 (forallb_forall _ _) Hr c Hc). }
      unfold mantissa. rewrite S. unfold digits1.
      destruct (digits_total r 0 Hr) as [m Hm].
      destruct r as [|c r']; [discriminate|].
      rewrite Hm. eexists. reflexivity.
Qed.

Lemma signed_decimal_of_numeric (l : list ascii) :
  isNumeric_chars l = true ->
  (forall c, In c l -> Str.is_space c = false) /\ signed_decimal l <> NaN.
Proof.
  unfold isNumeric_chars, signed_decimal, take_sign.
  destruct l as [|c r].
  - cbn. discriminate.
  - destruct (is_plus c) eqn:Ep; [|destruct (is_minus c) eqn:Em]; cbn [orb].
    + intros H. destruct (numeric_body_parses r H) as [Hs [q Hq]]. split.
      * intros x [<-|Hx]; [apply plus_not_space, Ep|apply Hs, Hx].
      * destruct (chars_eqb r infinity_chars); [discriminate|].
        rewrite Hq. discriminate.
    + intros H. destruct (numeric_body_parses r H) as [Hs [q Hq]]. split.
      * intros x [<-|Hx]; [apply minus_not_space, Em|apply Hs, Hx].
      * destruct (chars_eqb r infinity_chars); [discriminate|].
        rewrite Hq. discriminate.
    + intros H. destruct (numeric_body_parses (c :: r) H) as [Hs [q Hq]].
      split; [exact Hs|].
      destruct (chars_eqb (c :: r) infinity_chars); [discriminate|].
      rewrite Hq. discriminate.
Qed.

Lemma Number_of_numeric_string (s : string) :
  isNumeric_string s = true -> Number_of_string s <> NaN.
Proof.
  unfold isNumeric_string, Number_of_string. intros H.
  destruct (signed_decimal_of_numeric _ H) as [Hs Hn].
  rewrite (trim_id _ Hs).
  destruct (Str.chars s) as [|c r]; [discriminate|].
  destruct (non_decimal (c :: r)); [discriminate|exact Hn].
Qed.

(** A field that passes [.isNumeric()] converts to a number, not to NaN. *)
Lemma Number_of_numeric (o : option jsval) :
  isNumeric o = true -> Number o <> NaN.
Proof.
  destruct o as [[|b|n|s]|]; cbn; try discriminate.
  - destruct n; cbn; discriminate.
  - apply Number_of_numeric_string.
Qed.

(** *** Feedback *)

Lemma feedback_validation_nil (id : string) (b : FeedbackReq.t) :
  feedback_validation id b = [] <->
  isMongoId_string id = true
  /\ optional isNumeric (FeedbackReq.rating b) = true
  /\ optional isString (FeedbackReq.notes b) = true.
Proof.
  unfold feedback_validation. cbn [isMongoId].
  destruct (isMongoId_string id), (optional isNumeric _), (optional isString _);
    validation_cases.
Qed.

(** The fields of the fresh feedback object are the fields of the body. *)
Lemma feedback_of_fields (b : FeedbackReq.t) :
  optional isString (FeedbackReq.notes b) = true ->
  (Interview.fb_rating (feedback_of b) = None <-> FeedbackReq.rating b = None)
  /\ (Interview.fb_notes (feedback_of b) = None <-> FeedbackReq.notes b = None)
  /\ (forall v, FeedbackReq.rating b = Some v ->
                Interview.fb_rating (feedback_of b) = Some (Number (Some v)))
  /\ (forall t, FeedbackReq.notes b = Some (JStr t) ->
                Interview.fb_notes (feedback_of b) = Some t).
Proof.
  unfold feedback_of, empty_feedback.
  destruct (FeedbackReq.rating b) as [v|];
    destruct (FeedbackReq.notes b) as [[|x|n|t]|]; cbn; try discriminate;
    intros _; repeat split; intros; try discriminate; try congruence;
    match goal with
    | H : Some _ = Some _ |- _ => injection H as <-; reflexivity
    end.
Qed.

Lemma feedback_rating_casts (b : FeedbackReq.t) :
  optional isNumeric (FeedbackReq.rating b) = true ->
  Interview.fb_rating (feedback_of b) <> Some NaN.
Proof.
  unfold feedback_of, empty_feedback.
  destruct (FeedbackReq.rating b) as [v|] eqn:R; cbn [optional].
  - intros H. pose proof (Number_of_numeric _ H) as N.
    destruct (FeedbackReq.notes b) as [[|x|n|t]|];
      cbn [Interview.fb_rating]; intros X; injection X as X; exact (N X).
  - intros _. destruct (FeedbackReq.notes b) as [[|x|n|t]|]; cbn; discriminate.
Qed.

Lemma find_after_write_over (oid : ObjectId) (iv0 iv : Interview.t)
  (ivs : list Interview.t) :
  find (fun x => String.eqb (Interview._id x) oid) ivs = Some iv0 ->
  Interview._id iv = Interview._id iv0 ->
  find (fun x => String.eqb (Interview._id x) oid) (write_over iv ivs) = Some iv.
Proof.
  intros Hf Hid. unfold write_over.
  assert (Hoid : Interview._id iv = oid).
  { rewrite Hid. apply find_some in Hf. apply String.eqb_eq. apply Hf. }
  rewrite Hoid. clear Hid.
  induction ivs as [|x r IH]; cbn in *; [discriminate|].
  destruct (String.eqb (Interview._id x) oid) eqn:E.
  - rewrite Hoid, String.eqb_refl. reflexivity.
  - rewrite E. apply IH, Hf.
Qed.

(** A valid feedback call on a stored interview succeeds, and afterwards the
    interview carries exactly the feedback built from the body. *)
Lemma setFeedback_valid
  (e : env) (header : option string) (user : claims) (id : string)
  (b : FeedbackReq.t) (s : store) (iv0 : Interview.t) :
  auth "hr" e header = Next user ->
  feedback_validation id b = [] ->
  Interview_findById id (interviews s) = Ok (Some iv0) ->
  let iv := set_feedback e (feedback_of b) iv0 in
  fst (setFeedback e header id b s) = json 200 (JsonInterview iv)
  /\ Interview_findById id (interviews (snd (setFeedback e header id b s)))
     = Ok (Some iv).
Proof.
  intros Ha Hv Hf iv. unfold setFeedback. rewrite Ha, Hv, Hf.
  apply feedback_validation_nil in Hv. destruct Hv as [_ [Hr _]].
  pose proof (feedback_rating_casts b Hr) as Hc.
  unfold Interview_save. fold iv.
  assert (E : Interview.fb_rating (Interview.feedback iv)
              = Interview.fb_rating (feedback_of b)) by reflexivity.
  rewrite E.
  unfold Interview_findById in *.
  destruct (castObjectId id) as [oid|]; [|discriminate].
  injection Hf as Hf.
  assert (W : find (fun x => String.eqb (Interview._id x) oid)
                   (write_over iv (interviews s)) = Some iv).
  { apply (find_after_write_over oid iv0); [exact Hf|reflexivity]. }
  destruct (Interview.fb_rating (feedback_of b)) as [[| | |q]|];
    try congruence; cbn; (split; [reflexivity|]); f_equal; exact W.
Qed.

(** Whatever a feedback call does, a stored interview stays stored. *)
Lemma setFeedback_keeps_interview
  (e : env) (header : option string) (id : string) (b : FeedbackReq.t)
  (s : store) (iv0 : Interview.t) :
  Interview_findById id (interviews s) = Ok (Some iv0) ->
  exists iv1,
    Interview_findById id (interviews (snd (setFeedback e header id b s)))
    = Ok (Some iv1).
Proof.
  intros Hf. unfold setFeedback.
  destruct (auth "hr" e header) as [r|user]; [eauto|].
  destruct (feedback_validation id b); [|eauto].
  rewrite Hf. unfold Interview_save.
  set (iv := set_feedback e (feedback_of b) iv0).
  assert (W : Interview_findById id (write_over iv (interviews s)) = Ok (Some iv)).
  { unfold Interview_findById in *.
    destruct (castObjectId id) as [oid|]; [|discriminate].
    injection Hf as Hf. f_equal.
    apply (find_after_write_over oid iv0); [exact Hf|reflexivity]. }
  destruct (Interview.fb_rating (Interview.feedback iv)) as [[| | |x]|];
    cbn [snd interviews]; eauto.
Qed.

(** C2. Two feedback calls on a stored interview, the second authenticated
    and passing validation, the first whatever it is: after the second, the
    stored feedback has exactly the fields of the second body, [rating] if
    and only if the second call supplied a rating (as [Number(rating)]) and
    [notes] if and only if it supplied notes; nothing set before is kept. *)
Theorem C2_feedback_is_replaced
  (e1 e2 : env) (h1 h2 : option string) (u2 : claims) (id : string)
  (b1 b2 : FeedbackReq.t) (s0 : store) (iv0 : Interview.t) :
  auth "hr" e2 h2 = Next u2 ->
  feedback_validation id b2 = [] ->
  Interview_findById id (interviews s0) = Ok (Some iv0) ->
  let s1 := snd (setFeedback e1 h1 id b1 s0) in
  let s2 := snd (setFeedback e2 h2 id b2 s1) in
  status (fst (setFeedback e2 h2 id b2 s1)) = 200
  /\ exists iv2,
       Interview_findById id (interviews s2) = Ok (Some iv2)
       /\ Interview.feedback iv2 = feedback_of b2
       /\ (Interview.fb_rating (Interview.feedback iv2) = None
           <-> FeedbackReq.rating b2 = None)
       /\ (Interview.fb_notes (Interview.feedback iv2) = None
           <-> FeedbackReq.notes b2 = None)
       /\ (forall v, FeedbackReq.rating b2 = Some v ->
                     Interview.fb_rating (Interview.feedback iv2)
                     = Some (Number (Some v)))
       /\ (forall t, FeedbackReq.notes b2 = Some (JStr t) ->
                     Interview.fb_notes (Interview.feedback iv2) = Some t).
Proof.
  intros A2 V2 F0 s1 s2.
  destruct (setFeedback_keeps_interview e1 h1 id b1 s0 iv0 F0) as [iv1 F1].
  fold s1 in F1.
  destruct (setFeedback_valid e2 h2 u2 id b2 s1 iv1 A2 V2 F1) as [R2 F2].
  fold s2 in F2.
  split; [rewrite R2; reflexivity|].
  eexists. split; [exact F2|]. split; [reflexivity|].
  cbn [set_feedback Interview.feedback].
  apply feedback_of_fields.
  apply feedback_validation_nil in V2. apply V2.
Qed.

(* ------------------------------------------------------------------ *)
(** ** Further properties of the routes *)

(** *** What each writing route does to the collections *)

Lemma rejected_not_succeeded (r : response) :
  rejected r = true -> succeeded r = false.
Proof.
  unfold rejected, succeeded. intros H. apply Z.leb_le in H.
  destruct (status r =? 200)%Z eqn:A; [apply Z.eqb_eq in A; lia|].
  destruct (status r =? 201)%Z eqn:B; [apply Z.eqb_eq in B; lia|].
  reflexivity.
Qed.

Lemma auth_denied_rejected (e : env) (header : option string) (r : response) :
  auth "hr" e header = Denied r -> rejected r = true.
Proof.
  unfold auth. destruct (negb (Str.truthy_opt header)).
  - intros H. injection H as <-. reflexivity.
  - destruct (jwt_verify _ _ _) as [payload|].
    + destruct (Str.truthy "hr" && negb (role_is payload "hr")).
      * intros H. injection H as <-. reflexivity.
      * discriminate.
    + intros H. injection H as <-. reflexivity.
Qed.

Lemma next_err_not_succeeded (r : route) (err : error) :
  succeeded (next_err r err) = false.
Proof.
  apply rejected_not_succeeded. rewrite next_err_finalhandler.
  apply finalhandler_rejects.
Qed.

Lemma existsb_eqb_false {A} (f : A -> string) (k : string) (l : list A) :
  existsb (fun x => String.eqb (f x) k) l = false -> ~ In k (map f l).
Proof.
  induction l as [|a l IH]; cbn; [intros _ []|].
  destruct (String.eqb (f a) k) eqn:E; [discriminate|].
  apply String.eqb_neq in E. intros H [Ha|Hl]; [congruence|exact (IH H Hl)].
Qed.

(** A signup either fails and leaves the collections alone, or appends one
    validated user whose [_id] and e-mail were not in use. *)
Lemma signup_effect (e : env) (b : SignupReq.t) (s : store) :
  (snd (signup e b s) = s /\ succeeded (fst (signup e b s)) = false)
  \/ exists u,
       signup e b s
       = (json 200 (JsonToken (issue_token e u)),
          {| users := users s ++ [u];
             candidates := candidates s;
             interviews := interviews s |})
       /\ u = new_User e (text (SignupReq.name b)) (text (SignupReq.email b))
                (bcrypt_hash (text (SignupReq.password b)) 10 (salt e))
       /\ signup_validation b = []
       /\ User_validate u = None
       /\ ~ In (User._id u) (map User._id (users s))
       /\ ~ In (User.email u) (map User.email (users s)).
Proof.
  unfold signup.
  destruct (signup_validation b) eqn:V; [|left; split; reflexivity].
  destruct (User_findOne _ _); [left; split; reflexivity|].
  unfold User_save.
  set (u := new_User e _ _ _).
  destruct (User_validate u) eqn:Val;
    [left; split; [reflexivity|apply next_err_not_succeeded]|].
  destruct (existsb (fun x => String.eqb (User._id x) (User._id u)) (users s))
    eqn:I; [left; split; [reflexivity|apply next_err_not_succeeded]|].
  destruct (existsb (fun x => String.eqb (User.email x) (User.email u)) (users s))
    eqn:M; [left; split; [reflexivity|apply next_err_not_succeeded]|].
  right. exists u.
  split; [reflexivity|]. split; [reflexivity|]. split; [reflexivity|].
  split; [exact Val|]. split; apply existsb_eqb_false; assumption.
Qed.

(** Creating a candidate either fails and leaves the collections alone, or
    appends the one validated candidate that the body describes. *)
Lemma createCandidate_effect
  (e : env) (header : option string) (b : CandidateReq.t) (s : store) :
  (snd (createCandidate e header b s) = s
   /\ succeeded (fst (createCandidate e header b s)) = false)
  \/ exists user,
       auth "hr" e header = Next user
       /\ candidate_validation b = []
       /\ createCandidate e header b s
          = (json 201 (JsonCandidate (candidate_of e user b)),
             {| users := users s;
                candidates := candidates s ++ [candidate_of e user b];
                interviews := interviews s |})
       /\ Candidate_validate (candidate_of e user b) = None
       /\ ~ In (new_id e) (map Candidate._id (candidates s)).
Proof.
  unfold createCandidate.
  destruct (auth "hr" e header) as [r|user] eqn:A.
  - left. split; [reflexivity|].
    apply rejected_not_succeeded, (auth_denied_rejected _ _ _ A).
  - destruct (candidate_validation b) eqn:V; [|left; split; reflexivity].
    fold (candidate_of e user b). unfold Candidate_save.
    destruct (Candidate_validate _) eqn:Val;
      [left; split; [reflexivity|apply next_err_not_succeeded]|].
    destruct (existsb _ _) eqn:I;
      [left; split; [reflexivity|apply next_err_not_succeeded]|].
    right. exists user.
    split; [reflexivity|]. split; [reflexivity|]. split; [reflexivity|].
    split; [exact Val|]. apply existsb_eqb_false in I. exact I.
Qed.

(** Scheduling an interview either fails and leaves the collections alone,
    or appends one interview for a stored candidate. *)
Lemma scheduleInterview_effect
  (e : env) (header : option string) (b : InterviewReq.t) (s : store) :
  (snd (scheduleInterview e header b s) = s
   /\ succeeded (fst (scheduleInterview e header b s)) = false)
  \/ exists user c iv,
       auth "hr" e header = Next user
       /\ interview_validation b = []
       /\ Candidate_findById (text (InterviewReq.candidate b)) (candidates s)
          = Ok (Some c)
       /\ new_Interview e (text (InterviewReq.candidate b))
            (Date_parse (text (InterviewReq.date b)))
            (text (InterviewReq.interviewer b))
            (match InterviewReq.mode b with None => "remote" | Some m => m end)
            (userId user)
          = Ok iv
       /\ scheduleInterview e header b s
          = (json 201 (JsonInterview iv),
             {| users := users s;
                candidates := candidates s;
                interviews := interviews s ++ [iv] |})
       /\ ~ In (Interview._id iv) (map Interview._id (interviews s)).
Proof.
  unfold scheduleInterview.
  destruct (auth "hr" e header) as [r|user] eqn:A.
  - left. split; [reflexivity|].
    apply rejected_not_succeeded, (auth_denied_rejected _ _ _ A).
  - destruct (interview_validation b) eqn:V; [|left; split; reflexivity].
    destruct (Candidate_findById _ _) as [[c|]|err] eqn:F;
      [|left; split; reflexivity
       |left; split; [reflexivity|apply next_err_not_succeeded]].
    destruct (new_Interview _ _ _ _ _ _) as [iv|err] eqn:N;
      [|left; split; [reflexivity|apply next_err_not_succeeded]].
    unfold Interview_insert.
    destruct (existsb _ _) eqn:I;
      [left; split; [reflexivity|apply next_err_not_succeeded]|].
    right. exists user, c, iv.
    split; [reflexivity|]. split; [reflexivity|]. split; [reflexivity|].
    split; [first [reflexivity|exact N]|]. split; [reflexivity|].
    apply existsb_eqb_false in I. exact I.
Qed.

(** A feedback call either fails and leaves the collections alone, or
    writes the addressed interview, with its new feedback, over itself. *)
Lemma setFeedback_effect
  (e : env) (header : option string) (id : string) (b : FeedbackReq.t)
  (s : store) :
  (snd (setFeedback e header id b s) = s
   /\ succeeded (fst (setFeedback e header id b s)) = false)
  \/ exists iv0,
       feedback_validation id b = []
       /\ Interview_findById id (interviews s) = Ok (Some iv0)
       /\ setFeedback e header id b s
          = (json 200 (JsonInterview (set_feedback e (feedback_of b) iv0)),
             {| users := users s;
                candidates := candidates s;
                interviews :=
                  write_over (set_feedback e (feedback_of b) iv0) (interviews s) |}).
Proof.
  unfold setFeedback.
  destruct (auth "hr" e header) as [r|user] eqn:A.
  - left. split; [reflexivity|].
    apply rejected_not_succeeded, (auth_denied_rejected _ _ _ A).
  - destruct (feedback_validation id b) eqn:V; [|left; split; reflexivity].
    destruct (Interview_findById _ _) as [[iv0|]|err] eqn:F;
      [|left; split; reflexivity
       |left; split; [reflexivity|apply next_err_not_succeeded]].
    unfold Interview_save.
    destruct (Interview.fb_rating _) as [[| | |x]|];
      try (right; exists iv0; split; [reflexivity|]; split; reflexivity).
    left. split; [reflexivity|apply next_err_not_succeeded].
Qed.

(** *** Failures write nothing; nothing is ever removed *)

(** Whatever the request, when the answer is neither 200 nor 201 the
    collections are exactly as before. *)
Theorem failure_leaves_the_collections (e : env) (r : request) (s : store) :
  succeeded (fst (handle e r s)) = false -> snd (handle e r s) = s.
Proof.
  destruct r as [|b|b|h b|h q|h id|h b|h q|h id b|]; cbn [handle snd fst];
    try reflexivity; intros F.
  - destruct (signup_effect e b s) as [[H _]|[u [H _]]]; [exact H|].
    rewrite H in F. discriminate.
  - destruct (createCandidate_effect e h b s) as [[H _]|[u [_ [_ [H _]]]]];
      [exact H|]. rewrite H in F. discriminate.
  - destruct (scheduleInterview_effect e h b s)
      as [[H _]|[u [c [iv [_ [_ [_ [_ [H _]]]]]]]]]; [exact H|].
    rewrite H in F. discriminate.
  - destruct (setFeedback_effect e h id b s) as [[H _]|[iv0 [_ [_ H]]]];
      [exact H|]. rewrite H in F. discriminate.
Qed.

Lemma map_id_write_over (iv : Interview.t) (ivs : list Interview.t) :
  map Interview._id (write_over iv ivs) = map Interview._id ivs.
Proof.
  unfold write_over. induction ivs as [|x r IH]; cbn; [reflexivity|].
  rewrite IH. destruct (String.eqb (Interview._id x) (Interview._id iv)) eqn:E;
    [|reflexivity].
  apply String.eqb_eq in E. rewrite E. reflexivity.
Qed.

Lemma handle_growth (e : env) (r : request) (s : store) :
  exists us cs ivs,
    users (snd (handle e r s)) = (users s ++ us)%list
    /\ candidates (snd (handle e r s)) = (candidates s ++ cs)%list
    /\ map Interview._id (interviews (snd (handle e r s)))
       = (map Interview._id (interviews s) ++ map Interview._id ivs)%list
    /\ (List.length us + List.length cs + List.length ivs <= 1)%nat.
Proof.
  assert (same : forall s', s' = s ->
            exists us cs ivs,
              users s' = (users s ++ us)%list
              /\ candidates s' = (candidates s ++ cs)%list
              /\ map Interview._id (interviews s')
                 = (map Interview._id (interviews s) ++ map Interview._id ivs)%list
              /\ (List.length us + List.length cs + List.length ivs <= 1)%nat).
  { intros s' ->. exists [], [], []. rewrite !app_nil_r. cbn. auto. }
  destruct r as [|b|b|h b|h q|h id|h b|h q|h id b|]; cbn [handle snd];
    try (apply same; reflexivity).
  - destruct (signup_effect e b s) as [[H _]|[u [H _]]]; [apply same, H|].
    rewrite H. exists [u], [], []. cbn. rewrite !app_nil_r. auto.
  - destruct (createCandidate_effect e h b s) as [[H _]|[u [_ [_ [H _]]]]];
      [apply same, H|].
    rewrite H. eexists [], [_], []. cbn. rewrite !app_nil_r. auto.
  - destruct (scheduleInterview_effect e h b s)
      as [[H _]|[u [c [iv [_ [_ [_ [_ [H _]]]]]]]]]; [apply same, H|].
    rewrite H. exists [], [], [iv]. cbn. rewrite !app_nil_r, map_app. auto.
  - destruct (setFeedback_effect e h id b s) as [[H _]|[iv0 [_ [_ H]]]];
      [apply same, H|].
    rewrite H. exists [], [], []. cbn. rewrite !app_nil_r, map_id_write_over.
    auto.
Qed.

(** One request adds at most one document, to one collection, at its end;
    no user and no candidate is changed or removed, and the interviews keep
    their identifiers and their order. *)
Theorem one_request_adds_at_most_one_document
  (e : env) (r : request) (s : store) :
  exists us cs ivs,
    users (snd (handle e r s)) = (users s ++ us)%list
    /\ candidates (snd (handle e r s)) = (candidates s ++ cs)%list
    /\ map Interview._id (interviews (snd (handle e r s)))
       = (map Interview._id (interviews s) ++ map Interview._id ivs)%list
    /\ (List.length us + List.length cs + List.length ivs <= 1)%nat.
Proof. exact (handle_growth e r s). Qed.

(** Over any sequence of requests, the users and the candidates stored at
    the start stay, unchanged and in place, at the head of their
    collections. *)
Lemma run_extends (trace : list (env * request)) (s : store) :
  exists us cs,
    users (run trace s) = (users s ++ us)%list
    /\ candidates (run trace s) = (candidates s ++ cs)%list.
Proof.
  revert s. induction trace as [|[e r] rest IH]; intros s; cbn [run].
  - exists [], []. rewrite !app_nil_r. auto.
  - destruct (IH (snd (handle e r s))) as [us [cs [Hu Hc]]].
    destruct (handle_growth e r s) as [us0 [cs0 [ivs0 [Hu0 [Hc0 _]]]]].
    exists (us0 ++ us)%list, (cs0 ++ cs)%list.
    rewrite Hu, Hc, Hu0, Hc0, !app_assoc. auto.
Qed.

(** *** The schemas' promises hold of every stored document *)

Lemma truthy_nonempty (s : string) : Str.truthy s = true -> s <> "".
Proof. destruct s; [discriminate|discriminate]. Qed.

Lemma lower_char_idempotent (c : ascii) :
  Str.lower_char (Str.lower_char c) = Str.lower_char c.
Proof.
  unfold Str.lower_char. destruct (Str.is_upper c) eqn:U; [|rewrite U; reflexivity].
  unfold Str.is_upper, Str.code in *. apply andb_prop in U. destruct U as [U1 U2].
  apply N.leb_le in U1. apply N.leb_le in U2.
  rewrite N_ascii_embedding by lia.
  destruct (65 <=? N_of_ascii c + 32)%N; [|reflexivity].
  destruct (N.leb_spec (N_of_ascii c + 32) 90); [lia|reflexivity].
Qed.

Lemma toLowerCase_idempotent (s : string) :
  Str.toLowerCase (Str.toLowerCase s) = Str.toLowerCase s.
Proof.
  induction s as [|c r IH]; cbn; [reflexivity|].
  rewrite lower_char_idempotent, IH. reflexivity.
Qed.

Lemma NoDup_snoc {A} (l : list A) (a : A) :
  NoDup l -> ~ In a l -> NoDup (l ++ [a]).
Proof.
  intros Hl Ha. apply (Permutation_NoDup (l := a :: l)).
  - apply Permutation_cons_append.
  - constructor; assumption.
Qed.

Lemma User_validate_ok (u : User.t) :
  User_validate u = None ->
  User.name u <> "" /\ User.email u <> "" /\ User.passwordHash u <> ""
  /\ User.role u = "hr".
Proof.
  unfold User_validate.
  destruct (Str.truthy (User.name u)) eqn:N; [|discriminate].
  destruct (Str.truthy (User.email u)) eqn:M; [|discriminate].
  destruct (Str.truthy (User.passwordHash u)) eqn:P; [|discriminate].
  destruct (String.eqb (User.role u) "hr") eqn:R; [|discriminate].
  intros _. apply String.eqb_eq in R.
  repeat split; try apply truthy_nonempty; assumption.
Qed.

Lemma Candidate_validate_ok (c : Candidate.t) :
  Candidate_validate c = None -> candidate_ok c.
Proof.
  unfold Candidate_validate, candidate_ok.
  destruct (Str.truthy (Candidate.name c)) eqn:N; [|discriminate].
  destruct (Str.truthy (Candidate.role c)) eqn:R; [|discriminate].
  destruct (casts_to_Number (Candidate.experience c)) eqn:X; [|discriminate].
  destruct (geb (Candidate.experience c) (Fin 0)) eqn:G; [|discriminate].
  destruct (casts_to_Number (Candidate.rating c)) eqn:T; [|discriminate].
  intros _. repeat split; try apply truthy_nonempty; try assumption.
  intros E. rewrite E in T. discriminate.
Qed.

Lemma Candidate_findById_some (id : string) (cs : list Candidate.t)
  (c : Candidate.t) :
  Candidate_findById id cs = Ok (Some c) ->
  In c cs /\ castObjectId id = Some (Candidate._id c).
Proof.
  unfold Candidate_findById. destruct (castObjectId id) as [oid|]; [|discriminate].
  intros H. injection H as H. apply find_some in H. destruct H as [Hin He].
  apply String.eqb_eq in He. split; [exact Hin|congruence].
Qed.

Lemma Interview_findById_some (id : string) (ivs : list Interview.t)
  (iv : Interview.t) :
  Interview_findById id ivs = Ok (Some iv) ->
  In iv ivs /\ castObjectId id = Some (Interview._id iv).
Proof.
  unfold Interview_findById. destruct (castObjectId id) as [oid|]; [|discriminate].
  intros H. injection H as H. apply find_some in H. destruct H as [Hin He].
  apply String.eqb_eq in He. split; [exact Hin|congruence].
Qed.

(** What [new Interview] gives when the schema accepts the fields. *)
Lemma new_Interview_ok (e : env) (candidate : string) (date : option Z)
  (interviewer mode : string) (createdBy : ObjectId) (iv : Interview.t) :
  new_Interview e candidate date interviewer mode createdBy = Ok iv ->
  castObjectId candidate = Some (Interview.candidate iv)
  /\ date = Some (Interview.date iv)
  /\ Interview.interviewer iv = interviewer
  /\ interviewer <> ""
  /\ Interview.mode iv = mode
  /\ (mode = "onsite" \/ mode = "remote")
  /\ Interview.feedback iv = empty_feedback
  /\ Interview._id iv = new_id e
  /\ Interview.createdBy iv = createdBy.
Proof.
  unfold new_Interview.
  destruct (castObjectId candidate) as [cand|]; [|discriminate].
  destruct date as [d|]; [|discriminate].
  destruct (Str.truthy interviewer) eqn:I; [|discriminate].
  destruct (String.eqb mode "onsite") eqn:M1;
    [|destruct (String.eqb mode "remote") eqn:M2; [|discriminate]];
    cbn [negb orb]; intros H; injection H as <-; cbn;
    repeat split; try (apply truthy_nonempty; exact I).
  - left. apply String.eqb_eq, M1.
  - right. apply String.eqb_eq, M2.
Qed.

Lemma In_write_over (iv x : Interview.t) (ivs : list Interview.t) :
  In x (write_over iv ivs) -> x = iv \/ In x ivs.
Proof.
  unfold write_over. intros H. apply in_map_iff in H.
  destruct H as [y [Hy Hin]].
  destruct (String.eqb (Interview._id y) (Interview._id iv));
    [left|right]; congruence.
Qed.

Lemma interview_ok_more_candidates (cs more : list Candidate.t)
  (iv : Interview.t) :
  interview_ok cs iv -> interview_ok (cs ++ more) iv.
Proof.
  intros [[c [Hc Hid]] H]. split; [|exact H].
  exists c. split; [apply in_or_app; left; exact Hc|exact Hid].
Qed.

(** Serving a request keeps the keys distinct and the documents as their
    schemas want them. *)
Lemma handle_keeps_invariants (e : env) (r : request) (s : store) :
  keys_distinct s -> documents_ok s ->
  keys_distinct (snd (handle e r s)) /\ documents_ok (snd (handle e r s)).
Proof.
  intros K D.
  assert (same : forall s', s' = s -> keys_distinct s' /\ documents_ok s').
  { intros s' ->. split; assumption. }
  destruct K as [Ku [Km [Kc Ki]]]. destruct D as [Du [Dc Di]].
  destruct r as [|b|b|h b|h q|h id|h b|h q|h id b|]; cbn [handle snd];
    try (apply same; reflexivity).
  - (* signup *)
    destruct (signup_effect e b s) as [[H _]|[u [H [Hu [_ [Val [Fi Fm]]]]]]];
      [apply same, H|].
    rewrite H. unfold keys_distinct, documents_ok.
    cbn [snd users candidates interviews].
    rewrite !map_app. cbn [map].
    split; [repeat split; try assumption; apply NoDup_snoc; assumption|].
    split; [|split; assumption].
    intros x Hx. apply in_app_or in Hx. destruct Hx as [Hx|[<-|[]]]; [auto|].
    destruct (User_validate_ok u Val) as [N [M [P R]]].
    unfold user_ok. repeat split; try assumption.
    rewrite Hu. unfold lower_case. cbn. apply toLowerCase_idempotent.
  - (* create candidate *)
    destruct (createCandidate_effect e h b s)
      as [[H _]|[u [_ [_ [H [Val Fi]]]]]]; [apply same, H|].
    rewrite H. unfold keys_distinct, documents_ok.
    cbn [snd users candidates interviews].
    rewrite !map_app. cbn [map].
    split; [repeat split; try assumption; apply NoDup_snoc; assumption|].
    split; [assumption|]. split.
    + intros x Hx. apply in_app_or in Hx. destruct Hx as [Hx|[<-|[]]]; [auto|].
      apply Candidate_validate_ok, Val.
    + intros iv Hiv. apply interview_ok_more_candidates, Di, Hiv.
  - (* schedule interview *)
    destruct (scheduleInterview_effect e h b s)
      as [[H _]|[u [c [iv [_ [_ [F [N [H Fi]]]]]]]]]; [apply same, H|].
    rewrite H. unfold keys_distinct, documents_ok.
    cbn [snd users candidates interviews].
    rewrite !map_app. cbn [map].
    split; [repeat split; try assumption; apply NoDup_snoc; assumption|].
    split; [assumption|]. split; [assumption|].
    intros x Hx. apply in_app_or in Hx. destruct Hx as [Hx|[<-|[]]]; [auto|].
    apply Candidate_findById_some in F. destruct F as [Hc Hcast].
    apply new_Interview_ok in N.
    destruct N as [Ncast [_ [Ni [Nne [Nm [Nmode [Nf _]]]]]]].
    unfold interview_ok. rewrite Ni, Nm, Nf. repeat split; try assumption.
    + exists c. split; [exact Hc|congruence].
    + cbn. discriminate.
  - (* feedback *)
    destruct (setFeedback_effect e h id b s) as [[H _]|[iv0 [V [F H]]]];
      [apply same, H|].
    rewrite H. unfold keys_distinct, documents_ok.
    cbn [snd users candidates interviews].
    rewrite map_id_write_over.
    split; [repeat split; assumption|].
    split; [assumption|]. split; [assumption|].
    intros x Hx. apply In_write_over in Hx. destruct Hx as [->|Hx]; [|auto].
    apply Interview_findById_some in F. destruct F as [Hin _].
    destruct (Di iv0 Hin) as [Hc [Hm [Hn _]]].
    unfold interview_ok. cbn [set_feedback Interview.candidate Interview.mode
      Interview.interviewer Interview.feedback].
    repeat split; try assumption.
    apply feedback_rating_casts. apply feedback_validation_nil in V. apply V.
Qed.

Lemma run_keeps_invariants (trace : list (env * request)) (s : store) :
  keys_distinct s -> documents_ok s ->
  keys_distinct (run trace s) /\ documents_ok (run trace s).
Proof.
  revert s. induction trace as [|[e r] rest IH]; intros s K D; cbn [run].
  - split; assumption.
  - destruct (handle_keeps_invariants e r s K D) as [K' D']. apply IH; assumption.
Qed.

Lemma empty_store_invariants : keys_distinct empty_store /\ documents_ok empty_store.
Proof.
  split.
  - unfold keys_distinct. cbn. repeat split; constructor.
  - unfold documents_ok. cbn. split; [|split]; intros x [].
Qed.

Lemma reachable_invariants (trace : list (env * request)) :
  keys_distinct (run trace empty_store) /\ documents_ok (run trace empty_store).
Proof.
  destruct empty_store_invariants as [K D]. apply run_keeps_invariants; assumption.
Qed.

(** In every state the API can reach from empty collections, no two users
    share an [_id] or an e-mail, and no two candidates or two interviews share
    an [_id]. *)
Theorem stored_keys_are_unique (trace : list (env * request)) :
  keys_distinct (run trace empty_store).
Proof. exact (proj1 (reachable_invariants trace)). Qed.

(** In every reachable state, each stored user has a lower-case, non-empty
    e-mail, the role "hr", a name and a password hash. *)
Theorem stored_users_are_normalised (trace : list (env * request)) (u : User.t) :
  In u (users (run trace empty_store)) -> user_ok u.
Proof. exact (proj1 (proj2 (reachable_invariants trace)) u). Qed.

(** In every reachable state, each stored candidate has a name, a role, an
    experience that is at least 0 and a rating that is a number. *)
Theorem stored_candidates_meet_the_schema
  (trace : list (env * request)) (c : Candidate.t) :
  In c (candidates (run trace empty_store)) -> candidate_ok c.
Proof. exact (proj1 (proj2 (proj2 (reachable_invariants trace))) c). Qed.

(** In every reachable state, each stored interview refers to a stored
    candidate, has mode "onsite" or "remote", an interviewer, and a feedback
    rating that is a number when there is one. *)
Theorem stored_interviews_refer_to_candidates
  (trace : list (env * request)) (iv : Interview.t) :
  In iv (interviews (run trace empty_store)) ->
  interview_ok (candidates (run trace empty_store)) iv.
Proof. exact (proj2 (proj2 (proj2 (reachable_invariants trace))) iv). Qed.

(** *** Signing up, logging in, and using the token *)

Lemma find_app_first {A} (f : A -> bool) (l r : list A) (x : A) :
  find f l = None -> f x = true -> find f (l ++ x :: r) = Some x.
Proof.
  intros Hl Hx. induction l as [|a l IH]; cbn in *.
  - rewrite Hx. reflexivity.
  - destruct (f a); [discriminate|]. apply IH, Hl.
Qed.

Lemma find_none_of_not_In {A} (f : A -> string) (k : string) (l : list A) :
  ~ In k (map f l) -> find (fun x => String.eqb (f x) k) l = None.
Proof.
  intros H. apply find_none_of_all_false. intros x Hx.
  apply String.eqb_neq. intros E. apply H. rewrite <- E. apply in_map, Hx.
Qed.

Lemma signup_validation_nil (b : SignupReq.t) :
  signup_validation b = [] ->
  notEmpty (SignupReq.name b) = true
  /\ isEmail (text (SignupReq.email b)) = true
  /\ isLength_min 6 (SignupReq.password b) = true.
Proof.
  unfold signup_validation.
  destruct (notEmpty _), (isEmail _), (isLength_min 6 _); cbn;
    try discriminate. intros _. repeat split.
Qed.

Lemma long_password_not_empty (o : option string) :
  isLength_min 6 o = true -> notEmpty o = true.
Proof.
  destruct o as [[|c r]|]; cbn; try discriminate. reflexivity.
Qed.

(** After a successful signup, and whatever requests are served in between,
    a login with the same password and with the same e-mail (in any letter
    case when the lookup lower-cases its filter, in lower case otherwise)
    is answered with a token for the user that signed up, provided bcrypt
    recognises the password it hashed. *)
Theorem signup_then_login
  (e e' : env) (b : SignupReq.t) (s s1 : store) (t : token)
  (trace : list (env * request)) (email' : string) :
  signup e b s = (json 200 (JsonToken t), s1) ->
  bcrypt_compare (text (SignupReq.password b))
    (bcrypt_hash (text (SignupReq.password b)) 10 (salt e)) = true ->
  isEmail email' = true ->
  (if query_setters then Str.toLowerCase email' else email')
  = Str.toLowerCase (text (SignupReq.email b)) ->
  login e' {| LoginReq.email := Some email';
              LoginReq.password := SignupReq.password b |} (run trace s1)
  = json 200
      (JsonToken (jwt_sign {| userId := new_id e; role := Some "hr" |}
                           JWT_SECRET "8h" (now e'))).
Proof.
  intros S B M W.
  destruct (signup_effect e b s) as [[_ F]|[u [H [Hu [V [_ [_ Fm]]]]]]].
  { rewrite S in F. discriminate. }
  rewrite S in H. injection H as _ Hs1.
  destruct (run_extends trace s1) as [us [cs [Hus _]]].
  apply signup_validation_nil in V. destruct V as [_ [_ Vp]].
  unfold login, login_validation.
  cbn [LoginReq.email LoginReq.password text].
  rewrite M, (long_password_not_empty _ Vp). cbn [check List.app].
  unfold User_findOne. rewrite W, Hus, Hs1. cbn [users].
  rewrite <- app_assoc. cbn [List.app].
  assert (Eu : User.email u = Str.toLowerCase (text (SignupReq.email b))).
  { rewrite Hu. reflexivity. }
  rewrite (find_app_first _ _ _ u).
  - assert (P : User.passwordHash u
                = bcrypt_hash (text (SignupReq.password b)) 10 (salt e)).
    { rewrite Hu. reflexivity. }
    rewrite P, B. cbn [negb]. unfold issue_token. rewrite Hu. reflexivity.
  - rewrite <- Eu. apply find_none_of_not_In, Fm.
  - rewrite Eu. apply String.eqb_refl.
Qed.

Lemma substring_all (s : string) : substring 0 (String.length s) s = s.
Proof. induction s as [|c r IH]; cbn; [reflexivity|]. rewrite IH. reflexivity. Qed.

Lemma strip_bearer (t : string) : Str.replace_first "Bearer " "" ("Bearer " ++ t) = t.
Proof.
  destruct t as [|c r]; [reflexivity|].
  cbn. rewrite substring_all. reflexivity.
Qed.

(** The token that a signup answers, sent back as [Bearer <token>], passes
    the auth middleware as the user that signed up, with role "hr", provided
    [jwt.verify] accepts at that time what [jwt.sign] made. *)
Theorem signup_token_authenticates
  (e e' : env) (b : SignupReq.t) (s s1 : store) (t : token) :
  signup e b s = (json 200 (JsonToken t), s1) ->
  jwt_verify (jwt_sign {| userId := new_id e; role := Some "hr" |}
                       JWT_SECRET "8h" (now e))
             JWT_SECRET (now e')
  = Some {| userId := new_id e; role := Some "hr" |} ->
  auth "hr" e' (Some ("Bearer " ++ t))
  = Next {| userId := new_id e; role := Some "hr" |}.
Proof.
  intros S J.
  destruct (signup_effect e b s) as [[_ F]|[u [H [Hu _]]]].
  { rewrite S in F. discriminate. }
  rewrite S in H. injection H as Ht _.
  assert (T : t = jwt_sign {| userId := new_id e; role := Some "hr" |}
                           JWT_SECRET "8h" (now e)).
  { rewrite Ht. unfold issue_token. rewrite Hu. reflexivity. }
  rewrite auth_with_header by discriminate.
  rewrite strip_bearer, T, J. reflexivity.
Qed.

Lemma replace_first_absent (pat rep s : string) :
  occurs pat s = false -> Str.replace_first pat rep s = s.
Proof.
  induction s as [|c r IH]; intros H.
  - cbn in *. apply orb_false_elim in H. destruct H as [H _]. rewrite H.
    reflexivity.
  - cbn [occurs] in H. apply orb_false_elim in H. destruct H as [H1 H2].
    cbn [Str.replace_first]. rewrite H1, (IH H2). reflexivity.
Qed.

(** The middleware only strips the first "Bearer " it finds: a header that
    is the bare token, without any "Bearer " in it, is treated exactly like
    [Bearer <token>]. *)
Theorem bearer_prefix_is_optional (e : env) (t : string) :
  occurs "Bearer " t = false ->
  t <> "" ->
  auth "hr" e (Some t) = auth "hr" e (Some ("Bearer " ++ t)).
Proof.
  intros O N.
  rewrite (auth_with_header e t N).
  rewrite (auth_with_header e ("Bearer " ++ t)) by discriminate.
  rewrite strip_bearer, (replace_first_absent _ _ _ O). reflexivity.
Qed.

(** *** Fetching one candidate *)

Lemma castObjectId_some (id : string) (oid : ObjectId) :
  castObjectId id = Some oid ->
  isMongoId_string id = true /\ oid = Str.toLowerCase id.
Proof.
  unfold castObjectId. destruct (isMongoId_string id); [|discriminate].
  intros H. injection H as <-. split; reflexivity.
Qed.

(** For an authenticated request, GET /api/candidates/:id is answered 400
    when the identifier is not twenty-four characters long; when it is
    twenty-four hexadecimal digits, the answer is 404 when no candidate
    bears it (in lower case) and 200 with the stored candidate that bears it
    otherwise, never a server error. *)
Theorem candidate_details_outcomes
  (e : env) (header : option string) (user : claims) (id : string) (s : store) :
  auth "hr" e header = Next user ->
  (String.length id <> 24%nat ->
   candidateDetails e header id s
   = json 400 (JsonErrors [{| param := "id"; msg := "Invalid value" |}]))
  /\ (isMongoId_string id = true ->
      ((forall c, In c (candidates s) -> Candidate._id c <> Str.toLowerCase id)
       /\ candidateDetails e header id s
          = json 404 (JsonError "Candidate not found"))
      \/ (exists c,
            In c (candidates s)
            /\ Candidate._id c = Str.toLowerCase id
            /\ candidateDetails e header id s = json 200 (JsonCandidate c))).
Proof.
  intros A. unfold candidateDetails. rewrite A. cbn [isMongoId]. split.
  - intros L. unfold isMongoId_string.
    destruct (Nat.eqb_spec (String.length id) 24); [contradiction|].
    reflexivity.
  - intros V. rewrite V. cbn [check].
    unfold Candidate_findById, castObjectId. rewrite V.
    destruct (find _ _) as [c|] eqn:F.
    + right. exists c. apply find_some in F. destruct F as [Hin He].
      apply String.eqb_eq in He. auto.
    + left. split; [|reflexivity].
      intros c Hc. apply String.eqb_neq. exact (find_none _ _ F c Hc).
Qed.

(** A candidate that was created can be fetched by the identifier in the
    201 answer, at once and after any further requests, and the answer is
    the document as it was created; the identifier the driver generated is
    assumed to be a well-formed ObjectId. *)
Theorem created_candidate_can_be_fetched
  (e e' : env) (header header' : option string) (user' : claims)
  (b : CandidateReq.t) (s s1 : store) (c : Candidate.t)
  (trace : list (env * request)) :
  createCandidate e header b s = (json 201 (JsonCandidate c), s1) ->
  castObjectId (new_id e) = Some (new_id e) ->
  auth "hr" e' header' = Next user' ->
  candidateDetails e' header' (Candidate._id c) (run trace s1)
  = json 200 (JsonCandidate c).
Proof.
  intros C W A.
  destruct (createCandidate_effect e header b s)
    as [[_ F]|[user [_ [_ [H [_ Fi]]]]]].
  { rewrite C in F. discriminate. }
  rewrite C in H. injection H as Hc Hs1.
  assert (Hid : Candidate._id c = new_id e) by (rewrite Hc; reflexivity).
  destruct (run_extends trace s1) as [us [cs [_ Hcs]]].
  unfold candidateDetails. rewrite A, Hid. cbn [isMongoId].
  destruct (castObjectId_some _ _ W) as [V _]. rewrite V. cbn [check].
  unfold Candidate_findById. rewrite W, Hcs, Hs1. cbn [candidates].
  rewrite <- app_assoc. cbn [List.app].
  rewrite (find_app_first _ _ _ (candidate_of e user b)).
  - rewrite Hc. reflexivity.
  - apply find_none_of_not_In, Fi.
  - cbn. apply String.eqb_refl.
Qed.

(** *** Feedback *)

(** For an authenticated request on an identifier of twenty-four
    hexadecimal digits, the feedback route has three answers and no other:
    400 with the validation errors of the body, 404 when no interview bears
    the identifier, and 200 with the interview under the same identifier,
    carrying as feedback exactly what the body supplies, which is the
    document stored from then on.  A validated body never makes the lookup
    or the save throw. *)
Theorem feedback_outcomes
  (e : env) (header : option string) (user : claims) (id : string)
  (b : FeedbackReq.t) (s : store) :
  auth "hr" e header = Next user ->
  isMongoId_string id = true ->
  (feedback_validation id b <> []
   /\ setFeedback e header id b s
      = (json 400 (JsonErrors (feedback_validation id b)), s))
  \/ (feedback_validation id b = []
      /\ (forall iv, In iv (interviews s) -> Interview._id iv <> Str.toLowerCase id)
      /\ setFeedback e header id b s
         = (json 404 (JsonError "Interview not found"), s))
  \/ (exists iv0 iv,
        feedback_validation id b = []
        /\ In iv0 (interviews s)
        /\ Interview._id iv0 = Str.toLowerCase id
        /\ Interview._id iv = Interview._id iv0
        /\ Interview.feedback iv = feedback_of b
        /\ setFeedback e header id b s
           = (json 200 (JsonInterview iv),
              {| users := users s;
                 candidates := candidates s;
                 interviews := write_over iv (interviews s) |})).
Proof.
  intros A _. unfold setFeedback. rewrite A.
  destruct (feedback_validation id b) as [|v vs] eqn:V.
  - right.
    pose proof (proj1 (feedback_validation_nil id b) V) as [Vid [Vr _]].
    unfold Interview_findById, castObjectId. rewrite Vid.
    destruct (find _ _) as [iv0|] eqn:F.
    + right. exists iv0, (set_feedback e (feedback_of b) iv0).
      apply find_some in F. destruct F as [Hin He].
      apply String.eqb_eq in He.
      split; [reflexivity|]. split; [exact Hin|]. split; [exact He|].
      split; [reflexivity|]. split; [reflexivity|].
      unfold Interview_save.
      pose proof (feedback_rating_casts b Vr) as Hc.
      cbn [set_feedback Interview.feedback].
      destruct (Interview.fb_rating (feedback_of b)) as [[| | |x]|];
        try reflexivity. congruence.
    + left. split; [reflexivity|]. split; [|reflexivity].
      intros iv Hiv. apply String.eqb_neq. exact (find_none _ _ F iv Hiv).
  - left. split; [discriminate|reflexivity].
Qed.

Lemma same_key_same_document {A B : Type} (f : A -> B) (l : list A) (x y : A) :
  NoDup (map f l) -> In x l -> In y l -> f x = f y -> x = y.
Proof.
  induction l as [|z r IH]; cbn; intros N Hx Hy E; [contradiction|].
  inversion N as [|? ? Hz Nr]; subst.
  destruct Hx as [<-|Hx], Hy as [<-|Hy].
  - reflexivity.
  - exfalso. apply Hz. rewrite E. apply in_map, Hy.
  - exfalso. apply Hz. rewrite <- E. apply in_map, Hx.
  - exact (IH Nr Hx Hy E).
Qed.

(** Writing a stored document over itself leaves the collection as it is. *)
Lemma write_over_stored (l : list Interview.t) (iv : Interview.t) :
  NoDup (map Interview._id l) -> In iv l -> write_over iv l = l.
Proof.
  intros N Hin. unfold write_over. rewrite <- (map_id l) at 2.
  apply map_ext_in. intros x Hx.
  destruct (String.eqb (Interview._id x) (Interview._id iv)) eqn:E;
    [|reflexivity].
  apply String.eqb_eq in E. symmetry.
  exact (same_key_same_document Interview._id l x iv N Hx Hin E).
Qed.

(** Nothing to replace and nothing supplied: the document is the stored
    one. *)
Lemma set_feedback_nothing (e : env) (iv : Interview.t) :
  Interview.feedback iv = empty_feedback ->
  set_feedback e empty_feedback iv = iv.
Proof. destruct iv as [? ? ? ? ? fb ? ? ?]. cbn. intros ->. reflexivity. Qed.

Lemma set_feedback_changed (e : env) (fb : Interview.feedback_t) (iv : Interview.t) :
  fb <> Interview.feedback iv ->
  Interview.updatedAt (set_feedback e fb iv) = now e.
Proof.
  destruct iv as [? ? ? ? ? [r0 n0] ? ? ?], fb as [r n]. cbn.
  destruct r0, n0, r, n; cbn; try reflexivity. intros H. congruence.
Qed.

(** A feedback call that succeeds leaves users and candidates alone, keeps
    every interview with another identifier as it is, and changes nothing
    of the addressed interview but its feedback and its update time.  The
    update time is the time of the call when the feedback differs from the
    stored one.  When the stored feedback has no field and the body supplies
    none, the answer is the stored document itself, with its old update
    time, and (identifiers being unique) the collections are as they
    were. *)
Theorem feedback_touches_one_interview
  (e : env) (header : option string) (id : string) (b : FeedbackReq.t)
  (s s1 : store) (iv : Interview.t) :
  setFeedback e header id b s = (json 200 (JsonInterview iv), s1) ->
  users s1 = users s
  /\ candidates s1 = candidates s
  /\ map Interview._id (interviews s1) = map Interview._id (interviews s)
  /\ (forall x, In x (interviews s) -> Interview._id x <> Interview._id iv ->
                In x (interviews s1))
  /\ exists iv0,
       In iv0 (interviews s)
       /\ Interview._id iv = Interview._id iv0
       /\ Interview.candidate iv = Interview.candidate iv0
       /\ Interview.date iv = Interview.date iv0
       /\ Interview.interviewer iv = Interview.interviewer iv0
       /\ Interview.mode iv = Interview.mode iv0
       /\ Interview.createdBy iv = Interview.createdBy iv0
       /\ Interview.createdAt iv = Interview.createdAt iv0
       /\ Interview.feedback iv = feedback_of b
       /\ (feedback_of b <> Interview.feedback iv0 ->
           Interview.updatedAt iv = now e)
       /\ (Interview.feedback iv0 = empty_feedback ->
           feedback_of b = empty_feedback ->
           iv = iv0
           /\ (NoDup (map Interview._id (interviews s)) -> s1 = s)).
Proof.
  intros S.
  destruct (setFeedback_effect e header id b s) as [[_ F]|[iv0 [_ [Fd H]]]].
  { rewrite S in F. discriminate. }
  rewrite S in H. injection H as Hiv Hs1. subst s1 iv. cbn [users candidates interviews].
  split; [reflexivity|]. split; [reflexivity|].
  split; [apply map_id_write_over|]. split.
  - intros x Hx Hne. unfold write_over. apply in_map_iff. exists x.
    split; [|exact Hx].
    destruct (String.eqb (Interview._id x) _) eqn:E; [|reflexivity].
    apply String.eqb_eq in E. contradiction.
  - exists iv0. apply Interview_findById_some in Fd. destruct Fd as [Hin _].
    do 9 (split; [first [exact Hin|reflexivity]|]). split.
    + apply set_feedback_changed.
    + intros E0 Eb. rewrite Eb, (set_feedback_nothing e iv0 E0).
      split; [reflexivity|]. intros N.
      rewrite (write_over_stored _ _ N Hin). destruct s; reflexivity.
Qed.

(** *** Creating a candidate, in general *)

(** For an authenticated request whose body passes the validators, with a
    fresh identifier: the experience always converts to a number, and the
    answer is 201 with the candidate appended exactly when that number is at
    least 0 and the rating (0 when absent) converts to a number; otherwise
    the schema refuses the document, the answer is 500 and nothing is
    stored. *)
Theorem create_candidate_outcomes
  (e : env) (header : option string) (user : claims) (b : CandidateReq.t)
  (s : store) :
  auth "hr" e header = Next user ->
  candidate_validation b = [] ->
  (forall c, In c (candidates s) -> Candidate._id c <> new_id e) ->
  Number (CandidateReq.experience b) <> NaN
  /\ (geb (Number (CandidateReq.experience b)) (Fin 0) = true ->
      Number (rating_or_default b) <> NaN ->
      createCandidate e header b s
      = (json 201 (JsonCandidate (candidate_of e user b)),
         {| users := users s;
            candidates := candidates s ++ [candidate_of e user b];
            interviews := interviews s |}))
  /\ (geb (Number (CandidateReq.experience b)) (Fin 0) = false
      \/ Number (rating_or_default b) = NaN ->
      status (fst (createCandidate e header b s)) = 500
      /\ snd (createCandidate e header b s) = s).
Proof.
  intros A V Fr.
  pose proof (proj1 (candidate_validation_nil b) V) as [Vn [Vr Vx]].
  pose proof (Number_of_numeric _ Vx) as Nx.
  split; [exact Nx|]. split.
  - intros G R. apply createCandidate_accepts; auto.
    destruct (Number (rating_or_default b)); try reflexivity. congruence.
  - intros Bad. rewrite (createCandidate_valid e header user b s A V).
    unfold Candidate_save, Candidate_validate.
    cbn [candidate_of new_Candidate Candidate.name Candidate.role
         Candidate.experience Candidate.rating].
    rewrite (notEmpty_text _ Vn), (notEmpty_text _ Vr). cbn [negb].
    assert (Cx : casts_to_Number (Number (CandidateReq.experience b)) = true).
    { destruct (Number (CandidateReq.experience b)); try reflexivity. congruence. }
    rewrite Cx. cbn [negb].
    destruct (geb (Number (CandidateReq.experience b)) (Fin 0)) eqn:G; cbn [negb].
    + destruct Bad as [Bad|Bad]; [discriminate|]. rewrite Bad. cbn.
      split; reflexivity.
    + split; reflexivity.
Qed.

(** *** Scheduling an interview, in general *)

Lemma mode_after_validation (o : option string) :
  optional (isIn ["onsite"; "remote"]) o = true ->
  let mode := match o with None => "remote" | Some m => m end in
  negb (String.eqb mode "onsite" || String.eqb mode "remote") = false.
Proof.
  destruct o as [m|]; cbn; [|reflexivity].
  rewrite orb_false_r. intros H. rewrite H. reflexivity.
Qed.

Lemma Candidate_findById_known (id : string) (cs : list Candidate.t)
  (c : Candidate.t) :
  isMongoId_string id = true ->
  In c cs -> Candidate._id c = Str.toLowerCase id ->
  exists c', Candidate_findById id cs = Ok (Some c').
Proof.
  intros V Hin Hid. unfold Candidate_findById, castObjectId. rewrite V.
  destruct (find _ cs) as [c'|] eqn:F; [eauto|].
  exfalso. pose proof (find_none _ _ F c Hin) as N. cbn in N.
  rewrite Hid, String.eqb_refl in N. discriminate.
Qed.

(** For an authenticated request that passes the validators and names a
    stored candidate, with a fresh identifier: when the date reads as a date
    the answer is 201 and one interview is appended, for that candidate, with
    the mode of the body or "remote", no feedback, and the caller as creator;
    when the date does not read as a date the answer is 500 and nothing is
    stored. *)
Theorem schedule_interview_outcomes
  (e : env) (header : option string) (user : claims) (b : InterviewReq.t)
  (s : store) (c : Candidate.t) :
  auth "hr" e header = Next user ->
  interview_validation b = [] ->
  In c (candidates s) ->
  Candidate._id c = Str.toLowerCase (text (InterviewReq.candidate b)) ->
  (forall iv, In iv (interviews s) -> Interview._id iv <> new_id e) ->
  (forall d,
      Date_parse (text (InterviewReq.date b)) = Some d ->
      exists iv,
        scheduleInterview e header b s
        = (json 201 (JsonInterview iv),
           {| users := users s;
              candidates := candidates s;
              interviews := interviews s ++ [iv] |})
        /\ Interview._id iv = new_id e
        /\ Interview.candidate iv = Candidate._id c
        /\ Interview.date iv = d
        /\ Interview.interviewer iv = text (InterviewReq.interviewer b)
        /\ Interview.mode iv
           = match InterviewReq.mode b with None => "remote" | Some m => m end
        /\ Interview.feedback iv = empty_feedback
        /\ Interview.createdBy iv = userId user)
  /\ (Date_parse (text (InterviewReq.date b)) = None ->
      status (fst (scheduleInterview e header b s)) = 500
      /\ snd (scheduleInterview e header b s) = s).
Proof.
  intros A V Hin Hid Fr.
  pose proof (proj1 (interview_validation_nil b) V) as [Vc [_ [Vi Vm]]].
  assert (Vc' : isMongoId_string (text (InterviewReq.candidate b)) = true).
  { destruct (InterviewReq.candidate b); [exact Vc|discriminate]. }
  destruct (Candidate_findById_known _ _ c Vc' Hin Hid) as [c' F].
  unfold scheduleInterview. rewrite A, V, F. unfold new_Interview, castObjectId.
  rewrite Vc'. split.
  - intros d D. rewrite D, (notEmpty_text _ Vi). cbn [negb].
    rewrite (mode_after_validation _ Vm).
    unfold Interview_insert. cbn [Interview._id].
    assert (X : existsb (fun x => String.eqb (Interview._id x) (new_id e))
                        (interviews s) = false).
    { destruct (existsb _ _) eqn:X; [|reflexivity].
      apply existsb_exists in X. destruct X as [x [Hx Ex]].
      apply String.eqb_eq in Ex. exfalso. exact (Fr x Hx Ex). }
    rewrite X. eexists. split; [reflexivity|]. cbn. rewrite Hid. repeat split.
  - intros D. rewrite D. split; reflexivity.
Qed.

(** *** More about the list routes *)

Lemma Sorted_skipn {A} (R : A -> A -> Prop) (n : nat) (l : list A) :
  Sorted R l -> Sorted R (skipn n l).
Proof.
  revert l. induction n as [|n IH]; intros l H; [exact H|].
  destruct l as [|a r]; [exact H|]. cbn. apply IH. inversion H; assumption.
Qed.

Lemma Sorted_firstn {A} (R : A -> A -> Prop) (n : nat) (l : list A) :
  Sorted R l -> Sorted R (firstn n l).
Proof.
  revert l. induction n as [|n IH]; intros l H; [constructor|].
  destruct l as [|a r]; [constructor|]. cbn. inversion H as [|? ? Hr Ha]; subst.
  constructor; [apply IH, Hr|].
  destruct r as [|b r']; [destruct n; constructor|].
  destruct n; cbn; constructor. inversion Ha; assumption.
Qed.

Lemma Sorted_map_doc (cs : list Candidate.t) (l : list Interview.t) :
  Sorted (later_first Interview.date) l ->
  Sorted (later_first Interview.date) (map Interview.doc (map (populate cs) l)).
Proof. rewrite map_doc_populate. trivial. Qed.

(** What a page is, once skip and limit are whole numbers. *)
Lemma cursor_page_whole_inv {A} (skip limit : jsnum) (k n : Z) (l data : list A) :
  cursor_page skip limit l = Ok data ->
  as_int skip = Some k -> as_int limit = Some n ->
  (0 <= k)%Z
  /\ data = if (n =? 0)%Z then skipn (Z.to_nat k) l
            else firstn (Z.abs_nat n) (skipn (Z.to_nat k) l).
Proof.
  unfold cursor_page. intros H Hk Hn. rewrite Hk, Hn in H.
  destruct (k <? 0)%Z eqn:K; [discriminate|]. apply Z.ltb_ge in K.
  injection H as <-. split; [exact K|reflexivity].
Qed.

Lemma page_of_sorted {A} (R : A -> A -> Prop) (k : nat) (n : Z) (l : list A) :
  Sorted R l ->
  Sorted R (if (n =? 0)%Z then skipn k l else firstn (Z.abs_nat n) (skipn k l)).
Proof.
  intros H. destruct (n =? 0)%Z; [|apply Sorted_firstn]; apply Sorted_skipn, H.
Qed.

(** Whenever a list answer carries data, with [limit=all] or with a whole
    skip and a whole page size, the candidates come newest first (by
    creation time) and the interviews latest first (by date). *)
Theorem listings_are_sorted_descending
  (e : env) (header : option string) (s : store) :
  (forall q data total,
      listCandidates e header q s = json 200 (JsonCandidates data total) ->
      is_all (CandidateQuery.limit q) = true
      \/ (as_int (skip_of (effective_page (CandidateQuery.page q))
                          (effective_limit (CandidateQuery.limit q))) <> None
          /\ as_int (effective_limit (CandidateQuery.limit q)) <> None) ->
      Sorted (later_first Candidate.createdAt) data)
  /\ (forall q data total,
        listInterviews e header q s = json 200 (JsonInterviews data total) ->
        is_all (InterviewQuery.limit q) = true
        \/ (as_int (skip_of (effective_page (InterviewQuery.page q))
                            (effective_limit (InterviewQuery.limit q))) <> None
            /\ as_int (effective_limit (InterviewQuery.limit q)) <> None) ->
        Sorted (later_first Interview.date) (map Interview.doc data)).
Proof.
  split.
  - intros q data total H W.
    destruct (listCandidates_listing_inv _ _ _ _ _ _ H) as [matches [_ Hd]].
    destruct (is_all _).
    + destruct Hd as [-> _]. apply sort_desc_sorted.
    + destruct W as [W|[Wk Wn]]; [discriminate|]. destruct Hd as [Hd _].
      destruct (as_int (skip_of _ _)) as [k|] eqn:Ek; [|congruence].
      destruct (as_int (effective_limit _)) as [n|] eqn:En; [|congruence].
      destruct (cursor_page_whole_inv _ _ _ _ _ _ Hd Ek En) as [_ ->].
      apply page_of_sorted, sort_desc_sorted.
  - intros q data total H W.
    destruct (listInterviews_listing_inv _ _ _ _ _ _ H) as [matches [_ Hd]].
    destruct (is_all _).
    + destruct Hd as [-> _]. apply Sorted_map_doc, sort_desc_sorted.
    + destruct W as [W|[Wk Wn]]; [discriminate|]. destruct Hd as [Hd _].
      destruct (as_int (skip_of _ _)) as [k|] eqn:Ek; [|congruence].
      destruct (as_int (effective_limit _)) as [n|] eqn:En; [|congruence].
      destruct (cursor_page_whole_inv _ _ _ _ _ _ Hd Ek En) as [_ ->].
      destruct (n =? 0)%Z.
      * rewrite skipn_map, map_doc_populate.
        apply Sorted_skipn, sort_desc_sorted.
      * rewrite skipn_map, firstn_map, map_doc_populate.
        apply Sorted_firstn, Sorted_skipn, sort_desc_sorted.
Qed.

Lemma whole_limit_at_most_100 (limit : option string) (n : Z) :
  as_int (effective_limit limit) = Some n -> (n <= 100)%Z.
Proof.
  intros H.
  assert (U : JsNum.leb (effective_limit limit) (Fin 100) = true).
  { unfold effective_limit. apply min_100_upper, or_else_not_NaN. }
  apply as_int_inv in H. destruct H as [q [E Hq]]. rewrite E in U.
  cbn in U. apply Qle_bool_iff in U. rewrite Hq in U.
  change 100%Q with (inject_Z 100) in U. rewrite <- Zle_Qle in U. exact U.
Qed.

Lemma page_length {A} (k : nat) (n : Z) (l : list A) :
  (1 <= n)%Z ->
  (List.length (if (n =? 0)%Z then skipn k l
                else firstn (Z.abs_nat n) (skipn k l)) <= Z.to_nat n)%nat
  /\ (List.length (if (n =? 0)%Z then skipn k l
                   else firstn (Z.abs_nat n) (skipn k l)) <= List.length l)%nat.
Proof.
  intros Hn. destruct (n =? 0)%Z eqn:E; [apply Z.eqb_eq in E; lia|].
  rewrite Zabs2Nat.abs_nat_nonneg by lia.
  rewrite length_firstn, length_skipn. lia.
Qed.

(** A paged list answer, with a whole skip and a whole page size of at
    least 1, never carries more documents than the page size, than 100, or
    than [total]. *)
Theorem a_page_holds_at_most_100
  (e : env) (header : option string) (s : store) :
  (forall q data total k n,
      listCandidates e header q s = json 200 (JsonCandidates data total) ->
      is_all (CandidateQuery.limit q) = false ->
      as_int (skip_of (effective_page (CandidateQuery.page q))
                      (effective_limit (CandidateQuery.limit q))) = Some k ->
      as_int (effective_limit (CandidateQuery.limit q)) = Some n ->
      (1 <= n)%Z ->
      (List.length data <= Z.to_nat n)%nat
      /\ (List.length data <= 100)%nat
      /\ (List.length data <= total)%nat)
  /\ (forall q data total k n,
        listInterviews e header q s = json 200 (JsonInterviews data total) ->
        is_all (InterviewQuery.limit q) = false ->
        as_int (skip_of (effective_page (InterviewQuery.page q))
                        (effective_limit (InterviewQuery.limit q))) = Some k ->
        as_int (effective_limit (InterviewQuery.limit q)) = Some n ->
        (1 <= n)%Z ->
        (List.length data <= Z.to_nat n)%nat
        /\ (List.length data <= 100)%nat
        /\ (List.length data <= total)%nat).
Proof.
  split.
  - intros q data total k n H Hall Ek En Hn.
    destruct (listCandidates_listing_inv _ _ _ _ _ _ H) as [matches [_ Hd]].
    rewrite Hall in Hd. destruct Hd as [Hd ->].
    destruct (cursor_page_whole_inv _ _ _ _ _ _ Hd Ek En) as [_ ->].
    pose proof (whole_limit_at_most_100 _ _ En) as U.
    destruct (page_length (Z.to_nat k) n
                (sort_desc Candidate.createdAt (filter matches (candidates s))) Hn)
      as [L1 L2].
    rewrite sort_desc_length in L2. repeat split; [exact L1| lia |exact L2].
  - intros q data total k n H Hall Ek En Hn.
    destruct (listInterviews_listing_inv _ _ _ _ _ _ H) as [matches [_ Hd]].
    rewrite Hall in Hd. destruct Hd as [Hd ->].
    destruct (cursor_page_whole_inv _ _ _ _ _ _ Hd Ek En) as [_ ->].
    pose proof (whole_limit_at_most_100 _ _ En) as U.
    destruct (page_length (Z.to_nat k) n
                (map (populate (candidates s))
                   (sort_desc Interview.date (filter matches (interviews s)))) Hn)
      as [L1 L2].
    rewrite length_map, sort_desc_length in L2.
    repeat split; [exact L1| lia |exact L2].
Qed.

Lemma two_pages {A} (a b : nat) (l : list A) :
  (firstn a l ++ firstn b (skipn a l))%list = firstn (a + b) l.
Proof.
  revert l. induction a as [|a IH]; intros l; [reflexivity|].
  destruct l as [|x r]; cbn.
  - rewrite firstn_nil. reflexivity.
  - rewrite IH. reflexivity.
Qed.

Lemma adjacent_pages {A} (P N : Z) (l : list A) :
  (1 <= P)%Z -> (1 <= N)%Z ->
  (firstn (Z.to_nat N) (skipn (Z.to_nat ((P - 1) * N)) l)
   ++ firstn (Z.to_nat N) (skipn (Z.to_nat ((P + 1 - 1) * N)) l))%list
  = firstn (Z.to_nat (2 * N)) (skipn (Z.to_nat ((P - 1) * N)) l).
Proof.
  intros HP HN.
  replace (Z.to_nat ((P + 1 - 1) * N))
    with (Z.to_nat N + Z.to_nat ((P - 1) * N))%nat by nia.
  rewrite <- skipn_skipn.
  replace (Z.to_nat (2 * N)) with (Z.to_nat N + Z.to_nat N)%nat by lia.
  apply two_pages.
Qed.

Lemma listCandidates_page
  (e : env) (header : option string) (user : claims) (q : CandidateQuery.t)
  (s : store) (matches : Candidate.t -> bool) (P N : Z) :
  auth "hr" e header = Next user ->
  is_all (CandidateQuery.limit q) = false ->
  cast_candidate_filter (build_candidate_filter q) = Ok matches ->
  as_int (effective_page (CandidateQuery.page q)) = Some P ->
  as_int (effective_limit (CandidateQuery.limit q)) = Some N ->
  (1 <= P)%Z -> (1 <= N)%Z ->
  listCandidates e header q s
  = json 200
      (JsonCandidates
         (firstn (Z.to_nat N)
            (skipn (Z.to_nat ((P - 1) * N))
               (sort_desc Candidate.createdAt (filter matches (candidates s)))))
         (List.length (filter matches (candidates s)))).
Proof.
  intros Ha Hall Hc Hp Hn HP HN.
  unfold listCandidates, Candidate_find_sorted, Candidate_countDocuments.
  rewrite Ha, Hall, Hc.
  rewrite (cursor_page_whole _ _ _ N _ (skip_of_whole _ _ P N Hp Hn) Hn) by nia.
  reflexivity.
Qed.

Lemma listInterviews_page
  (e : env) (header : option string) (user : claims) (q : InterviewQuery.t)
  (s : store) (matches : Interview.t -> bool) (P N : Z) :
  auth "hr" e header = Next user ->
  is_all (InterviewQuery.limit q) = false ->
  cast_interview_filter (build_interview_filter q) = Ok matches ->
  as_int (effective_page (InterviewQuery.page q)) = Some P ->
  as_int (effective_limit (InterviewQuery.limit q)) = Some N ->
  (1 <= P)%Z -> (1 <= N)%Z ->
  listInterviews e header q s
  = json 200
      (JsonInterviews
         (firstn (Z.to_nat N)
            (skipn (Z.to_nat ((P - 1) * N))
               (map (populate (candidates s))
                  (sort_desc Interview.date (filter matches (interviews s))))))
         (List.length (filter matches (interviews s)))).
Proof.
  intros Ha Hall Hc Hp Hn HP HN.
  unfold listInterviews, Interview_find_sorted, Interview_countDocuments.
  rewrite Ha, Hall, Hc.
  rewrite (cursor_page_whole _ _ _ N _ (skip_of_whole _ _ P N Hp Hn) Hn) by nia.
  reflexivity.
Qed.

(** With distinct keys there is one descending order: whatever the store
    does with equal keys, a sorted answer is this list. *)
Lemma descending_order_is_unique {A : Type} (key : A -> Z) (l1 l2 : list A) :
  NoDup (map key l1) ->
  Permutation l1 l2 ->
  Sorted (later_first key) l1 -> Sorted (later_first key) l2 ->
  l1 = l2.
Proof.
  assert (T : Relations_1.Transitive (later_first key)).
  { intros x y z. unfold later_first. lia. }
  revert l2. induction l1 as [|a r1 IH]; intros l2 N P S1 S2.
  - apply Permutation_nil in P. congruence.
  - destruct l2 as [|b r2].
    { apply Permutation_sym, Permutation_nil in P. discriminate. }
    pose proof (Sorted_StronglySorted T S1) as SS1.
    pose proof (Sorted_StronglySorted T S2) as SS2.
    apply StronglySorted_inv in SS1. destruct SS1 as [_ F1].
    apply StronglySorted_inv in SS2. destruct SS2 as [_ F2].
    rewrite Forall_forall in F1, F2.
    assert (Hb : In b (a :: r1)).
    { apply (Permutation_in b (Permutation_sym P)). left. reflexivity. }
    assert (Ha : In a (b :: r2)).
    { apply (Permutation_in a P). left. reflexivity. }
    assert (K : key a = key b).
    { assert (key b <= key a)%Z
        by (destruct Hb as [<-|Hb]; [lia|exact (F1 b Hb)]).
      assert (key a <= key b)%Z
        by (destruct Ha as [<-|Ha]; [lia|exact (F2 a Ha)]).
      lia. }
    assert (E : a = b).
    { apply (same_key_same_document key (a :: r1) a b N);
        [left; reflexivity|exact Hb|exact K]. }
    subst b. f_equal. apply IH.
    + inversion N. assumption.
    + exact (Permutation_cons_inv P).
    + apply Sorted_inv in S1. exact (proj1 S1).
    + apply Sorted_inv in S2. exact (proj1 S2).
Qed.

Lemma sort_desc_is_the_order {A : Type} (key : A -> Z) (l order : list A) :
  NoDup (map key l) ->
  Permutation order l ->
  Sorted (later_first key) order ->
  sort_desc key l = order.
Proof.
  intros N P S. apply (descending_order_is_unique key).
  - apply (Permutation_NoDup (l := map key l)); [|exact N].
    apply Permutation_map, Permutation_sym, sort_desc_perm.
  - apply (Permutation_trans (sort_desc_perm key l)), Permutation_sym, P.
  - apply sort_desc_sorted.
  - exact S.
Qed.

(** Two requests that differ only in the page, [P] and [P + 1], over
    matching documents no two of which share the sort key, are answered
    with the same total and with adjacent stretches of the descending order
    of the matches (there is one, the keys being distinct): the two pages
    together are the [2 * N] documents that follow the first [(P - 1) * N].
    No document is missed or repeated between pages. *)
Theorem consecutive_pages_are_adjacent
  (e : env) (header : option string) (user : claims) (s : store) :
  auth "hr" e header = Next user ->
  (forall q1 q2 matches P N,
      is_all (CandidateQuery.limit q1) = false ->
      CandidateQuery.limit q2 = CandidateQuery.limit q1 ->
      build_candidate_filter q2 = build_candidate_filter q1 ->
      cast_candidate_filter (build_candidate_filter q1) = Ok matches ->
      NoDup (map Candidate.createdAt (filter matches (candidates s))) ->
      as_int (effective_page (CandidateQuery.page q1)) = Some P ->
      as_int (effective_page (CandidateQuery.page q2)) = Some (P + 1)%Z ->
      as_int (effective_limit (CandidateQuery.limit q1)) = Some N ->
      (1 <= P)%Z -> (1 <= N)%Z ->
      exists d1 d2 total,
        listCandidates e header q1 s = json 200 (JsonCandidates d1 total)
        /\ listCandidates e header q2 s = json 200 (JsonCandidates d2 total)
        /\ forall order,
             Permutation order (filter matches (candidates s)) ->
             Sorted (later_first Candidate.createdAt) order ->
             (d1 ++ d2)%list
             = firstn (Z.to_nat (2 * N)) (skipn (Z.to_nat ((P - 1) * N)) order))
  /\ (forall q1 q2 matches P N,
        is_all (InterviewQuery.limit q1) = false ->
        InterviewQuery.limit q2 = InterviewQuery.limit q1 ->
        build_interview_filter q2 = build_interview_filter q1 ->
        cast_interview_filter (build_interview_filter q1) = Ok matches ->
        NoDup (map Interview.date (filter matches (interviews s))) ->
        as_int (effective_page (InterviewQuery.page q1)) = Some P ->
        as_int (effective_page (InterviewQuery.page q2)) = Some (P + 1)%Z ->
        as_int (effective_limit (InterviewQuery.limit q1)) = Some N ->
        (1 <= P)%Z -> (1 <= N)%Z ->
        exists d1 d2 total,
          listInterviews e header q1 s = json 200 (JsonInterviews d1 total)
          /\ listInterviews e header q2 s = json 200 (JsonInterviews d2 total)
          /\ forall order,
               Permutation order (filter matches (interviews s)) ->
               Sorted (later_first Interview.date) order ->
               (d1 ++ d2)%list
               = firstn (Z.to_nat (2 * N))
                   (skipn (Z.to_nat ((P - 1) * N))
                      (map (populate (candidates s)) order))).
Proof.
  intros Ha. split.
  - intros q1 q2 matches P N Hall L F C D P1 P2 Hn HP HN.
    do 3 eexists. split; [|split].
    + apply (listCandidates_page e header user q1 s matches P N); assumption.
    + apply (listCandidates_page e header user q2 s matches (P + 1) N);
        try assumption; try lia; rewrite ?L, ?F; assumption.
    + intros order Hp Hs.
      rewrite (sort_desc_is_the_order _ _ order D Hp Hs).
      apply adjacent_pages; assumption.
  - intros q1 q2 matches P N Hall L F C D P1 P2 Hn HP HN.
    do 3 eexists. split; [|split].
    + apply (listInterviews_page e header user q1 s matches P N); assumption.
    + apply (listInterviews_page e header user q2 s matches (P + 1) N);
        try assumption; try lia; rewrite ?L, ?F; assumption.
    + intros order Hp Hs.
      rewrite (sort_desc_is_the_order _ _ order D Hp Hs).
      apply adjacent_pages; assumption.
Qed.

Lemma active_param (o : option string) (x : string) :
  (if Str.truthy_opt o then o else None) = Some x <-> o = Some x /\ x <> "".
Proof.
  destruct o as [[|c r]|]; cbn; split; try discriminate.
  - intros [H N]. injection H as <-. congruence.
  - intros H. injection H as <-. split; [reflexivity|discriminate].
  - intros [H _]. exact H.
  - intros [H _]. discriminate.
Qed.

Lemma inactive_param (o : option string) :
  (if Str.truthy_opt o then o else None) = None ->
  forall x, o = Some x -> x <> "" -> False.
Proof.
  destruct o as [[|c r]|]; cbn; try discriminate; intros _ x H N; congruence.
Qed.

(** The test that a cast filter makes is the one the query describes. *)
Lemma cast_candidate_filter_iff
  (q : CandidateQuery.t) (matches : Candidate.t -> bool) (c : Candidate.t) :
  cast_candidate_filter (build_candidate_filter q) = Ok matches ->
  (matches c = true <-> satisfies q c).
Proof.
  unfold cast_candidate_filter, build_candidate_filter, satisfies.
  cbn [f_name f_role f_experience].
  assert (EXP : forall n,
    (if Str.truthy_opt (CandidateQuery.minExp q)
     then Some (Number_of_param (CandidateQuery.minExp q)) else None) = Some n ->
    exists m, CandidateQuery.minExp q = Some m /\ m <> ""
              /\ n = Number_of_string m).
  { destruct (CandidateQuery.minExp q) as [[|mc mr]|]; cbn; try discriminate.
    intros n H. injection H as <-. eexists. repeat split. discriminate. }
  assert (NOEXP :
    (if Str.truthy_opt (CandidateQuery.minExp q)
     then Some (Number_of_param (CandidateQuery.minExp q)) else None) = None ->
    forall m, CandidateQuery.minExp q = Some m -> m <> "" -> False).
  { destruct (CandidateQuery.minExp q) as [[|mc mr]|]; cbn; try discriminate;
      intros _ m H N; congruence. }
  pose proof (active_param (CandidateQuery.q q)) as AQ.
  pose proof (inactive_param (CandidateQuery.q q)) as IQ.
  pose proof (active_param (CandidateQuery.role q)) as AR.
  pose proof (inactive_param (CandidateQuery.role q)) as IR.
  set (fe := if Str.truthy_opt (CandidateQuery.minExp q)
             then Some (Number_of_param (CandidateQuery.minExp q)) else None) in *.
  set (fq := if Str.truthy_opt (CandidateQuery.q q)
             then CandidateQuery.q q else None) in *.
  set (fr := if Str.truthy_opt (CandidateQuery.role q)
             then CandidateQuery.role q else None) in *.
  clearbody fe fq fr.
  assert (ROLE :
    match fr with Some r => String.eqb (Candidate.role c) r | None => true end = true
    <-> (forall r, CandidateQuery.role q = Some r -> r <> "" -> Candidate.role c = r)).
  { destruct fr as [r|].
    - rewrite String.eqb_eq. split.
      + intros H r' E N. destruct (proj1 (AR r) eq_refl) as [E' _]. congruence.
      + intros H. destruct (proj1 (AR r) eq_refl) as [E' N']. apply H; assumption.
    - split; [|reflexivity]. intros _ r E N. exfalso. exact (IR eq_refl r E N). }
  assert (EXPC :
    match fe with Some n => geb (Candidate.experience c) n | None => true end = true
    <-> (forall m, CandidateQuery.minExp q = Some m -> m <> "" ->
                   geb (Candidate.experience c) (Number_of_string m) = true)).
  { destruct fe as [n|].
    - destruct (EXP n eq_refl) as [m [E [N ->]]]. split.
      + intros H m' E' N'. congruence.
      + intros H. apply H; assumption.
    - split; [|reflexivity]. intros _ m E N. exfalso. exact (NOEXP eq_refl m E N). }
  assert (NAME : forall pat matcher,
    fq = Some pat -> regex_i pat = Some matcher ->
    matcher (Candidate.name c) = true
    <-> (forall pat', CandidateQuery.q q = Some pat' -> pat' <> "" ->
           exists mt, regex_i pat' = Some mt /\ mt (Candidate.name c) = true)).
  { intros pat matcher Fq ER. destruct (proj1 (AQ pat) Fq) as [E N]. split.
    - intros M pat' E' N'. exists matcher.
      assert (pat' = pat) by congruence. subst pat'. split; assumption.
    - intros H. destruct (H pat E N) as [mt [Emt M]]. congruence. }
  assert (NONAME :
    fq = None ->
    forall pat', CandidateQuery.q q = Some pat' -> pat' <> "" ->
      exists mt, regex_i pat' = Some mt /\ mt (Candidate.name c) = true).
  { intros Fq pat' E N. exfalso. exact (IQ Fq pat' E N). }
  clear AQ IQ AR IR EXP NOEXP.
  revert EXPC.
  destruct fe as [[| | |x]|]; intros EXPC; try discriminate;
    (destruct fq as [pat|];
     [ destruct (regex_i pat) as [matcher|] eqn:ER; [|discriminate];
       intros H; injection H as <-;
       rewrite !andb_true_iff, ROLE, EXPC, (NAME pat matcher eq_refl ER);
       split; [intros [[? ?] ?]|intros [? [? ?]]]; repeat split; assumption
     | intros H; injection H as <-;
       rewrite !andb_true_iff, ROLE, EXPC;
       split; [intros [? ?]|intros [? [? ?]]]; repeat split;
       try assumption; apply NONAME; reflexivity ]).
Qed.

(** With [limit=all], a candidate is in the answer exactly when it is
    stored and meets every condition of the query that is present and not
    empty: its name matches the pattern [q], its role is [role], its
    experience is at least [Number(minExp)]. *)
Theorem listed_candidates_are_those_the_query_asks_for
  (e : env) (header : option string) (q : CandidateQuery.t) (s : store)
  (data : list Candidate.t) (total : nat) :
  is_all (CandidateQuery.limit q) = true ->
  listCandidates e header q s = json 200 (JsonCandidates data total) ->
  forall c, In c data <-> In c (candidates s) /\ satisfies q c.
Proof.
  intros Hall H c.
  destruct (listCandidates_listing_inv _ _ _ _ _ _ H) as [matches [Hc Hd]].
  rewrite Hall in Hd. destruct Hd as [-> _].
  rewrite sort_desc_In, filter_In, (cast_candidate_filter_iff q matches c Hc).
  reflexivity.
Qed.

Lemma populate_finds (cs : list Candidate.t) (iv : Interview.t) :
  (exists c, In c cs /\ Candidate._id c = Interview.candidate iv) ->
  exists c,
    Interview.candidate_doc (populate cs iv) = Some c
    /\ In c cs /\ Candidate._id c = Interview.candidate iv.
Proof.
  intros [c [Hin Hid]]. unfold populate. cbn.
  destruct (find _ cs) as [c'|] eqn:F.
  - exists c'. apply find_some in F. destruct F as [Hin' He].
    apply String.eqb_eq in He. auto.
  - exfalso. pose proof (find_none _ _ F c Hin) as N. cbn in N.
    rewrite Hid, String.eqb_refl in N. discriminate.
Qed.

(** In every reachable state, with [limit=all], each interview in the
    answer is a stored one, is for the candidate of [candidateId] when that
    parameter is an identifier of twenty-four hexadecimal digits, and comes
    with its candidate expanded to the stored candidate it refers to, never
    to nothing. *)
Theorem listed_interviews_carry_their_candidate
  (trace : list (env * request)) (e : env) (header : option string)
  (q : InterviewQuery.t) (data : list Interview.populated) (total : nat) :
  is_all (InterviewQuery.limit q) = true ->
  listInterviews e header q (run trace empty_store)
  = json 200 (JsonInterviews data total) ->
  forall p,
    In p data ->
    In (Interview.doc p) (interviews (run trace empty_store))
    /\ (forall id, InterviewQuery.candidateId q = Some id ->
                   isMongoId_string id = true ->
                   Interview.candidate (Interview.doc p) = Str.toLowerCase id)
    /\ exists c,
         Interview.candidate_doc p = Some c
         /\ In c (candidates (run trace empty_store))
         /\ Candidate._id c = Interview.candidate (Interview.doc p).
Proof.
  intros Hall H p Hp.
  destruct (listInterviews_listing_inv _ _ _ _ _ _ H) as [matches [Hc Hd]].
  rewrite Hall in Hd. destruct Hd as [-> _].
  apply in_map_iff in Hp. destruct Hp as [iv [<- Hiv]].
  apply sort_desc_In in Hiv. apply filter_In in Hiv. destruct Hiv as [Hin Hm].
  cbn [populate Interview.doc]. split; [exact Hin|]. split.
  - intros id E M.
    assert (N : id <> EmptyString) by (intros ->; discriminate M).
    unfold cast_interview_filter, build_interview_filter in Hc.
    rewrite E in Hc.
    destruct id as [|ic ir]; [congruence|]. cbn in Hc.
    destruct (castObjectId (String ic ir)) as [oid|] eqn:C; [|discriminate].
    injection Hc as <-. apply String.eqb_eq in Hm.
    apply castObjectId_some in C. destruct C as [_ C]. congruence.
  - apply populate_finds.
    exact (proj1 (proj2 (proj2 (proj2 (reachable_invariants trace))) iv Hin)).
Qed.

(** *** Page and limit written as decimal numbers *)

Lemma digit_not_dot : forall c, Str.is_digit c = true -> is_dot c = false.
Proof. char_class. Qed.

Lemma digit_not_plus : forall c, Str.is_digit c = true -> is_plus c = false.
Proof. char_class. Qed.

Lemma digit_not_minus : forall c, Str.is_digit c = true -> is_minus c = false.
Proof. char_class. Qed.

Lemma digits_of_uint (d : Decimal.uint) (acc : nat) :
  digits 10 digit_val (Z.of_nat acc)
    (Str.chars (DecimalString.NilEmpty.string_of_uint d))
  = Some (Z.of_nat (Nat.of_uint_acc d acc))
  /\ forallb Str.is_digit (Str.chars (DecimalString.NilEmpty.string_of_uint d))
     = true.
Proof.
  revert acc. induction d as [|d IH|d IH|d IH|d IH|d IH|d IH|d IH|d IH|d IH|d IH];
    intros acc; [split; reflexivity|..];
    (split; [|exact (proj2 (IH acc))]);
    cbn [DecimalString.NilEmpty.string_of_uint Str.chars list_ascii_of_string
         digits Nat.of_uint_acc];
    match goal with
    | |- context [digit_val ?c] =>
        let v := eval vm_compute in (digit_val c) in
        change (digit_val c) with v; cbv iota beta
    end;
    match goal with
    | |- digits _ _ ?a _ = Some (Z.of_nat (Nat.of_uint_acc _ ?b)) =>
        replace a with (Z.of_nat b)
          by (rewrite Nat.tail_mul_spec; lia)
    end;
    exact (proj1 (IH _)).
Qed.

Lemma decimal_digits (n : nat) :
  Str.chars (decimal n) <> []
  /\ forallb Str.is_digit (Str.chars (decimal n)) = true
  /\ digits 10 digit_val 0 (Str.chars (decimal n)) = Some (Z.of_nat n).
Proof.
  unfold decimal, DecimalString.NilZero.string_of_uint.
  pose proof (DecimalNat.Unsigned.of_to n) as O. unfold Nat.of_uint in O.
  destruct (Nat.to_uint n) as [|d|d|d|d|d|d|d|d|d|d] eqn:E;
    [cbn in O; subst n; repeat split; discriminate|..];
    (split; [discriminate|]);
    match goal with
    | |- context [DecimalString.NilEmpty.string_of_uint ?u] =>
        destruct (digits_of_uint u 0) as [D F]
    end;
    (split; [exact F|]); rewrite <- O; exact D.
Qed.

Lemma chars_eqb_true (a b : list ascii) : chars_eqb a b = true -> a = b.
Proof.
  unfold chars_eqb. intros H. apply String.eqb_eq in H.
  apply (f_equal list_ascii_of_string) in H.
  rewrite !list_ascii_of_string_of_list_ascii in H. exact H.
Qed.

Lemma non_decimal_of_digits (l : list ascii) :
  forallb Str.is_digit l = true -> non_decimal l = None.
Proof.
  destruct l as [|z [|p r]]; try reflexivity. cbn [forallb].
  intros H. apply andb_prop in H. destruct H as [_ H].
  apply andb_prop in H. destruct H as [Hp _].
  unfold non_decimal. destruct (Str.code z =? 48)%N; [|reflexivity].
  revert Hp. unfold Str.is_digit. generalize (Str.code p). intros n Hp.
  apply andb_prop in Hp. destruct Hp as [H1 H2].
  apply N.leb_le in H1. apply N.leb_le in H2.
  repeat match goal with
         | |- context [(?a =? ?b)%N] =>
             destruct (N.eqb_spec a b); [lia|]
         end.
  reflexivity.
Qed.

(** [Number] reads a run of decimal digits as the number they write. *)
Lemma Number_of_digits (s : string) (m : Z) :
  Str.chars s <> [] ->
  forallb Str.is_digit (Str.chars s) = true ->
  digits 10 digit_val 0 (Str.chars s) = Some m ->
  Number_of_string s = Fin (inject_Z m).
Proof.
  intros Hne Hd Hm. unfold Number_of_string.
  assert (Hall : forall c, In c (Str.chars s) -> Str.is_digit c = true).
  { apply forallb_forall, Hd. }
  rewrite trim_id by (intros c Hc; apply digit_not_space, Hall, Hc).
  destruct (Str.chars s) as [|c r] eqn:E; [congruence|].
  rewrite (non_decimal_of_digits _ Hd).
  unfold signed_decimal, take_sign.
  rewrite (digit_not_plus c), (digit_not_minus c)
    by (apply Hall; left; reflexivity).
  destruct (chars_eqb (c :: r) infinity_chars) eqn:I.
  { apply chars_eqb_true in I. rewrite I in Hd. discriminate. }
  unfold unsigned_decimal.
  rewrite split_at_none by (intros x Hx; apply digit_not_e, Hall, Hx).
  unfold mantissa.
  rewrite split_at_none by (intros x Hx; apply digit_not_dot, Hall, Hx).
  unfold digits1. rewrite Hm. cbn [exponent].
  f_equal. transitivity (Qred (inject_Z m)); [|apply Qred_inject_Z].
  apply Qred_complete.
  unfold scale10. cbn. unfold Qeq, Qmult, inject_Z. cbn.
  destruct m; cbn; lia.
Qed.

Lemma Number_of_decimal (n : nat) :
  Number_of_string (decimal n) = Fin (inject_Z (Z.of_nat n)).
Proof.
  destruct (decimal_digits n) as [Hne [Hd Hm]].
  apply Number_of_digits; assumption.
Qed.

Lemma decimal_is_not_all (n : nat) : is_all (Some (decimal n)) = false.
Proof.
  cbn. destruct (String.eqb (decimal n) "all") eqn:E; [|reflexivity].
  apply String.eqb_eq in E. destruct (decimal_digits n) as [_ [Hd _]].
  rewrite E in Hd. discriminate.
Qed.

Lemma effective_page_of_decimal (p : nat) :
  (1 <= p)%nat -> effective_page (Some (decimal p)) = Fin (inject_Z (Z.of_nat p)).
Proof.
  intros Hp. unfold effective_page. rewrite Number_of_decimal.
  unfold or_else, JsNum.truthy.
  destruct (Qeq_bool (inject_Z (Z.of_nat p)) 0) eqn:E; [|reflexivity].
  apply Qeq_bool_iff in E. unfold Qeq in E. cbn in E. lia.
Qed.

Lemma effective_limit_of_decimal (n : nat) :
  (1 <= n)%nat ->
  as_int (effective_limit (Some (decimal n))) = Some (Z.of_nat (Nat.min n 100)).
Proof.
  intros Hn. unfold effective_limit. cbn [Number_of_param].
  rewrite Number_of_decimal. unfold or_else, JsNum.truthy.
  destruct (Qeq_bool (inject_Z (Z.of_nat n)) 0) eqn:E.
  { apply Qeq_bool_iff in E. unfold Qeq in E. cbn in E. lia. }
  cbn [negb JsNum.min JsNum.leb].
  destruct (Qle_bool (inject_Z (Z.of_nat n)) 100) eqn:L.
  - apply Qle_bool_iff in L. change 100%Q with (inject_Z 100) in L.
    rewrite <- Zle_Qle in L. apply as_int_Fin.
    rewrite Nat.min_l by lia. reflexivity.
  - assert (100 < Z.of_nat n)%Z.
    { destruct (Z.lt_ge_cases 100 (Z.of_nat n)) as [H|H]; [exact H|].
      rewrite Zle_Qle in H. apply Qle_bool_iff in H.
      change (inject_Z 100) with 100%Q in H. congruence. }
    apply as_int_Fin. rewrite Nat.min_r by lia. reflexivity.
Qed.

(** A request [?page=p&limit=n], with [p >= 1] and [n >= 1] written in
    decimal digits, that is authenticated and whose filter the store
    accepts, is answered with the sorted matches without the first
    [(p - 1) * m], cut after [m], where [m] is [n] capped at 100; [total]
    counts all the matches.  This holds for both list routes.  The two
    bounds keep [page], [limit] and the skip within the whole numbers that
    a JavaScript number holds exactly (the skip within 32 bits): there
    [Number] reads the digits as the number they write. *)
Theorem a_decimal_page_request
  (e : env) (header : option string) (user : claims) (s : store) (p n : nat) :
  auth "hr" e header = Next user ->
  (1 <= p)%nat -> (1 <= n)%nat ->
  (Z.of_nat p * 100 < 2 ^ 31)%Z ->
  (Z.of_nat n < 2 ^ 53)%Z ->
  (forall q matches,
      CandidateQuery.page q = Some (decimal p) ->
      CandidateQuery.limit q = Some (decimal n) ->
      cast_candidate_filter (build_candidate_filter q) = Ok matches ->
      listCandidates e header q s
      = json 200
          (JsonCandidates
             (firstn (Nat.min n 100)
                (skipn ((p - 1) * Nat.min n 100)
                   (sort_desc Candidate.createdAt (filter matches (candidates s)))))
             (List.length (filter matches (candidates s)))))
  /\ (forall q matches,
        InterviewQuery.page q = Some (decimal p) ->
        InterviewQuery.limit q = Some (decimal n) ->
        cast_interview_filter (build_interview_filter q) = Ok matches ->
        listInterviews e header q s
        = json 200
            (JsonInterviews
               (firstn (Nat.min n 100)
                  (skipn ((p - 1) * Nat.min n 100)
                     (map (populate (candidates s))
                        (sort_desc Interview.date
                           (filter matches (interviews s))))))
               (List.length (filter matches (interviews s))))).
Proof.
  intros A Hp Hn _ _.
  assert (EP : as_int (effective_page (Some (decimal p))) = Some (Z.of_nat p)).
  { rewrite effective_page_of_decimal by exact Hp. apply as_int_Fin. reflexivity. }
  pose proof (effective_limit_of_decimal n Hn) as EL.
  assert (K : Z.to_nat ((Z.of_nat p - 1) * Z.of_nat (Nat.min n 100))
              = ((p - 1) * Nat.min n 100)%nat) by nia.
  split.
  - intros q matches Pq Lq C.
    rewrite (listCandidates_page e header user q s matches
               (Z.of_nat p) (Z.of_nat (Nat.min n 100)));
      rewrite ?Pq, ?Lq; try assumption; try lia;
      [|apply decimal_is_not_all].
    rewrite K, Nat2Z.id. reflexivity.
  - intros q matches Pq Lq C.
    rewrite (listInterviews_page e header user q s matches
               (Z.of_nat p) (Z.of_nat (Nat.min n 100)));
      rewrite ?Pq, ?Lq; try assumption; try lia;
      [|apply decimal_is_not_all].
    rewrite K, Nat2Z.id. reflexivity.
Qed.

(** *** What a login token stands for *)

(** A login is answered with a token only for a stored user: the one whose
    e-mail is the e-mail of the request (lower-cased when the lookup applies
    the schema's setter), whose hash bcrypt accepts for the password of the
    request; the token is signed for that user's identifier and role, for
    eight hours. *)
Theorem login_token_is_for_a_stored_user
  (e : env) (b : LoginReq.t) (s : store) (t : token) :
  login e b s = json 200 (JsonToken t) ->
  exists u,
    In u (users s)
    /\ User.email u
       = (if query_setters then Str.toLowerCase (text (LoginReq.email b))
          else text (LoginReq.email b))
    /\ bcrypt_compare (text (LoginReq.password b)) (User.passwordHash u) = true
    /\ t = jwt_sign {| userId := User._id u; role := Some (User.role u) |}
                    JWT_SECRET "8h" (now e).
Proof.
  unfold login. destruct (login_validation b) as [|v vs]; [|discriminate].
  destruct (User_findOne _ _) as [u|] eqn:F; [|discriminate].
  destruct (bcrypt_compare _ _) eqn:C; [|discriminate].
  cbn [negb]. intros H. injection H as <-.
  unfold User_findOne in F. apply find_some in F. destruct F as [Hin He].
  apply String.eqb_eq in He.
  exists u. split; [exact Hin|]. split; [exact He|]. split; [exact C|reflexivity].
Qed.

(** *** A bound that is not a number *)

(** For an authenticated request, a [minExp] that is not empty and does not
    read as a number is answered 500: the filter fails to cast and the error
    has no status.  It is not answered 400, and not with an unfiltered
    list. *)
Theorem non_numeric_minExp_is_a_server_error
  (e : env) (header : option string) (user : claims) (q : CandidateQuery.t)
  (s : store) (m : string) :
  auth "hr" e header = Next user ->
  CandidateQuery.minExp q = Some m ->
  m <> "" ->
  Number_of_string m = NaN ->
  status (listCandidates e header q s) = 500.
Proof.
  intros A E N NAN. unfold listCandidates. rewrite A.
  assert (C : Candidate_find_sorted (build_candidate_filter q) (candidates s)
              = Throw (CastError "Cast to Number failed for path experience")).
  { unfold Candidate_find_sorted, cast_candidate_filter, build_candidate_filter.
    cbn [f_experience]. rewrite E.
    destruct m as [|c r]; [congruence|].
    cbn [Str.truthy_opt Str.truthy Number_of_param]. rewrite NAN. reflexivity. }
  rewrite C. destruct (is_all _); rewrite next_err_finalhandler; reflexivity.
Qed.

End Server.

(* ------------------------------------------------------------------ *)
(** ** The properties on the scenarios *)

(** C1 at work: Bob with experience -1 and with experience 0, sent with the
    token of an "hr" user to a collection of three candidates. *)
Lemma C1_experience_minus_one_and_zero_witness :
  (status (fst (createCandidate demo_jwt_verify demo_secret (demo_env 7 id_d)
                  hr_header (bob (JNum (Fin (-1 # 1)))) demo_store)) = 500
   /\ snd (createCandidate demo_jwt_verify demo_secret (demo_env 7 id_d)
             hr_header (bob (JNum (Fin (-1 # 1)))) demo_store) = demo_store)
  /\ exists c,
       createCandidate demo_jwt_verify demo_secret (demo_env 7 id_d)
         hr_header (bob (JNum (Fin 0))) demo_store
       = (json 201 (JsonCandidate c),
          {| users := users demo_store;
             candidates := candidates demo_store ++ [c];
             interviews := interviews demo_store |})
       /\ Candidate.experience c = Fin 0
       /\ Candidate.name c = "Bob"
       /\ Candidate.role c = "Eng".
Proof.
  assert (fresh : forall c, In c (candidates demo_store) ->
                            Candidate._id c <> new_id (demo_env 7 id_d)).
  { intros c [<-|[<-|[<-|[]]]]; discriminate. }
  split.
  - apply (proj1 (C1_experience_minus_one_and_zero demo_jwt_verify demo_secret
                    (demo_env 7 id_d) hr_header hr_claims
                    (bob (JNum (Fin (-1 # 1)))) demo_store
                    eq_refl eq_refl eq_refl eq_refl fresh)).
    reflexivity.
  - apply (proj2 (C1_experience_minus_one_and_zero demo_jwt_verify demo_secret
                    (demo_env 7 id_d) hr_header hr_claims
                    (bob (JNum (Fin 0))) demo_store
                    eq_refl eq_refl eq_refl eq_refl fresh)).
    reflexivity.
Defined.

(** C1 as the spec states it fails: the body
    [{ name: "Bob", role: "Eng", experience: -1 }] passes the route's
    validators, the schema refuses it at [save], and the answer is a 500, not
    a 400. *)
Lemma C1_minus_one_is_answered_500 :
  candidate_validation (bob (JNum (Fin (-1 # 1)))) = []
  /\ status (fst (createCandidate demo_jwt_verify demo_secret (demo_env 7 id_d)
                    hr_header (bob (JNum (Fin (-1 # 1)))) demo_store)) = 500
  /\ status (fst (createCandidate demo_jwt_verify demo_secret (demo_env 7 id_d)
                    hr_header (bob (JNum (Fin (-1 # 1)))) demo_store)) <> 400.
Proof.
  split; [reflexivity|]. split; [reflexivity|]. vm_compute. discriminate.
Qed.

(** C2 at work: [{ rating: 4 }] and then [{ notes: "ok" }] on a stored
    interview leave [{ notes: "ok" }], without a rating. *)
Lemma C2_feedback_is_replaced_witness :
  exists iv2,
    Interview_findById id_b
      (interviews
         (snd (setFeedback demo_jwt_verify demo_secret (demo_env 9 id_d) hr_header
                 id_b notes_ok
                 (snd (setFeedback demo_jwt_verify demo_secret (demo_env 8 id_d)
                         hr_header id_b rating_four demo_store)))))
    = Ok (Some iv2)
    /\ Interview.feedback iv2
       = {| Interview.fb_rating := None; Interview.fb_notes := Some "ok" |}.
Proof.
  destruct (C2_feedback_is_replaced demo_jwt_verify demo_secret
              (demo_env 8 id_d) (demo_env 9 id_d) hr_header hr_header
              hr_claims id_b rating_four notes_ok demo_store
              (demo_interview id_b id_b 30)
              eq_refl eq_refl eq_refl)
    as [_ [iv2 [F [Hfb _]]]].
  exists iv2. split; [exact F|]. rewrite Hfb. reflexivity.
Defined.

(** C3 at work: [limit=500]. *)
Lemma C3_page_size_witness : effective_limit (Some "500") = Fin 100.
Proof.
  exact (proj1 (proj2 (proj2 (proj2 (proj2 (C3_page_size (Some "500") eq_refl)))))
           eq_refl).
Defined.

(** C3 as the spec states it fails: [limit=-5] is not "all", and the page
    size handed to the cursor is -5, below 1. *)
Lemma C3_negative_limit_is_not_clamped :
  is_all (Some "-5") = false
  /\ effective_limit (Some "-5") = Fin (-5 # 1)
  /\ JsNum.ltb (effective_limit (Some "-5")) (Fin 1) = true.
Proof. repeat split; vm_compute; reflexivity. Qed.

(** C4 at work: "A@X.com" signs up, then "a@x.COM" tries to. *)
Lemma C4_same_email_second_signup_refused_witness :
  rejected (fst (signup demo_isEmail true demo_bcrypt_hash demo_jwt_sign demo_secret
                   (demo_env 8 id_a) (signup_as "a@x.COM") one_user_store)) = true
  /\ snd (signup demo_isEmail true demo_bcrypt_hash demo_jwt_sign demo_secret
            (demo_env 8 id_a) (signup_as "a@x.COM") one_user_store)
     = one_user_store
  /\ List.length
       (filter (fun u => String.eqb (User.email u) "a@x.com")
          (users (snd (signup demo_isEmail true demo_bcrypt_hash demo_jwt_sign
                         demo_secret (demo_env 8 id_a) (signup_as "a@x.COM")
                         one_user_store))))
     = 1%nat.
Proof.
  exact (C4_same_email_second_signup_refused demo_isEmail true demo_bcrypt_hash
           demo_jwt_sign demo_secret (demo_env 7 id_d) (demo_env 8 id_a)
           (signup_as "A@X.com") (signup_as "a@x.COM") empty_store one_user_store
           "signed:dddddddddddddddddddddddd" eq_refl eq_refl).
Defined.



(** C6 at work: a wrong password and an unknown e-mail. *)
Lemma C6_login_failures_look_alike_witness :
  login demo_isEmail true demo_bcrypt_compare demo_jwt_sign demo_secret
    (demo_env 9 id_a) (login_as "a@x.com" "secret2") one_user_store
  = json 401 (JsonError "Invalid credentials")
  /\ login demo_isEmail true demo_bcrypt_compare demo_jwt_sign demo_secret
       (demo_env 9 id_a) (login_as "b@x.com" "secret1") one_user_store
     = json 401 (JsonError "Invalid credentials").
Proof.
  split.
  - apply (C6_login_failures_look_alike demo_isEmail true demo_bcrypt_compare
             demo_jwt_sign demo_secret (demo_env 9 id_a)
             (login_as "a@x.com" "secret2") one_user_store eq_refl).
    right. exists demo_user. split; reflexivity.
  - apply (C6_login_failures_look_alike demo_isEmail true demo_bcrypt_compare
             demo_jwt_sign demo_secret (demo_env 9 id_a)
             (login_as "b@x.com" "secret1") one_user_store eq_refl).
    left. reflexivity.
Defined.

(** C7 at work: [page=2&limit=2] over three candidates and over three
    interviews, and [page=2&limit=10], which skips ten documents. *)
Lemma C7_paged_listing_witness :
  listCandidates demo_regex_i demo_jwt_verify demo_secret demo_cursor_other
    (demo_env 7 id_d) hr_header
    (candidates_query None (Some "2") (Some "2")) demo_store
  = json 200 (JsonCandidates [demo_candidate id_a "Ann" (Fin 1) 1] 3)
  /\ listInterviews demo_jwt_verify demo_secret demo_cursor_other
       (demo_env 7 id_d) hr_header
       (interviews_query (Some "2") (Some "2")) demo_store
     = json 200
         (JsonInterviews
            [populate (candidates demo_store) (demo_interview id_a id_a 10)] 3)
  /\ listCandidates demo_regex_i demo_jwt_verify demo_secret demo_cursor_other
       (demo_env 7 id_d) hr_header
       (candidates_query None (Some "2") (Some "10")) demo_store
     = json 200
         (JsonCandidates
            (firstn 10 (skipn 10 (sort_desc Candidate.createdAt
                                    (candidates demo_store)))) 3).
Proof.
  pose proof (C7_paged_listing demo_regex_i demo_jwt_verify demo_secret
                demo_cursor_other (demo_env 7 id_d) hr_header demo_store)
    as [_ [Hc Hi]].
  assert (one_le_two : (1 <= 2)%Z) by discriminate.
  assert (one_le_ten : (1 <= 10)%Z) by discriminate.
  split; [|split].
  - rewrite (proj2 (Hc (candidates_query None (Some "2") (Some "2")) eq_refl)
               hr_claims (fun _ => true) 2 2
               eq_refl eq_refl eq_refl eq_refl one_le_two one_le_two).
    reflexivity.
  - rewrite (proj2 (Hi (interviews_query (Some "2") (Some "2")) eq_refl)
               hr_claims (fun _ => true) 2 2
               eq_refl eq_refl eq_refl eq_refl one_le_two one_le_two).
    reflexivity.
  - rewrite (proj2 (Hc (candidates_query None (Some "2") (Some "10")) eq_refl)
               hr_claims (fun _ => true) 2 10
               eq_refl eq_refl eq_refl eq_refl one_le_two one_le_ten).
    reflexivity.
Defined.

(** C8 at work: [limit=all] over three candidates and over three
    interviews. *)
Lemma C8_limit_all_returns_everything_witness :
  listCandidates demo_regex_i demo_jwt_verify demo_secret demo_cursor_other
    (demo_env 7 id_d) hr_header
    (candidates_query None (Some "2") (Some "all")) demo_store
  = json 200
      (JsonCandidates
         [ demo_candidate id_c "Cy" (Fin 5) 3;
           demo_candidate id_b "Bob" (Fin 3) 2;
           demo_candidate id_a "Ann" (Fin 1) 1 ] 3)
  /\ listInterviews demo_jwt_verify demo_secret demo_cursor_other
       (demo_env 7 id_d) hr_header
       (interviews_query None (Some "all")) demo_store
     = json 200
         (JsonInterviews
            (map (populate (candidates demo_store))
               [ demo_interview id_b id_b 30;
                 demo_interview id_c id_a 20;
                 demo_interview id_a id_a 10 ]) 3).
Proof.
  pose proof (C8_limit_all_returns_everything demo_regex_i demo_jwt_verify
                demo_secret demo_cursor_other (demo_env 7 id_d) hr_header
                demo_store)
    as [Hc Hi].
  split.
  - rewrite (proj2 (Hc (candidates_query None (Some "2") (Some "all")) eq_refl)
               hr_claims (fun _ => true) eq_refl eq_refl).
    reflexivity.
  - rewrite (proj2 (Hi (interviews_query None (Some "all")) eq_refl)
               hr_claims (fun _ => true) eq_refl eq_refl).
    reflexivity.
Defined.

(** C9 at work: no header, a token that does not verify, a verified token
    of another role, and the token of an "hr" user. *)
Lemma C9_auth_outcomes_witness :
  auth demo_jwt_verify demo_secret "hr" (demo_env 7 id_d) None
  = Denied (json 401 (JsonError "No token provided"))
  /\ auth demo_jwt_verify demo_secret "hr" (demo_env 7 id_d) (Some "Bearer forged")
     = Denied (json 401 (JsonError "Invalid token"))
  /\ auth demo_jwt_verify demo_secret "hr" (demo_env 7 id_d)
       (Some "Bearer guest-token")
     = Denied (json 403 (JsonError "Forbidden"))
  /\ fst (createCandidate demo_jwt_verify demo_secret (demo_env 7 id_d)
            (Some "Bearer guest-token") (bob (JNum (Fin 3))) demo_store)
     = json 403 (JsonError "Forbidden")
  /\ auth demo_jwt_verify demo_secret "hr" (demo_env 7 id_d) hr_header
     = Next hr_claims.
Proof.
  pose proof (C9_auth_outcomes demo_regex_i demo_jwt_verify demo_Date_parse
                demo_secret demo_cursor_other (demo_env 7 id_d))
    as [H0 [H1 [H2 H3]]].
  assert (nonempty : forall t, String "B" t <> "") by discriminate.
  split; [exact (proj1 (H0 None (or_introl eq_refl)))|].
  split; [|split; [|split]].
  - exact (proj1 (H1 "Bearer forged" (nonempty _) eq_refl)).
  - refine (proj1 (H2 "Bearer guest-token"
                      {| userId := demo_user_id; role := Some "guest" |}
                      (nonempty _) eq_refl _)).
    cbn. discriminate.
  - assert (guest : role {| userId := demo_user_id; role := Some "guest" |}
                    <> Some "hr") by (cbn; discriminate).
    rewrite (proj1 (proj2 (H2 "Bearer guest-token"
                             {| userId := demo_user_id; role := Some "guest" |}
                             (nonempty _) eq_refl guest) demo_store)
                   (bob (JNum (Fin 3)))).
    reflexivity.
  - exact (H3 "Bearer hr-token" hr_claims (nonempty _) eq_refl eq_refl).
Defined.

(** C10 at work: [minExp=0] over the three candidates, whose experiences
    are 1, 3 and 5. *)
Lemma C10_minExp_zero_or_empty_witness :
  listCandidates demo_regex_i demo_jwt_verify demo_secret demo_cursor_other
    (demo_env 7 id_d) hr_header (candidates_query (Some "0") None None) demo_store
  = listCandidates demo_regex_i demo_jwt_verify demo_secret demo_cursor_other
      (demo_env 7 id_d) hr_header (candidates_query None None None) demo_store.
Proof.
  assert (bound : experience_non_negative (candidates demo_store)).
  { intros c [<-|[<-|[<-|[]]]]; reflexivity. }
  exact (proj2 (proj2 (proj2
           (C10_minExp_zero_or_empty demo_regex_i demo_jwt_verify demo_secret
              demo_cursor_other (demo_env 7 id_d) hr_header (candidates_query None None None)
              demo_store bound)))).
Defined.

(** C10 as the spec states it fails: [minExp=0] does install the filter
    [experience >= 0], and over a collection that holds a document with a
    negative experience (written to the store directly: the schema lets none
    in) the answer differs from the one with [minExp] omitted. *)
Lemma C10_zero_installs_the_filter :
  Str.truthy_opt (Some "0") = true
  /\ f_experience (build_candidate_filter (candidates_query (Some "0") None None))
     = Some (Fin 0)
  /\ f_experience (build_candidate_filter (candidates_query None None None)) = None
  /\ listCandidates demo_regex_i demo_jwt_verify demo_secret demo_cursor_other
       (demo_env 7 id_d) hr_header (candidates_query (Some "0") None None)
       legacy_store
     <> listCandidates demo_regex_i demo_jwt_verify demo_secret demo_cursor_other
          (demo_env 7 id_d) hr_header (candidates_query None None None)
          legacy_store.
Proof.
  repeat split; try reflexivity. vm_compute. discriminate.
Qed.

(* ------------------------------------------------------------------ *)
(** ** The application as a whole, on a session *)

(** A candidate the schema refuses is answered 500 and leaves the three
    collections as they were. *)
Lemma failure_leaves_the_collections_witness :
  snd (handle demo_isEmail demo_regex_i true demo_bcrypt_hash demo_bcrypt_compare
         demo_jwt_sign demo_jwt_verify demo_Date_parse demo_secret
         demo_cursor_other (demo_env 7 id_d)
         (PostCandidate hr_header (bob (JNum (Fin (-1 # 1))))) demo_store)
  = demo_store.
Proof.
  exact (failure_leaves_the_collections demo_isEmail demo_regex_i true
           demo_bcrypt_hash demo_bcrypt_compare demo_jwt_sign demo_jwt_verify
           demo_Date_parse demo_secret demo_cursor_other (demo_env 7 id_d)
           (PostCandidate hr_header (bob (JNum (Fin (-1 # 1))))) demo_store
           eq_refl).
Defined.

(** The session ends in [session_store]. *)
Remark session_ends :
  run demo_isEmail demo_regex_i true demo_bcrypt_hash demo_bcrypt_compare
    demo_jwt_sign demo_jwt_verify demo_Date_parse demo_secret demo_cursor_other
    demo_trace empty_store
  = session_store.
Proof. reflexivity. Qed.

(** The user of the session, stored under "a@x.com". *)
Lemma stored_users_are_normalised_witness : user_ok demo_user.
Proof.
  exact (stored_users_are_normalised demo_isEmail demo_regex_i true
           demo_bcrypt_hash demo_bcrypt_compare demo_jwt_sign demo_jwt_verify
           demo_Date_parse demo_secret demo_cursor_other demo_trace demo_user
           (or_introl eq_refl)).
Defined.

Lemma stored_candidates_meet_the_schema_witness :
  candidate_ok (demo_candidate id_a "Bob" (Fin 2) 8).
Proof.
  exact (stored_candidates_meet_the_schema demo_isEmail demo_regex_i true
           demo_bcrypt_hash demo_bcrypt_compare demo_jwt_sign demo_jwt_verify
           demo_Date_parse demo_secret demo_cursor_other demo_trace
           (demo_candidate id_a "Bob" (Fin 2) 8) (or_introl eq_refl)).
Defined.

Lemma stored_interviews_refer_to_candidates_witness :
  interview_ok (candidates session_store) session_interview.
Proof.
  exact (stored_interviews_refer_to_candidates demo_isEmail demo_regex_i true
           demo_bcrypt_hash demo_bcrypt_compare demo_jwt_sign demo_jwt_verify
           demo_Date_parse demo_secret demo_cursor_other demo_trace
           session_interview (or_introl eq_refl)).
Defined.

(** "A@X.com" signs up; after the rest of the session, "a@X.COM" logs in
    with the same password and gets a token for the same user. *)
Lemma signup_then_login_witness :
  login demo_isEmail true demo_bcrypt_compare demo_jwt_sign demo_secret
    (demo_env 12 id_c) (login_as "a@X.COM" "secret1")
    (run demo_isEmail demo_regex_i true demo_bcrypt_hash demo_bcrypt_compare
       demo_jwt_sign demo_jwt_verify demo_Date_parse demo_secret
       demo_cursor_other (tl demo_trace) one_user_store)
  = json 200 (JsonToken "signed:dddddddddddddddddddddddd").
Proof.
  exact (signup_then_login demo_isEmail demo_regex_i true demo_bcrypt_hash
           demo_bcrypt_compare demo_jwt_sign demo_jwt_verify demo_Date_parse
           demo_secret demo_cursor_other (demo_env 7 id_d) (demo_env 12 id_c)
           (signup_as "A@X.com") empty_store one_user_store
           "signed:dddddddddddddddddddddddd" (tl demo_trace) "a@X.COM"
           eq_refl eq_refl eq_refl eq_refl).
Defined.

(** With a verifier that reads what the signer wrote, the token of that
    signup authenticates its user. *)
Lemma signup_token_authenticates_witness :
  auth demo_jwt_read demo_secret "hr" (demo_env 12 id_c)
    (Some "Bearer signed:dddddddddddddddddddddddd")
  = Next {| userId := id_d; role := Some "hr" |}.
Proof.
  exact (signup_token_authenticates demo_isEmail true demo_bcrypt_hash
           demo_jwt_sign demo_jwt_read demo_secret (demo_env 7 id_d)
           (demo_env 12 id_c) (signup_as "A@X.com") empty_store one_user_store
           "signed:dddddddddddddddddddddddd" eq_refl eq_refl).
Defined.

(** [Authorization: hr-token] is read like [Authorization: Bearer hr-token]. *)
Lemma bearer_prefix_is_optional_witness :
  auth demo_jwt_verify demo_secret "hr" (demo_env 7 id_d) (Some "hr-token")
  = auth demo_jwt_verify demo_secret "hr" (demo_env 7 id_d) hr_header.
Proof.
  apply (bearer_prefix_is_optional demo_jwt_verify demo_secret (demo_env 7 id_d)
           "hr-token"); [reflexivity|discriminate].
Defined.

(** Bob's identifier in capitals is a well-formed one, and Bob is found. *)
Lemma candidate_details_outcomes_witness :
  candidateDetails demo_jwt_verify demo_secret (demo_env 7 id_d) hr_header
    "BBBBBBBBBBBBBBBBBBBBBBBB" demo_store
  = json 200 (JsonCandidate (demo_candidate id_b "Bob" (Fin 3) 2)).
Proof.
  destruct (proj2 (candidate_details_outcomes demo_jwt_verify demo_secret
                     (demo_env 7 id_d) hr_header hr_claims
                     "BBBBBBBBBBBBBBBBBBBBBBBB" demo_store eq_refl)
              eq_refl)
    as [[H _]|[c [Hin [Hid ->]]]].
  - exfalso. apply (H (demo_candidate id_b "Bob" (Fin 3) 2));
      [right; left; reflexivity|reflexivity].
  - destruct Hin as [<-|[<-|[<-|[]]]]; try discriminate Hid. reflexivity.
Defined.

(** Bob is created in the session and fetched after its end. *)
Lemma created_candidate_can_be_fetched_witness :
  candidateDetails demo_jwt_verify demo_secret (demo_env 12 id_c) hr_header id_a
    (run demo_isEmail demo_regex_i true demo_bcrypt_hash demo_bcrypt_compare
       demo_jwt_sign demo_jwt_verify demo_Date_parse demo_secret
       demo_cursor_other (skipn 2 demo_trace)
       {| users := [demo_user];
          candidates := [demo_candidate id_a "Bob" (Fin 2) 8];
          interviews := [] |})
  = json 200 (JsonCandidate (demo_candidate id_a "Bob" (Fin 2) 8)).
Proof.
  exact (created_candidate_can_be_fetched demo_isEmail demo_regex_i true
           demo_bcrypt_hash demo_bcrypt_compare demo_jwt_sign demo_jwt_verify
           demo_Date_parse demo_secret demo_cursor_other
           (demo_env 8 id_a) (demo_env 12 id_c) hr_header hr_header hr_claims
           (bob (JNum (Fin 2))) one_user_store
           {| users := [demo_user];
              candidates := [demo_candidate id_a "Bob" (Fin 2) 8];
              interviews := [] |}
           (demo_candidate id_a "Bob" (Fin 2) 8) (skipn 2 demo_trace)
           eq_refl eq_refl eq_refl).
Defined.

(** A rating of 4 on a stored interview is answered 200. *)
Lemma feedback_outcomes_witness :
  exists iv,
    setFeedback demo_jwt_verify demo_secret (demo_env 8 id_d) hr_header id_b
      rating_four demo_store
    = (json 200 (JsonInterview iv),
       {| users := users demo_store;
          candidates := candidates demo_store;
          interviews := write_over iv (interviews demo_store) |})
    /\ Interview._id iv = id_b
    /\ Interview.feedback iv
       = {| Interview.fb_rating := Some (Fin 4); Interview.fb_notes := None |}.
Proof.
  destruct (feedback_outcomes demo_jwt_verify demo_secret (demo_env 8 id_d)
              hr_header hr_claims id_b rating_four demo_store eq_refl eq_refl)
    as [[H _]|[[_ [H _]]|[iv0 [iv [_ [_ [Hid0 [Hid [Hfb H]]]]]]]]].
  - exfalso. apply H. reflexivity.
  - exfalso. apply (H (demo_interview id_b id_b 30));
      [right; left; reflexivity|reflexivity].
  - exists iv. split; [exact H|]. split; [|exact Hfb].
    rewrite Hid. exact Hid0.
Defined.

(** That call leaves the two other interviews and all candidates alone and
    is stamped with its time; a body [{}] on an interview without feedback
    changes nothing at all. *)
Lemma feedback_touches_one_interview_witness :
  candidates
    (snd (setFeedback demo_jwt_verify demo_secret (demo_env 8 id_d) hr_header
            id_b rating_four demo_store))
  = candidates demo_store
  /\ In (demo_interview id_c id_a 20)
        (interviews
           (snd (setFeedback demo_jwt_verify demo_secret (demo_env 8 id_d)
                   hr_header id_b rating_four demo_store)))
  /\ setFeedback demo_jwt_verify demo_secret (demo_env 8 id_d) hr_header id_a
       no_feedback demo_store
     = (json 200 (JsonInterview (demo_interview id_a id_a 10)), demo_store).
Proof.
  split; [|split].
  - destruct (feedback_touches_one_interview demo_jwt_verify demo_secret
                (demo_env 8 id_d) hr_header id_b rating_four demo_store
                (snd (setFeedback demo_jwt_verify demo_secret (demo_env 8 id_d)
                        hr_header id_b rating_four demo_store))
                (set_feedback (demo_env 8 id_d) (feedback_of rating_four)
                   (demo_interview id_b id_b 30))
                eq_refl)
      as [_ [Hc _]].
    exact Hc.
  - destruct (feedback_touches_one_interview demo_jwt_verify demo_secret
                (demo_env 8 id_d) hr_header id_b rating_four demo_store
                (snd (setFeedback demo_jwt_verify demo_secret (demo_env 8 id_d)
                        hr_header id_b rating_four demo_store))
                (set_feedback (demo_env 8 id_d) (feedback_of rating_four)
                   (demo_interview id_b id_b 30))
                eq_refl)
      as [_ [_ [_ [Hother _]]]].
    apply Hother; [right; right; left; reflexivity|discriminate].
  - destruct (feedback_touches_one_interview demo_jwt_verify demo_secret
                (demo_env 8 id_d) hr_header id_a no_feedback demo_store
                (snd (setFeedback demo_jwt_verify demo_secret (demo_env 8 id_d)
                        hr_header id_a no_feedback demo_store))
                (demo_interview id_a id_a 10)
                eq_refl)
      as [_ [_ [_ [_ [iv0 [Hin [Hid [_ [_ [_ [_ [_ [_ [_ [_ Hsame]]]]]]]]]]]]]]].
    assert (Hiv0 : iv0 = demo_interview id_a id_a 10).
    { destruct Hin as [<-|[<-|[<-|[]]]]; [reflexivity|discriminate Hid..]. }
    subst iv0.
    destruct (Hsame eq_refl eq_refl) as [_ Hstore].
    assert (distinct : NoDup (map Interview._id (interviews demo_store))).
    { repeat constructor; cbn; intros H;
        repeat (destruct H as [H|H]; [discriminate H|]); exact H. }
    apply injective_projections; [reflexivity|].
    exact (Hstore distinct).
Defined.

(** Bob with two years of experience is created; with minus one year the
    answer is 500. *)
Lemma create_candidate_outcomes_witness :
  createCandidate demo_jwt_verify demo_secret (demo_env 7 id_d) hr_header
    (bob (JNum (Fin 2))) demo_store
  = (json 201 (JsonCandidate (demo_candidate id_d "Bob" (Fin 2) 7)),
     {| users := users demo_store;
        candidates := candidates demo_store ++ [demo_candidate id_d "Bob" (Fin 2) 7];
        interviews := interviews demo_store |})
  /\ status (fst (createCandidate demo_jwt_verify demo_secret (demo_env 7 id_d)
                    hr_header (bob (JNum (Fin (-1 # 1)))) demo_store)) = 500.
Proof.
  assert (fresh : forall c, In c (candidates demo_store) ->
                            Candidate._id c <> new_id (demo_env 7 id_d)).
  { intros c [<-|[<-|[<-|[]]]]; discriminate. }
  split.
  - apply (proj1 (proj2 (create_candidate_outcomes demo_jwt_verify demo_secret
                           (demo_env 7 id_d) hr_header hr_claims
                           (bob (JNum (Fin 2))) demo_store
                           eq_refl eq_refl fresh)));
      [reflexivity|discriminate].
  - apply (proj2 (proj2 (create_candidate_outcomes demo_jwt_verify demo_secret
                           (demo_env 7 id_d) hr_header hr_claims
                           (bob (JNum (Fin (-1 # 1)))) demo_store
                           eq_refl eq_refl fresh))).
    left. reflexivity.
Defined.

(** An interview with Ann is scheduled; without a readable date the answer
    is 500. *)
Lemma schedule_interview_outcomes_witness :
  (exists iv,
      scheduleInterview demo_jwt_verify demo_Date_parse demo_secret
        (demo_env 7 id_d) hr_header (interview_for id_a (Some "2025-01-01"))
        demo_store
      = (json 201 (JsonInterview iv),
         {| users := users demo_store;
            candidates := candidates demo_store;
            interviews := interviews demo_store ++ [iv] |})
      /\ Interview.candidate iv = id_a
      /\ Interview.mode iv = "remote")
  /\ status (fst (scheduleInterview demo_jwt_verify (fun _ => None) demo_secret
                    (demo_env 7 id_d) hr_header
                    (interview_for id_a (Some "soon")) demo_store)) = 500.
Proof.
  assert (fresh : forall iv, In iv (interviews demo_store) ->
                             Interview._id iv <> new_id (demo_env 7 id_d)).
  { intros iv [<-|[<-|[<-|[]]]]; discriminate. }
  split.
  - destruct (proj1 (schedule_interview_outcomes demo_jwt_verify demo_Date_parse
                       demo_secret (demo_env 7 id_d) hr_header hr_claims
                       (interview_for id_a (Some "2025-01-01")) demo_store
                       (demo_candidate id_a "Ann" (Fin 1) 1)
                       eq_refl eq_refl (or_introl eq_refl) eq_refl fresh)
                0 eq_refl)
      as [iv [H [_ [Hc [_ [_ [Hm _]]]]]]].
    exists iv. split; [exact H|]. split; [exact Hc|exact Hm].
  - apply (proj2 (schedule_interview_outcomes demo_jwt_verify (fun _ => None)
                    demo_secret (demo_env 7 id_d) hr_header hr_claims
                    (interview_for id_a (Some "soon")) demo_store
                    (demo_candidate id_a "Ann" (Fin 1) 1)
                    eq_refl eq_refl (or_introl eq_refl) eq_refl fresh)).
    reflexivity.
Defined.

(** The three candidates, listed whole or by pages of two, come newest
    first. *)
Lemma listings_are_sorted_descending_witness :
  Sorted (later_first Candidate.createdAt)
    [ demo_candidate id_c "Cy" (Fin 5) 3;
      demo_candidate id_b "Bob" (Fin 3) 2;
      demo_candidate id_a "Ann" (Fin 1) 1 ]
  /\ Sorted (later_first Interview.date)
       [ demo_interview id_b id_b 30; demo_interview id_c id_a 20 ].
Proof.
  pose proof (listings_are_sorted_descending demo_regex_i demo_jwt_verify
                demo_secret demo_cursor_other (demo_env 7 id_d) hr_header
                demo_store)
    as [Hc Hi].
  split.
  - apply (Hc (candidates_query None None (Some "all")) _ 3%nat eq_refl).
    left. reflexivity.
  - apply (Hi (interviews_query (Some "1") (Some "2"))
              (map (populate (candidates demo_store))
                 [ demo_interview id_b id_b 30; demo_interview id_c id_a 20 ])
              3%nat eq_refl).
    right. split; discriminate.
Defined.

(** The second page of two holds one candidate out of three. *)
Lemma a_page_holds_at_most_100_witness :
  (List.length [demo_candidate id_a "Ann" (Fin 1) 1] <= Z.to_nat 2)%nat
  /\ (List.length [demo_candidate id_a "Ann" (Fin 1) 1] <= 100)%nat
  /\ (List.length [demo_candidate id_a "Ann" (Fin 1) 1] <= 3)%nat.
Proof.
  apply (proj1 (a_page_holds_at_most_100 demo_regex_i demo_jwt_verify
                  demo_secret demo_cursor_other (demo_env 7 id_d) hr_header
                  demo_store)
           (candidates_query None (Some "2") (Some "2"))
           [demo_candidate id_a "Ann" (Fin 1) 1] 3%nat 2 2);
    try reflexivity.
  discriminate.
Defined.

(** Pages 1 and 2 of size two hold the three candidates, each once. *)
Lemma consecutive_pages_are_adjacent_witness :
  exists d1 d2 total,
    listCandidates demo_regex_i demo_jwt_verify demo_secret demo_cursor_other
      (demo_env 7 id_d) hr_header (candidates_query None (Some "1") (Some "2"))
      demo_store
    = json 200 (JsonCandidates d1 total)
    /\ listCandidates demo_regex_i demo_jwt_verify demo_secret demo_cursor_other
         (demo_env 7 id_d) hr_header (candidates_query None (Some "2") (Some "2"))
         demo_store
       = json 200 (JsonCandidates d2 total)
    /\ (d1 ++ d2)%list
       = [ demo_candidate id_c "Cy" (Fin 5) 3;
           demo_candidate id_b "Bob" (Fin 3) 2;
           demo_candidate id_a "Ann" (Fin 1) 1 ].
Proof.
  assert (one_le_one : (1 <= 1)%Z) by discriminate.
  assert (one_le_two : (1 <= 2)%Z) by discriminate.
  assert (distinct : NoDup (map Candidate.createdAt
                              (filter (fun _ => true) (candidates demo_store)))).
  { repeat constructor; cbn; intros H;
      repeat (destruct H as [H|H]; [discriminate H|]); exact H. }
  destruct (proj1 (consecutive_pages_are_adjacent demo_regex_i demo_jwt_verify
                     demo_secret demo_cursor_other (demo_env 7 id_d) hr_header
                     hr_claims demo_store eq_refl)
              (candidates_query None (Some "1") (Some "2"))
              (candidates_query None (Some "2") (Some "2"))
              (fun _ => true) 1 2
              eq_refl eq_refl eq_refl eq_refl distinct eq_refl eq_refl eq_refl
              one_le_one one_le_two)
    as [d1 [d2 [total [H1 [H2 H]]]]].
  exists d1, d2, total. split; [exact H1|]. split; [exact H2|].
  rewrite (H [ demo_candidate id_c "Cy" (Fin 5) 3;
               demo_candidate id_b "Bob" (Fin 3) 2;
               demo_candidate id_a "Ann" (Fin 1) 1 ]).
  - reflexivity.
  - exact (Permutation_sym (Permutation_rev (candidates demo_store))).
  - repeat constructor; unfold later_first; cbn; discriminate.
Defined.

(** [?role=Eng&minExp=2&limit=all]: Ann, with one year, is stored and is not
    listed; Bob is. *)
Lemma listed_candidates_are_those_the_query_asks_for_witness :
  satisfies demo_regex_i
    {| CandidateQuery.q := None;
       CandidateQuery.role := Some "Eng";
       CandidateQuery.minExp := Some "2";
       CandidateQuery.page := None;
       CandidateQuery.limit := Some "all" |}
    (demo_candidate id_b "Bob" (Fin 3) 2)
  /\ ~ satisfies demo_regex_i
         {| CandidateQuery.q := None;
            CandidateQuery.role := Some "Eng";
            CandidateQuery.minExp := Some "2";
            CandidateQuery.page := None;
            CandidateQuery.limit := Some "all" |}
         (demo_candidate id_a "Ann" (Fin 1) 1).
Proof.
  pose proof (listed_candidates_are_those_the_query_asks_for demo_regex_i
                demo_jwt_verify demo_secret demo_cursor_other (demo_env 7 id_d)
                hr_header
                {| CandidateQuery.q := None;
                   CandidateQuery.role := Some "Eng";
                   CandidateQuery.minExp := Some "2";
                   CandidateQuery.page := None;
                   CandidateQuery.limit := Some "all" |}
                demo_store
                [ demo_candidate id_c "Cy" (Fin 5) 3;
                  demo_candidate id_b "Bob" (Fin 3) 2 ]
                2%nat eq_refl eq_refl) as H.
  split.
  - apply (proj1 (H _)). right. left. reflexivity.
  - intros S.
    destruct (proj2 (H (demo_candidate id_a "Ann" (Fin 1) 1))
                (conj (or_introl eq_refl) S)) as [E|[E|[]]]; discriminate E.
Defined.

(** The interview of the session is listed with Bob expanded. *)
Lemma listed_interviews_carry_their_candidate_witness :
  exists c,
    Interview.candidate_doc (populate (candidates session_store) session_interview)
    = Some c
    /\ In c (candidates session_store)
    /\ Candidate._id c = id_a.
Proof.
  destruct (listed_interviews_carry_their_candidate demo_isEmail demo_regex_i
              true demo_bcrypt_hash demo_bcrypt_compare demo_jwt_sign
              demo_jwt_verify demo_Date_parse demo_secret demo_cursor_other
              demo_trace (demo_env 12 id_c) hr_header
              (interviews_query None (Some "all"))
              [populate (candidates session_store) session_interview] 1%nat
              eq_refl eq_refl
              (populate (candidates session_store) session_interview)
              (or_introl eq_refl))
    as [_ [_ [c [H1 [H2 H3]]]]].
  exists c. split; [exact H1|]. split; [exact H2|exact H3].
Defined.

(** [?page=2&limit=2] and [?page=1&limit=500] on three candidates. *)
Lemma a_decimal_page_request_witness :
  listCandidates demo_regex_i demo_jwt_verify demo_secret demo_cursor_other
    (demo_env 7 id_d) hr_header (candidates_query None (Some "2") (Some "2"))
    demo_store
  = json 200 (JsonCandidates [demo_candidate id_a "Ann" (Fin 1) 1] 3)
  /\ listInterviews demo_jwt_verify demo_secret demo_cursor_other
       (demo_env 7 id_d) hr_header (interviews_query (Some "1") (Some "500"))
       demo_store
     = json 200
         (JsonInterviews
            (map (populate (candidates demo_store))
               [ demo_interview id_b id_b 30;
                 demo_interview id_c id_a 20;
                 demo_interview id_a id_a 10 ]) 3).
Proof.
  split.
  - rewrite (proj1 (a_decimal_page_request demo_regex_i demo_jwt_verify
                      demo_secret demo_cursor_other (demo_env 7 id_d) hr_header
                      hr_claims demo_store 2 2 eq_refl
                      (le_S 1 1 (le_n 1)) (le_S 1 1 (le_n 1)) eq_refl eq_refl)
               (candidates_query None (Some "2") (Some "2")) (fun _ => true)
               eq_refl eq_refl eq_refl).
    reflexivity.
  - assert (big : (1 <= 500)%nat) by (apply Nat.leb_le; reflexivity).
    rewrite (proj2 (a_decimal_page_request demo_regex_i demo_jwt_verify
                      demo_secret demo_cursor_other (demo_env 7 id_d) hr_header
                      hr_claims demo_store 1 500 eq_refl (le_n 1) big
                      eq_refl eq_refl)
               (interviews_query (Some "1") (Some "500")) (fun _ => true)
               eq_refl eq_refl eq_refl).
    reflexivity.
Defined.

(** The token of the login above is for the user stored under "a@x.com". *)
Lemma login_token_is_for_a_stored_user_witness :
  exists u,
    In u (users one_user_store)
    /\ User.email u = "a@x.com"
    /\ demo_bcrypt_compare "secret1" (User.passwordHash u) = true
    /\ "signed:dddddddddddddddddddddddd"
       = demo_jwt_sign {| userId := User._id u; role := Some (User.role u) |}
           demo_secret "8h" 12.
Proof.
  exact (login_token_is_for_a_stored_user demo_isEmail true demo_bcrypt_compare
           demo_jwt_sign demo_secret (demo_env 12 id_c)
           (login_as "a@X.COM" "secret1") one_user_store
           "signed:dddddddddddddddddddddddd" eq_refl).
Defined.

(** [?minExp=abc]. *)
Lemma non_numeric_minExp_is_a_server_error_witness :
  status (listCandidates demo_regex_i demo_jwt_verify demo_secret
            demo_cursor_other (demo_env 7 id_d) hr_header
            (candidates_query (Some "abc") None None) demo_store)
  = 500.
Proof.
  apply (non_numeric_minExp_is_a_server_error demo_regex_i demo_jwt_verify
           demo_secret demo_cursor_other (demo_env 7 id_d) hr_header hr_claims
           (candidates_query (Some "abc") None None) demo_store "abc");
    [reflexivity|reflexivity|discriminate|reflexivity].
Defined.
